(** * Static agent scanner (opensymbolicai_cli/scanner.py)

    A shallow embedding of the scanner: the syntax tree that [ast.parse]
    returns is an inductive type, the file system and the two library
    readers ([Path.read_text] + [ast.parse], [open] + [json.load]) are a
    record of outcomes, exceptions are values of [exn] threaded through a
    small error monad, and every function of scanner.py is a function of
    the same name here. *)

From Stdlib Require Import List String Ascii Bool Arith ZArith Lia Permutation.
From Stdlib Require Import Numbers.DecimalString.
From Equations Require Import Equations.
Import ListNotations.
Local Open Scope string_scope.
Local Open Scope list_scope.

Set Warnings "-register-all".

(** ** Python [str] operations used by the scanner

    Source text is modelled as [string]; a character is whitespace when
    [str.isspace] holds of it in the ASCII range. *)
Module PyStr.

Definition nl : string := String (ascii_of_nat 10) EmptyString.

Definition is_space (c : ascii) : bool :=
  let n := nat_of_ascii c in
  ((9 <=? n)%nat && (n <=? 13)%nat) || ((28 <=? n)%nat && (n <=? 32)%nat).

(** [s.lstrip()] *)
Fixpoint lstrip (s : string) : string :=
  match s with
  | EmptyString => EmptyString
  | String c s' => if is_space c then lstrip s' else s
  end.

(** [s.rstrip()] *)
Fixpoint rstrip (s : string) : string :=
  match s with
  | EmptyString => EmptyString
  | String c s' =>
      match rstrip s' with
      | EmptyString => if is_space c then EmptyString else String c EmptyString
      | r => String c r
      end
  end.

(** [s.strip()] *)
Definition strip (s : string) : string := lstrip (rstrip s).

(** [sub in s] *)
Fixpoint str_in (sub s : string) : bool :=
  prefix sub s ||
  match s with
  | EmptyString => false
  | String _ s' => str_in sub s'
  end.

(** [sep.join(parts)] *)
Definition join (sep : string) (parts : list string) : string :=
  String.concat sep parts.

(** [s.split("\n")[0]] *)
Fixpoint first_line (s : string) : string :=
  match s with
  | EmptyString => EmptyString
  | String c s' => if Ascii.eqb c (ascii_of_nat 10) then EmptyString
                   else String c (first_line s')
  end.

(** [bool(s)] for a string *)
Definition truthy (s : string) : bool :=
  match s with EmptyString => false | _ => true end.

(** [name.rfind(".")], as an optional index *)
Fixpoint rfind_dot (s : string) : option nat :=
  match s with
  | EmptyString => None
  | String c s' =>
      match rfind_dot s' with
      | Some i => Some (S i)
      | None => if Ascii.eqb c "."%char then Some 0 else None
      end
  end.

(** [lines[start:stop]] for non-negative bounds *)
Definition slice {A} (l : list A) (start stop : nat) : list A :=
  firstn (stop - start) (skipn start l).

End PyStr.
Import PyStr.

(** ** Syntax trees *)

(** The value of an [ast.Constant].  For bytes, floats and complex numbers
    the scanner only ever calls [str] and [bool] on the value, so such a
    constant is given by the results of these two calls. *)
Inductive constant : Type :=
| CStr (s : string)
| CBool (b : bool)
| CInt (z : Z)
| CNone
| CEllipsis
| COther (str_value : string) (bool_value : bool).

(** [str(value)] *)
Definition py_str (v : constant) : string :=
  match v with
  | CStr s => s
  | CBool true => "True"
  | CBool false => "False"
  | CInt z => NilEmpty.string_of_int (Z.to_int z)
  | CNone => "None"
  | CEllipsis => "Ellipsis"
  | COther s _ => s
  end.

(** [bool(value)] *)
Definition py_bool (v : constant) : bool :=
  match v with
  | CStr s => truthy s
  | CBool b => b
  | CInt z => negb (Z.eqb z 0)
  | CNone => false
  | CEllipsis => true
  | COther _ b => b
  end.

(** The nodes of the [ast] module that the scanner tells apart.  Every
    other statement or expression is an [Other] node holding its child
    nodes in the order of [ast.iter_child_nodes]; an [async def] is such a
    node (it is not an instance of [ast.FunctionDef]).  The childless
    context and operator nodes ([Load], [Store], [Add], ...) are left out:
    they are neither calls nor class definitions and have no children, so
    they do not change which calls and classes a traversal meets, nor in
    which order.  The parser puts [keyword] nodes, and nothing else, in
    the [keywords] of a call or class. *)
Inductive node : Type :=
| Module (body : list node)
| ClassDef (name : string) (bases keywords body decorator_list type_params : list node)
| FunctionDef (name : string) (args : node) (body decorator_list : list node)
    (returns : option node) (type_params : list node)
    (lineno : nat) (end_lineno : option nat)
| Expr (value : node)
| Call (func : node) (args keywords : list node)
| Name (id : string)
| Attribute (value : node) (attr : string)
| Constant (value : constant)
| keyword (arg : option string) (value : node)
| Other (children : list node).

(** [ast.iter_child_nodes]: the child nodes, field by field in the order
    of the node class's [_fields]. *)
Definition iter_child_nodes (n : node) : list node :=
  match n with
  | Module body => body
  | ClassDef _ bases kws body decs tps => bases ++ kws ++ body ++ decs ++ tps
  | FunctionDef _ args body decs returns tps _ _ =>
      args :: body ++ decs ++ (match returns with Some r => [r] | None => [] end) ++ tps
  | Expr v => [v]
  | Call f args kws => f :: args ++ kws
  | Name _ => []
  | Attribute v _ => [v]
  | Constant _ => []
  | keyword _ v => [v]
  | Other cs => cs
  end.

(** Bottom-up fold over a tree; sizes and the document-order listing are
    instances. *)
Fixpoint tree_fold {A : Type} (f : node -> list A -> A) (n : node) : A :=
  f n
    match n with
    | Module body => map (tree_fold f) body
    | ClassDef _ bases kws body decs tps =>
        map (tree_fold f) bases ++ map (tree_fold f) kws ++ map (tree_fold f) body
          ++ map (tree_fold f) decs ++ map (tree_fold f) tps
    | FunctionDef _ args body decs returns tps _ _ =>
        tree_fold f args :: map (tree_fold f) body ++ map (tree_fold f) decs
          ++ (match returns with Some r => [tree_fold f r] | None => [] end)
          ++ map (tree_fold f) tps
    | Expr v => [tree_fold f v]
    | Call fn args kws => tree_fold f fn :: map (tree_fold f) args ++ map (tree_fold f) kws
    | Name _ => []
    | Attribute v _ => [tree_fold f v]
    | Constant _ => []
    | keyword _ v => [tree_fold f v]
    | Other cs => map (tree_fold f) cs
    end.

Lemma tree_fold_unfold {A : Type} (f : node -> list A -> A) (n : node) :
  tree_fold f n = f n (map (tree_fold f) (iter_child_nodes n)).
Proof.
  destruct n; simpl; rewrite ?map_app; try reflexivity.
  destruct returns; reflexivity.
Qed.

Definition node_size : node -> nat := tree_fold (fun _ sizes => S (list_sum sizes)).

Definition forest_size (ts : list node) : nat := list_sum (map node_size ts).

Lemma node_size_unfold n : node_size n = S (forest_size (iter_child_nodes n)).
Proof. unfold node_size at 1. rewrite tree_fold_unfold. reflexivity. Qed.

Lemma forest_size_app ts us : forest_size (ts ++ us) = forest_size ts + forest_size us.
Proof. unfold forest_size. rewrite map_app, list_sum_app. reflexivity. Qed.

Lemma forest_size_cons n ts : forest_size (n :: ts) = node_size n + forest_size ts.
Proof. reflexivity. Qed.

(** [ast.walk]: a queue of pending nodes; the first is taken out, its
    children are put at the back, and the node is yielded. *)
Equations? walk_loop (todo : list node) : list node by wf (forest_size todo) lt :=
  walk_loop [] := [];
  walk_loop (n :: rest) := n :: walk_loop (rest ++ iter_child_nodes n).
Proof.
  rewrite forest_size_app, forest_size_cons, (node_size_unfold n). lia.
Qed.

Definition walk (n : node) : list node := walk_loop [n].

(** ** Exceptions and results *)

(** The exception classes that the library calls of the scanner raise;
    each stands for itself and its subclasses ([OSError] for
    [FileNotFoundError], [SyntaxError] for [IndentationError], ...). *)
Inductive exn : Type :=
| OSError | SyntaxError | UnicodeDecodeError | JSONDecodeError
| AttributeError | ValidationError | ValueError | RecursionError.

Definition exn_eqb (a b : exn) : bool :=
  match a, b with
  | OSError, OSError | SyntaxError, SyntaxError
  | UnicodeDecodeError, UnicodeDecodeError | JSONDecodeError, JSONDecodeError
  | AttributeError, AttributeError | ValidationError, ValidationError
  | ValueError, ValueError | RecursionError, RecursionError => true
  | _, _ => false
  end.

(** [except (c1, c2, ...)]: is the raised exception one of the classes? *)
Definition caught (classes : list exn) (e : exn) : bool := existsb (exn_eqb e) classes.

Inductive result (A : Type) : Type :=
| Ok (a : A)
| Raise (e : exn).
Arguments Ok {A} a.
Arguments Raise {A} e.

Definition bind {A B : Type} (r : result A) (k : A -> result B) : result B :=
  match r with
  | Ok a => k a
  | Raise e => Raise e
  end.

Notation "x <- r ;; k" := (bind r (fun x => k))
  (at level 61, r at next level, right associativity).

(** ** Data model (the three pydantic models of scanner.py) *)

Record DiscoveredMethod : Type := {
  dm_name : string;
  dm_method_type : string;
  dm_docstring : string;
  dm_signature : string;
  dm_source : string;
  dm_line_number : nat;
  dm_read_only : bool;
  dm_intent : string;
  dm_expanded_intent : string
}.

Definition path : Type := list string.

Record DiscoveredAgent : Type := {
  da_name : string;
  da_class_name : string;
  da_file_path : path;
  da_description : string;
  da_version : string;
  da_base_class : string;
  da_methods : list DiscoveredMethod
}.

Record ManifestMetadata : Type := {
  mm_name : string;
  mm_description : string;
  mm_version : string
}.

(** [ManifestMetadata()] *)
Definition ManifestMetadata_default : ManifestMetadata :=
  {| mm_name := ""; mm_description := ""; mm_version := "" |}.

(** ** Paths and the file system *)

(** A path is the list of its parts. *)
Definition path_name (p : path) : string := last p "".
Definition path_parent (p : path) : path := removelast p.
Definition path_join (p : path) (child : string) : path := p ++ [child].

(** [Path.stem]: the final component without its last suffix. *)
Definition path_stem (p : path) : string :=
  let name := path_name p in
  match rfind_dot name with
  | Some i => if (0 <? i)%nat && (i <? String.length name - 1)%nat
              then substring 0 i name else name
  | None => name
  end.

(** What [json.load] returns. An object is given by the items of the
    dict that is built from it. *)
Inductive json : Type :=
| JNull
| JBool (b : bool)
| JNumber (repr : string)
| JString (s : string)
| JArray (items : list json)
| JObject (members : list (string * json)).

(** Outcome of [file_path.read_text(encoding="utf-8")], [splitlines()]
    and [ast.parse] on a source file. *)
Inductive source_outcome : Type :=
| SourceRaises (e : exn)
| SourceParsed (source_lines : list string) (tree : node).

(** Outcome of [open(manifest_path, encoding="utf-8")] and [json.load]. *)
Inductive json_outcome : Type :=
| JsonRaises (e : exn)
| JsonLoaded (data : json).

Record FileSystem : Type := {
  path_exists : path -> bool;
  path_is_file : path -> bool;
  path_is_dir : path -> bool;
  (** [directory.rglob("*.py")], in the order it yields *)
  rglob_py : path -> list path;
  read_and_parse : path -> source_outcome;
  open_and_load_json : path -> json_outcome
}.

(** ** The scanner *)

Section Scanner.

(** [inspect.cleandoc], which [ast.get_docstring] applies to the text. *)
Variable cleandoc : string -> string.

Variable fs : FileSystem.

(** [ast.get_docstring(node)], from the body of a class or function. *)
Definition get_docstring (body : list node) : option string :=
  match body with
  | Expr (Constant (CStr text)) :: _ => Some (cleandoc text)
  | _ => None
  end.

(** The stop test of the signature loop. *)
Definition closes_signature (line : string) : bool :=
  str_in "):" line || str_in ") ->" line.

(** The [for i in range(...)] loop of [_get_method_signature]: [count]
    iterations are left, [i] is the current index. *)
Fixpoint signature_loop (source_lines : list string) (i count : nat) : list string :=
  match count with
  | 0 => []
  | S count' =>
      match nth_error source_lines i with
      | None => []
      | Some line =>
          rstrip line ::
          (if closes_signature line then []
           else signature_loop source_lines (S i) count')
      end
  end.

(** The function definition is given by the fields that are read:
    [func_def.lineno], the 1-based line of the [def] keyword, and
    [func_def.end_lineno]. *)
Definition _get_method_signature (lineno : nat) (source_lines : list string) : string :=
  let start_line := lineno - 1 in
  let stop := Nat.min (start_line + 10) (List.length source_lines) in
  strip (join nl (signature_loop source_lines start_line (stop - start_line))).

Definition _get_method_source (lineno : nat) (end_lineno : option nat)
    (source_lines : list string) : string :=
  let start_line := lineno - 1 in
  let end_line :=
    match end_lineno with
    | Some (S e) => S e
    | _ => start_line + 1
    end in
  join nl (slice source_lines start_line end_line).

(** The local variables that the decorator loop of
    [_extract_decorated_methods] updates. *)
Record tag_state : Type := {
  method_type : option string;
  read_only : bool;
  intent : string;
  expanded_intent : string
}.

Definition initial_tag_state : tag_state :=
  {| method_type := None; read_only := false; intent := ""; expanded_intent := "" |}.

(** One turn of [for keyword in decorator.keywords] under [primitive]. *)
Definition primitive_keyword_step (read_only : bool) (kw : node) : bool :=
  match kw with
  | keyword (Some arg) (Constant v) =>
      if arg =? "read_only" then py_bool v else read_only
  | _ => read_only
  end.

(** One turn of [for keyword in decorator.keywords] under [decomposition]. *)
Definition decomposition_keyword_step (st : tag_state) (kw : node) : tag_state :=
  match kw with
  | keyword (Some arg) (Constant v) =>
      if arg =? "intent" then
        {| method_type := method_type st; read_only := read_only st;
           intent := py_str v; expanded_intent := expanded_intent st |}
      else if arg =? "expanded_intent" then
        {| method_type := method_type st; read_only := read_only st;
           intent := intent st; expanded_intent := py_str v |}
      else st
  | _ => st
  end.

(** One turn of [for decorator in item.decorator_list]. *)
Definition decorator_step (st : tag_state) (decorator : node) : tag_state :=
  match decorator with
  | Name id =>
      if id =? "primitive" then
        {| method_type := Some "primitive"; read_only := read_only st;
           intent := intent st; expanded_intent := expanded_intent st |}
      else st
  | Call (Name id) args kws =>
      if id =? "primitive" then
        {| method_type := Some "primitive";
           read_only := fold_left primitive_keyword_step kws (read_only st);
           intent := intent st; expanded_intent := expanded_intent st |}
      else if id =? "decomposition" then
        fold_left decomposition_keyword_step kws
          {| method_type := Some "decomposition"; read_only := read_only st;
             intent := match args with
                       | Constant v :: _ => py_str v
                       | _ => intent st
                       end;
             expanded_intent := expanded_intent st |}
      else st
  | _ => st
  end.

(** The body of [for item in class_node.body]: the method appended for
    [item], if any. *)
Definition discover_method (item : node) (source_lines : list string)
    : option DiscoveredMethod :=
  match item with
  | FunctionDef name _ body decorator_list _ _ lineno end_lineno =>
      let st := fold_left decorator_step decorator_list initial_tag_state in
      match method_type st with
      | Some mt =>
          if truthy mt then
            Some {| dm_name := name;
                    dm_method_type := mt;
                    dm_docstring := match get_docstring body with
                                    | Some d => if truthy d then d else ""
                                    | None => ""
                                    end;
                    dm_signature := _get_method_signature lineno source_lines;
                    dm_source := _get_method_source lineno end_lineno source_lines;
                    dm_line_number := lineno;
                    dm_read_only := read_only st;
                    dm_intent := intent st;
                    dm_expanded_intent := expanded_intent st |}
          else None
      | None => None
      end
  | _ => None
  end.

Fixpoint methods_loop (body : list node) (source_lines : list string)
    : list DiscoveredMethod :=
  match body with
  | [] => []
  | item :: rest =>
      match discover_method item source_lines with
      | Some m => m :: methods_loop rest source_lines
      | None => methods_loop rest source_lines
      end
  end.

(** [class_node.body], [class_node.name] and [class_node.bases]. *)
Definition class_body (class_node : node) : list node :=
  match class_node with
  | ClassDef _ _ _ body _ _ => body
  | _ => []
  end.

Definition class_name_of (class_node : node) : string :=
  match class_node with
  | ClassDef name _ _ _ _ _ => name
  | _ => ""
  end.

Definition class_bases (class_node : node) : list node :=
  match class_node with
  | ClassDef _ bases _ _ _ _ => bases
  | _ => []
  end.

Definition _extract_decorated_methods (class_node : node) (source_lines : list string)
    : list DiscoveredMethod :=
  methods_loop (class_body class_node) source_lines.

(** *** Manifest *)

(** [data.get(key, "")] followed by the validation of a [str] field. *)
Fixpoint dict_get (members : list (string * json)) (key : string) : option json :=
  match members with
  | [] => None
  | (k, v) :: rest => if k =? key then Some v else dict_get rest key
  end.

Definition manifest_field (data : json) (key : string) : result string :=
  match data with
  | JObject members =>
      match dict_get members key with
      | None => Ok ""
      | Some (JString s) => Ok s
      | Some _ => Raise ValidationError
      end
  | _ => Raise AttributeError
  end.

Definition manifest_path (file_path : path) (manifest_name : option string) : path :=
  let manifest_name :=
    match manifest_name with
    | None => (path_stem file_path ++ ".manifest.json")%string
    | Some n => n
    end in
  path_join (path_parent file_path) manifest_name.

Definition _load_manifest_metadata (file_path : path) (manifest_name : option string)
    : result ManifestMetadata :=
  let manifest_path := manifest_path file_path manifest_name in
  if negb (path_exists fs manifest_path) then Ok ManifestMetadata_default
  else
    match open_and_load_json fs manifest_path with
    | JsonRaises e =>
        if caught [JSONDecodeError; OSError] e then Ok ManifestMetadata_default
        else Raise e
    | JsonLoaded data =>
        name <- manifest_field data "name" ;;
        description <- manifest_field data "description" ;;
        version <- manifest_field data "version" ;;
        Ok {| mm_name := name; mm_description := description; mm_version := version |}
    end.

(** [for keyword in item.keywords] of [_extract_manifest_filename]. *)
Fixpoint manifest_keyword_loop (keywords : list node) : option string :=
  match keywords with
  | [] => None
  | keyword (Some arg) (Constant v) :: rest =>
      if arg =? "manifest_name" then Some (py_str v) else manifest_keyword_loop rest
  | _ :: rest => manifest_keyword_loop rest
  end.

(** [for item in ast.walk(class_node)] of [_extract_manifest_filename].
    The result is Python's [str | None]: [None] asks for the default
    name, [Some ""] says that no call was found. *)
Fixpoint manifest_filename_loop (items : list node) : option string :=
  match items with
  | [] => Some ""
  | Call (Name id) args keywords :: rest =>
      if id =? "load_manifest" then
        match args with
        | _ :: Constant v :: _ => Some (py_str v)
        | _ => manifest_keyword_loop keywords
        end
      else manifest_filename_loop rest
  | _ :: rest => manifest_filename_loop rest
  end.

Definition _extract_manifest_filename (class_node : node) : option string :=
  manifest_filename_loop (walk class_node).

(** *** Classes *)

(** [valid_base_names = {"PlanExecute", "Planner"}] *)
Definition valid_base_name (s : string) : bool :=
  (s =? "PlanExecute") || (s =? "Planner").

(** [for base in class_node.bases], which breaks at the first match. *)
Fixpoint base_class_loop (bases : list node) : option string :=
  match bases with
  | [] => None
  | Name id :: rest =>
      if valid_base_name id then Some id else base_class_loop rest
  | Attribute _ attr :: rest =>
      if valid_base_name attr then Some attr else base_class_loop rest
  | _ :: rest => base_class_loop rest
  end.

(** The locals [name], [description] and [version]. *)
Record agent_fields : Type := {
  af_name : string;
  af_description : string;
  af_version : string
}.

(** One turn of [for keyword in item.keywords] under an [__init__] call. *)
Definition init_keyword_step (af : agent_fields) (kw : node) : agent_fields :=
  match kw with
  | keyword (Some arg) (Constant v) =>
      if arg =? "name" then
        {| af_name := py_str v; af_description := af_description af;
           af_version := af_version af |}
      else if arg =? "description" then
        {| af_name := af_name af; af_description := py_str v;
           af_version := af_version af |}
      else if arg =? "version" then
        {| af_name := af_name af; af_description := af_description af;
           af_version := py_str v |}
      else af
  | _ => af
  end.

(** One turn of [for item in ast.walk(class_node)]. *)
Definition init_call_step (af : agent_fields) (item : node) : agent_fields :=
  match item with
  | Call (Attribute _ attr) _ keywords =>
      if attr =? "__init__" then fold_left init_keyword_step keywords af else af
  | _ => af
  end.

(** The values after the [super().__init__] loop: the defaults, overwritten
    by the literal keyword arguments met on the way. *)
Definition inline_fields (class_node : node) : agent_fields :=
  fold_left init_call_step (walk class_node)
    {| af_name := class_name_of class_node; af_description := ""; af_version := "" |}.

(** The three [if manifest_meta.x: x = manifest_meta.x] statements. *)
Definition merge_manifest (af : agent_fields) (manifest_meta : ManifestMetadata)
    : agent_fields :=
  {| af_name := if truthy (mm_name manifest_meta)
                then mm_name manifest_meta else af_name af;
     af_description := if truthy (mm_description manifest_meta)
                       then mm_description manifest_meta else af_description af;
     af_version := if truthy (mm_version manifest_meta)
                   then mm_version manifest_meta else af_version af |}.

(** [manifest_filename != ""] *)
Definition load_manifest_found (manifest_filename : option string) : bool :=
  match manifest_filename with
  | Some s => negb (s =? "")
  | None => true
  end.

(** The class docstring's first line, when the description is still empty. *)
Definition docstring_fallback (class_node : node) (description : string) : string :=
  if negb (truthy description) then
    match get_docstring (class_body class_node) with
    | Some docstring =>
        if truthy docstring then strip (first_line docstring) else description
    | None => description
    end
  else description.

(** The body of [for class_node in ast.walk(tree)] for a class that has
    the base [base_class_name]. *)
Definition discover_agent (file_path : path) (source_lines : list string)
    (class_node : node) (base_class_name : string) : result DiscoveredAgent :=
  let af := inline_fields class_node in
  let manifest_filename := _extract_manifest_filename class_node in
  af <- (if load_manifest_found manifest_filename then
           manifest_meta <- _load_manifest_metadata file_path manifest_filename ;;
           Ok (merge_manifest af manifest_meta)
         else Ok af) ;;
  Ok {| da_name := af_name af;
        da_class_name := class_name_of class_node;
        da_file_path := file_path;
        da_description := docstring_fallback class_node (af_description af);
        da_version := af_version af;
        da_base_class := base_class_name;
        da_methods := _extract_decorated_methods class_node source_lines |}.

(** The base that makes a node a candidate class, if it is one. *)
Definition candidate_base (n : node) : option string :=
  match n with
  | ClassDef _ bases _ _ _ _ =>
      match base_class_loop bases with
      | Some b => if truthy b then Some b else None
      | None => None
      end
  | _ => None
  end.

Fixpoint agents_loop (file_path : path) (source_lines : list string)
    (nodes : list node) : result (list DiscoveredAgent) :=
  match nodes with
  | [] => Ok []
  | class_node :: rest =>
      match candidate_base class_node with
      | None => agents_loop file_path source_lines rest
      | Some base_class_name =>
          agent <- discover_agent file_path source_lines class_node base_class_name ;;
          agents <- agents_loop file_path source_lines rest ;;
          Ok (agent :: agents)
      end
  end.

Definition _extract_agent_info_from_ast (file_path : path) : result (list DiscoveredAgent) :=
  match read_and_parse fs file_path with
  | SourceRaises e => if caught [SyntaxError; OSError] e then Ok [] else Raise e
  | SourceParsed source_lines tree => agents_loop file_path source_lines (walk tree)
  end.

(** ["__pycache__" in py_file.parts] *)
Definition in_pycache (py_file : path) : bool :=
  existsb (String.eqb "__pycache__") py_file.

(** [for py_file in directory.rglob("*.py")] *)
Fixpoint directory_loop (files : list path) : result (list DiscoveredAgent) :=
  match files with
  | [] => Ok []
  | py_file :: rest =>
      if in_pycache py_file then directory_loop rest
      else
        discovered <- _extract_agent_info_from_ast py_file ;;
        agents <- directory_loop rest ;;
        Ok (discovered ++ agents)
  end.

Definition scan_directory_for_agents (directory : path) : result (list DiscoveredAgent) :=
  if negb (path_exists fs directory) || negb (path_is_dir fs directory) then Ok []
  else directory_loop (rglob_py fs directory).

Definition scan_file_for_agents (file_path : path) : result (list DiscoveredAgent) :=
  if negb (path_exists fs file_path) || negb (path_is_file fs file_path) then Ok []
  else _extract_agent_info_from_ast file_path.

End Scanner.

(** ** Vocabulary of the statements *)

(** The capability tag that one decorator carries by itself. *)
Definition recognized_tag (decorator : node) : option string :=
  match decorator with
  | Name id => if id =? "primitive" then Some "primitive" else None
  | Call (Name id) _ _ =>
      if id =? "primitive" then Some "primitive"
      else if id =? "decomposition" then Some "decomposition"
      else None
  | _ => None
  end.

Definition unrecognized (decorator : node) : Prop := recognized_tag decorator = None.

(** [keyword.arg] *)
Definition keyword_arg (kw : node) : option string :=
  match kw with
  | keyword arg _ => arg
  | _ => None
  end.

(** A keyword argument [arg=<literal>]. *)
Definition literal_keyword (arg : string) (kw : node) : option constant :=
  match kw with
  | keyword (Some a) (Constant v) => if a =? arg then Some v else None
  | _ => None
  end.

(** The last element of a list on which [f] is defined. *)
Fixpoint last_some {A B : Type} (f : A -> option B) (l : list A) : option B :=
  match l with
  | [] => None
  | x :: rest =>
      match last_some f rest with
      | Some b => Some b
      | None => f x
      end
  end.

(** What one decorator, taken alone, assigns to [read_only], [intent]
    and [expanded_intent]. *)
Definition sets_read_only (decorator : node) : option bool :=
  match decorator with
  | Call (Name id) _ kws =>
      if id =? "primitive"
      then option_map py_bool (last_some (literal_keyword "read_only") kws)
      else None
  | _ => None
  end.

Definition sets_intent (decorator : node) : option string :=
  match decorator with
  | Call (Name id) args kws =>
      if id =? "primitive" then None
      else if id =? "decomposition" then
        match last_some (literal_keyword "intent") kws with
        | Some v => Some (py_str v)
        | None => match args with
                  | Constant v :: _ => Some (py_str v)
                  | _ => None
                  end
        end
      else None
  | _ => None
  end.

Definition sets_expanded_intent (decorator : node) : option string :=
  match decorator with
  | Call (Name id) _ kws =>
      if id =? "primitive" then None
      else if id =? "decomposition"
      then option_map py_str (last_some (literal_keyword "expanded_intent") kws)
      else None
  | _ => None
  end.

(** A method of the class body that carries a recognized tag. *)
Definition tagged (item : node) : bool :=
  match item with
  | FunctionDef _ _ _ decorator_list _ _ _ _ =>
      match last_some recognized_tag decorator_list with
      | Some _ => true
      | None => false
      end
  | _ => false
  end.

Definition function_name (item : node) : string :=
  match item with
  | FunctionDef name _ _ _ _ _ _ _ => name
  | _ => ""
  end.

Definition function_lineno (item : node) : nat :=
  match item with
  | FunctionDef _ _ _ _ _ _ lineno _ => lineno
  | _ => 0
  end.

Definition function_tag (item : node) : string :=
  match item with
  | FunctionDef _ _ _ decorator_list _ _ _ _ =>
      match last_some recognized_tag decorator_list with
      | Some t => t
      | None => ""
      end
  | _ => ""
  end.

(** The prefix of a list up to and including the first element on which
    [p] holds (the whole list when there is none). *)
Fixpoint take_through {A : Type} (p : A -> bool) (l : list A) : list A :=
  match l with
  | [] => []
  | x :: rest => x :: (if p x then [] else take_through p rest)
  end.

(** The at most ten lines of the buffer that start at line [lineno]. *)
Definition signature_window (lineno : nat) (source_lines : list string) : list string :=
  firstn 10 (skipn (lineno - 1) source_lines).

(** The signature as the specification words it: the raw lines from the
    def line up to and including the first one that contains the closing
    parenthesis followed by the colon, at most ten of them, each with its
    trailing whitespace trimmed, joined with line breaks. *)
Definition spec_signature (lineno : nat) (source_lines : list string) : string :=
  join nl (map rstrip (take_through (str_in "):") (signature_window lineno source_lines))).

(** Document order: a node, then its children's subtrees from first to
    last. *)
Definition preorder : node -> list node :=
  tree_fold (fun n subtrees => n :: List.concat subtrees).

(** The nodes at a given depth below [n], from left to right. *)
Fixpoint nodes_at_depth (d : nat) (n : node) : list node :=
  match d with
  | 0 => [n]
  | S d' => flat_map (nodes_at_depth d') (iter_child_nodes n)
  end.

(** [l1] is [l2] with some elements left out, the order kept. *)
Inductive Subseq {A : Type} : list A -> list A -> Prop :=
| Subseq_nil : Subseq [] []
| Subseq_skip l1 l2 x : Subseq l1 l2 -> Subseq l1 (x :: l2)
| Subseq_keep l1 l2 x : Subseq l1 l2 -> Subseq (x :: l1) (x :: l2).

(** The candidate classes among some nodes, in the order of the nodes. *)
Definition is_candidate (n : node) : bool :=
  match candidate_base n with
  | Some _ => true
  | None => false
  end.

Definition candidate_classes (nodes : list node) : list node := filter is_candidate nodes.

(** The [load_manifest(...)] calls among some nodes. *)
Definition is_load_manifest_call (n : node) : bool :=
  match n with
  | Call (Name id) _ _ => id =? "load_manifest"
  | _ => false
  end.

Definition load_manifest_calls (class_node : node) : list node :=
  filter is_load_manifest_call (walk class_node).

(** The description that a class gets when no manifest is consulted: the
    literal [description] of its [__init__] call or, failing that, the
    first line of its docstring. *)
Definition inline_description (cleandoc : string -> string) (class_node : node) : string :=
  docstring_fallback cleandoc class_node (af_description (inline_fields class_node)).

(** The merge policy for one field. *)
Definition merged_field (manifest_value inline_value resolved : string) : Prop :=
  (manifest_value <> "" -> resolved = manifest_value) /\
  (manifest_value = "" -> resolved = inline_value).

(** The file name that a [load_manifest] call asks for. *)
Definition filename_of_call (call : node) : option string :=
  match call with
  | Call _ (_ :: Constant v :: _) _ => Some (py_str v)
  | Call _ _ keywords => manifest_keyword_loop keywords
  | _ => None
  end.

(** ** Sample files

    Three source files of a directory [agents], with the trees that
    [ast.parse] builds for them, two files that cannot be scanned, and
    the manifests beside them. *)
Module Samples.

(** [inspect.cleandoc] leaves the one-line docstrings of the samples as
    they are. *)
Definition cleandoc (text : string) : string := text.

(** The [arguments] node of a parameter list without annotations or
    defaults: one childless [arg] node per parameter. *)
Definition arguments (names : list string) : node := Other (map (fun _ => Other []) names).

Definition pass : node := Other [].

(** agents/calc.py *)
Definition calc_lines : list string :=
  [ "class Calculator(PlanExecute):";
    "    '''Adds numbers.'''";
    "    def __init__(self):";
    "        super().__init__(name='Calc', description='A', version='1.0')";
    "        load_manifest(__file__)";
    "";
    "    @primitive(read_only=True)";
    "    def add(self, a, b):";
    "        return a + b";
    "";
    "    @decomposition(intent='sum a list')";
    "    def total(";
    "        self,";
    "        xs,";
    "    ) -> int:";
    "        return 0";
    "";
    "    @primitive";
    "    def reset(self):";
    "        self.v = 0";
    "";
    "    @decomposition";
    "    def plan(self):";
    "        pass" ].

Definition calc_init : node :=
  FunctionDef "__init__" (arguments ["self"])
    [ Expr (Call (Attribute (Call (Name "super") [] []) "__init__") []
              [ keyword (Some "name") (Constant (CStr "Calc"));
                keyword (Some "description") (Constant (CStr "A"));
                keyword (Some "version") (Constant (CStr "1.0")) ]);
      Expr (Call (Name "load_manifest") [Name "__file__"] []) ]
    [] None [] 3 (Some 5).

Definition calc_add : node :=
  FunctionDef "add" (arguments ["self"; "a"; "b"])
    [ Other [Other [Name "a"; Name "b"]] ]
    [ Call (Name "primitive") [] [keyword (Some "read_only") (Constant (CBool true))] ]
    None [] 8 (Some 9).

Definition calc_total : node :=
  FunctionDef "total" (arguments ["self"; "xs"])
    [ Other [Constant (CInt 0)] ]
    [ Call (Name "decomposition") [] [keyword (Some "intent") (Constant (CStr "sum a list"))] ]
    (Some (Name "int")) [] 12 (Some 16).

Definition calc_reset : node :=
  FunctionDef "reset" (arguments ["self"])
    [ Other [Attribute (Name "self") "v"; Constant (CInt 0)] ]
    [ Name "primitive" ] None [] 19 (Some 20).

Definition calc_plan : node :=
  FunctionDef "plan" (arguments ["self"]) [ pass ]
    [ Name "decomposition" ] None [] 23 (Some 24).

Definition calc_docstring : node := Expr (Constant (CStr "Adds numbers.")).

Definition calc_class : node :=
  ClassDef "Calculator" [Name "PlanExecute"] []
    [ calc_docstring; calc_init; calc_add; calc_total; calc_reset; calc_plan ]
    [] [].

Definition calc_tree : node := Module [calc_class].

(** agents/nested.py *)
Definition nested_lines : list string :=
  [ "class Outer(PlanExecute):";
    "    def __init__(self):";
    "        load_manifest(__file__)";
    "";
    "    class Inner(base.Planner):";
    "        pass";
    "";
    "class Last(PlanExecute):";
    "    pass" ].

Definition inner_class : node :=
  ClassDef "Inner" [Attribute (Name "base") "Planner"] [] [pass] [] [].

Definition outer_class : node :=
  ClassDef "Outer" [Name "PlanExecute"] []
    [ FunctionDef "__init__" (arguments ["self"])
        [ Expr (Call (Name "load_manifest") [Name "__file__"] []) ]
        [] None [] 2 (Some 3);
      inner_class ]
    [] [].

Definition last_class : node := ClassDef "Last" [Name "PlanExecute"] [] [pass] [] [].

Definition nested_tree : node := Module [outer_class; last_class].

(** agents/pair.py *)
Definition pair_lines : list string :=
  [ "class A(PlanExecute):";
    "    def __init__(self):";
    "        super().__init__(name='Alpha')";
    "        load_manifest(__file__)";
    "";
    "    @primitive";
    "    def run(self):";
    "        pass";
    "";
    "class B(PlanExecute):";
    "    @decomposition('go')";
    "    def run(self):";
    "        pass" ].

Definition pair_a : node :=
  ClassDef "A" [Name "PlanExecute"] []
    [ FunctionDef "__init__" (arguments ["self"])
        [ Expr (Call (Attribute (Call (Name "super") [] []) "__init__") []
                  [ keyword (Some "name") (Constant (CStr "Alpha")) ]);
          Expr (Call (Name "load_manifest") [Name "__file__"] []) ]
        [] None [] 2 (Some 4);
      FunctionDef "run" (arguments ["self"]) [pass] [Name "primitive"] None [] 7 (Some 8) ]
    [] [].

Definition pair_b : node :=
  ClassDef "B" [Name "PlanExecute"] []
    [ FunctionDef "run" (arguments ["self"]) [pass]
        [ Call (Name "decomposition") [Constant (CStr "go")] [] ] None [] 12 (Some 13) ]
    [] [].

Definition pair_tree : node := Module [pair_a; pair_b].

(** A class whose method carries both tags. *)
Definition mixed_lines : list string :=
  [ "class Mixed(PlanExecute):";
    "    @primitive(read_only=True)";
    "    @decomposition('split the work')";
    "    def both(self):";
    "        pass" ].

Definition mixed_read_only : node :=
  Call (Name "primitive") [] [keyword (Some "read_only") (Constant (CBool true))].

Definition mixed_decomposition : node :=
  Call (Name "decomposition") [Constant (CStr "split the work")] [].

Definition mixed_class : node :=
  ClassDef "Mixed" [Name "PlanExecute"] []
    [ FunctionDef "both" (arguments ["self"]) [pass]
        [mixed_read_only; mixed_decomposition] None [] 4 (Some 5) ]
    [] [].

(** The directory. [broken.py] does not parse, [locked.py] cannot be
    opened; [calc.manifest.json] overrides two fields,
    [pair.manifest.json] is not JSON, and there is no
    [nested.manifest.json]. *)
Definition agents_dir : path := ["agents"].
Definition calc_py : path := ["agents"; "calc.py"].
Definition nested_py : path := ["agents"; "nested.py"].
Definition pair_py : path := ["agents"; "pair.py"].
Definition broken_py : path := ["agents"; "broken.py"].
Definition locked_py : path := ["agents"; "locked.py"].
Definition cached_py : path := ["agents"; "__pycache__"; "calc.py"].
Definition calc_manifest : path := ["agents"; "calc.manifest.json"].
Definition pair_manifest : path := ["agents"; "pair.manifest.json"].

Fixpoint path_eqb (p q : path) : bool :=
  match p, q with
  | [], [] => true
  | a :: p', b :: q' => (a =? b) && path_eqb p' q'
  | _, _ => false
  end.

Definition files : list path :=
  [calc_py; broken_py; cached_py; locked_py; nested_py; pair_py].

Definition fs : FileSystem :=
  {| path_exists p :=
       path_eqb p agents_dir || existsb (path_eqb p) (calc_manifest :: pair_manifest :: files);
     path_is_file p := existsb (path_eqb p) (calc_manifest :: pair_manifest :: files);
     path_is_dir p := path_eqb p agents_dir;
     rglob_py p := if path_eqb p agents_dir then files else [];
     read_and_parse p :=
       if path_eqb p calc_py || path_eqb p cached_py then SourceParsed calc_lines calc_tree
       else if path_eqb p nested_py then SourceParsed nested_lines nested_tree
       else if path_eqb p pair_py then SourceParsed pair_lines pair_tree
       else if path_eqb p broken_py then SourceRaises SyntaxError
       else SourceRaises OSError;
     open_and_load_json p :=
       if path_eqb p calc_manifest
       then JsonLoaded (JObject [("description", JString "B"); ("version", JString "2.0")])
       else if path_eqb p pair_manifest then JsonRaises JSONDecodeError
       else JsonRaises OSError |}.

End Samples.

(** ** Vocabulary of the further statements *)

(** The name under which a base of a class is recognized, if it is:
    [PlanExecute], [Planner], or an attribute reference that ends in one
    of them. *)
Definition recognized_base (base : node) : option string :=
  match base with
  | Name id => if valid_base_name id then Some id else None
  | Attribute _ attr => if valid_base_name attr then Some attr else None
  | _ => None
  end.

(** The keyword arguments of all the [__init__] calls below a class, in
    the order in which the traversal meets them. *)
Definition init_keywords (class_node : node) : list node :=
  flat_map (fun item =>
              match item with
              | Call (Attribute _ attr) _ keywords =>
                  if attr =? "__init__" then keywords else []
              | _ => []
              end)
    (walk class_node).

(** Does the text begin, or end, with a whitespace character? *)
Definition head_is_space (s : string) : bool :=
  match s with
  | EmptyString => false
  | String c _ => is_space c
  end.

Fixpoint last_is_space (s : string) : bool :=
  match s with
  | EmptyString => false
  | String c EmptyString => is_space c
  | String _ s' => last_is_space s'
  end.

(** The text holds no line break. *)
Fixpoint one_line (s : string) : bool :=
  match s with
  | EmptyString => true
  | String c s' => negb (Ascii.eqb c (ascii_of_nat 10)) && one_line s'
  end.

(** The value of a manifest key: a string, or nothing at all. *)
Definition string_or_absent (value : option json) : option string :=
  match value with
  | None => Some ""
  | Some (JString s) => Some s
  | Some _ => None
  end.

(** The agents of a scan that returned, and none for one that raised. *)
Definition agents_or_none (r : result (list DiscoveredAgent)) : list DiscoveredAgent :=
  match r with
  | Ok agents => agents
  | Raise _ => []
  end.

(** Two file systems that differ at most in what reading the source
    files below a [__pycache__] directory gives. *)
Definition same_outside_pycache (fs fs' : FileSystem) : Prop :=
  (forall p, path_exists fs' p = path_exists fs p) /\
  (forall p, path_is_dir fs' p = path_is_dir fs p) /\
  (forall p, rglob_py fs' p = rglob_py fs p) /\
  (forall p, open_and_load_json fs' p = open_and_load_json fs p) /\
  (forall p, in_pycache p = false -> read_and_parse fs' p = read_and_parse fs p).

(** ** The signature parser of the details screen
    (opensymbolicai_cli/screens/agent_details.py) *)

Module AgentDetails.

(** The text before the first occurrence of a character, and the text
    after it; nothing when the character does not occur. *)
Fixpoint before_char (c : ascii) (s : string) : option string :=
  match s with
  | EmptyString => None
  | String x s' =>
      if Ascii.eqb x c then Some EmptyString
      else option_map (String x) (before_char c s')
  end.

Fixpoint after_char (c : ascii) (s : string) : option string :=
  match s with
  | EmptyString => None
  | String x s' => if Ascii.eqb x c then Some s' else after_char c s'
  end.

(** [re.search(r"\((.*?)\)", signature, re.DOTALL)], as its group 1: the
    search starts at the leftmost opening parenthesis and the lazy group
    stops at the first closing parenthesis after it. *)
Definition paren_match (signature : string) : option string :=
  match after_char "("%char signature with
  | Some rest => before_char ")"%char rest
  | None => None
  end.

(** [\s*$] under [re.MULTILINE], matched at the start of [s]: whitespace
    up to a line break or up to the end of the text. *)
Fixpoint line_ends (s : string) : bool :=
  match s with
  | EmptyString => true
  | String c s' =>
      if Ascii.eqb c (ascii_of_nat 10) then true
      else if is_space c then line_ends s'
      else false
  end.

(** [(.+?):\s*$] matched at the start of [s], as the text of the group:
    the shortest non-empty prefix that is followed by a colon at which
    the line ends. *)
Fixpoint lazy_group (s : string) : option string :=
  match s with
  | EmptyString => None
  | String c s' =>
      match s' with
      | String colon t =>
          if Ascii.eqb colon ":"%char && line_ends t then Some (String c EmptyString)
          else option_map (String c) (lazy_group s')
      | EmptyString => None
      end
  end.

(** The last character of the run of whitespace at the start of [s]. *)
Fixpoint last_leading_space (s : string) : option ascii :=
  match s with
  | EmptyString => None
  | String c s' =>
      if is_space c then
        match last_leading_space s' with
        | Some c' => Some c'
        | None => Some c
        end
      else None
  end.

(** [\s*(.+?):\s*$] matched right after an arrow. The greedy [\s*]
    first takes all the whitespace; when the group finds no end from
    there, giving back one whitespace character lets the group be that
    character, if a colon that ends the line follows at once; giving back
    more cannot help. *)
Definition arrow_match (after_arrow : string) : option string :=
  let rest := lstrip after_arrow in
  match lazy_group rest with
  | Some g => Some g
  | None =>
      match last_leading_space after_arrow, rest with
      | Some c, String colon t =>
          if Ascii.eqb colon ":"%char && line_ends t then Some (String c EmptyString)
          else None
      | _, _ => None
      end
  end.

(** [re.search(r"->\s*(.+?):\s*$", signature, re.MULTILINE | re.DOTALL)],
    as its group 1: the match at the leftmost arrow that has one. *)
Fixpoint return_match (s : string) : option string :=
  match s with
  | EmptyString => None
  | String c s' =>
      match (if Ascii.eqb c "-"%char then
               match s' with
               | String gt t => if Ascii.eqb gt ">"%char then arrow_match t else None
               | EmptyString => None
               end
             else None) with
      | Some g => Some g
      | None => return_match s'
      end
  end.

(** The locals [params], [depth] and [current] of the splitting loop. *)
Record split_state : Type := {
  params : list string;
  depth : Z;
  current : string
}.

Definition opens (char : ascii) : bool :=
  Ascii.eqb char "("%char || Ascii.eqb char "["%char || Ascii.eqb char "{"%char.

Definition closes (char : ascii) : bool :=
  Ascii.eqb char ")"%char || Ascii.eqb char "]"%char || Ascii.eqb char "}"%char.

(** One turn of [for char in params_str]. *)
Definition split_step (st : split_state) (char : ascii) : split_state :=
  let depth := if opens char then (depth st + 1)%Z
               else if closes char then (depth st - 1)%Z
               else depth st in
  if Ascii.eqb char ","%char && (depth =? 0)%Z then
    {| params := params st ++ [strip (current st)]; depth := depth; current := EmptyString |}
  else
    {| params := params st; depth := depth;
       current := (current st ++ String char EmptyString)%string |}.

Fixpoint split_loop (params_str : string) (st : split_state) : split_state :=
  match params_str with
  | EmptyString => st
  | String char rest => split_loop rest (split_step st char)
  end.

(** [params] after the loop and the [if current.strip()] that follows. *)
Definition split_params (params_str : string) : list string :=
  let st := split_loop params_str {| params := []; depth := 0; current := EmptyString |} in
  if truthy (strip (current st)) then params st ++ [strip (current st)] else params st.

(** The body of [for param in params]: the input appended, if any. *)
Definition keep_param (param : string) : option string :=
  let param := strip param in
  if (param =? "self") || prefix "self," param then None
  else if negb (truthy param) then None
  else Some param.

Fixpoint inputs_loop (params : list string) : list string :=
  match params with
  | [] => []
  | param :: rest =>
      match keep_param param with
      | Some p => p :: inputs_loop rest
      | None => inputs_loop rest
      end
  end.

(** The inputs, from the text between the parentheses on. *)
Definition inputs_of_params (params_str : string) : list string :=
  inputs_loop (split_params params_str).

Definition _parse_signature_parts (signature : string) : list string * string :=
  let return_type :=
    if str_in "->" signature then
      match return_match signature with
      | Some group1 => strip group1
      | None => "None"
      end
    else "None" in
  let inputs :=
    match paren_match signature with
    | Some params_str => inputs_of_params params_str
    | None => []
    end in
  (inputs, return_type).

End AgentDetails.

(** Vocabulary of the statements about the signature parser. *)
Module SignatureText.
Import AgentDetails.

(** Does the character occur in the text? *)
Fixpoint occurs (c : ascii) (s : string) : bool :=
  match s with
  | EmptyString => false
  | String x s' => Ascii.eqb x c || occurs c s'
  end.

(** Is every character of the text whitespace? *)
Fixpoint all_space (s : string) : bool :=
  match s with
  | EmptyString => true
  | String c s' => is_space c && all_space s'
  end.

(** Opening brackets minus closing brackets. *)
Fixpoint net_depth (s : string) : Z :=
  match s with
  | EmptyString => 0%Z
  | String c s' =>
      ((if opens c then 1 else if closes c then -1 else 0) + net_depth s')%Z
  end.

(** Text in which every closing bracket answers an opening one: it may
    stand between a pair of brackets. *)
Inductive enclosed : string -> Prop :=
| enclosed_nil : enclosed EmptyString
| enclosed_char c s :
    opens c = false -> closes c = false -> enclosed s -> enclosed (String c s)
| enclosed_group c1 inner c2 s :
    opens c1 = true -> closes c2 = true -> enclosed inner -> enclosed s ->
    enclosed (String c1 (inner ++ String c2 s)).

(** Text whose commas all stand between brackets. *)
Inductive commas_enclosed : string -> Prop :=
| commas_enclosed_nil : commas_enclosed EmptyString
| commas_enclosed_char c s :
    opens c = false -> closes c = false -> Ascii.eqb c ","%char = false ->
    commas_enclosed s -> commas_enclosed (String c s)
| commas_enclosed_group c1 inner c2 s :
    opens c1 = true -> closes c2 = true -> enclosed inner -> commas_enclosed s ->
    commas_enclosed (String c1 (inner ++ String c2 s)).

End SignatureText.

(** ** What the screens do with a discovered agent
    (opensymbolicai_cli/app.py, screens/agent_details.py) *)

Module Screens.

(** [[m for m in agent.methods if m.method_type == kind]] *)
Definition methods_of_type (kind : string) (methods : list DiscoveredMethod)
    : list DiscoveredMethod :=
  filter (fun m => dm_method_type m =? kind) methods.

(** The locals of [AgentDetails.show_agent] that make the summary. *)
Record summary : Type := {
  primitives : list DiscoveredMethod;
  decompositions : list DiscoveredMethod;
  read_only_count : Z;
  mutable_count : Z
}.

Definition summarize (agent : DiscoveredAgent) : summary :=
  let primitives := methods_of_type "primitive" (da_methods agent) in
  let decompositions := methods_of_type "decomposition" (da_methods agent) in
  let read_only_count :=
    fold_left (fun total m => if dm_read_only m then (total + 1)%Z else total)
      primitives 0%Z in
  {| primitives := primitives;
     decompositions := decompositions;
     read_only_count := read_only_count;
     mutable_count := (Z.of_nat (List.length primitives) - read_only_count)%Z |}.

(** An integer in an f-string. *)
Definition format_int (z : Z) : string := py_str (CInt z).

(** [AgentDetails.show_agent]: the texts of the widgets mounted, in
    order. *)
Definition show_agent (agent : DiscoveredAgent) : list string :=
  let s := summarize agent in
  ["[bold]" ++ da_name agent ++ "[/bold]"]%string
  ++ (if truthy (da_description agent) then [da_description agent; ""] else [])
  ++ [("Class: [bold]" ++ da_class_name agent ++ "[/bold]")%string;
      ("Base: " ++ da_base_class agent)%string]
  ++ (if truthy (da_version agent) then [("Version: " ++ da_version agent)%string] else [])
  ++ [("File: " ++ path_name (da_file_path agent))%string;
      "";
      "[bold]Capabilities[/bold]";
      ("  Primitives: " ++ format_int (Z.of_nat (List.length (primitives s))))%string]
  ++ (match primitives s with
      | [] => []
      | _ :: _ => [("    Read-only: " ++ format_int (read_only_count s))%string;
                   ("    Mutable: " ++ format_int (mutable_count s))%string]
      end)
  ++ [("  Decompositions: " ++ format_int (Z.of_nat (List.length (decompositions s))))%string].

(** What [AgentDetailsScreen.on_mount] leaves: the items of the method
    list, and the method shown at once, if any. *)
Record mounted : Type := {
  method_list : list DiscoveredMethod;
  shown : option DiscoveredMethod
}.

(** [AgentDetailsScreen.on_mount]; [None] stands for the IndexError of
    [decompositions[0]] on an empty list. *)
Definition on_mount (agent : DiscoveredAgent) : option mounted :=
  let primitives := methods_of_type "primitive" (da_methods agent) in
  let decompositions := methods_of_type "decomposition" (da_methods agent) in
  let method_list := primitives ++ decompositions in
  match da_methods agent with
  | [] => Some {| method_list := method_list; shown := None |}
  | _ :: _ =>
      match primitives with
      | first_method :: _ => Some {| method_list := method_list; shown := Some first_method |}
      | [] =>
          match decompositions with
          | first_method :: _ =>
              Some {| method_list := method_list; shown := Some first_method |}
          | [] => None
          end
      end
  end.

End Screens.

(** ** The cache of model lists (opensymbolicai_cli/model_cache.py) *)

Module ModelCache.

Record CachedModels : Type := {
  cm_date : string;
  cm_provider : string;
  cm_models : list string
}.

(** The items of a JSON array as strings, if they all are strings. *)
Fixpoint strings_of (items : list json) : option (list string) :=
  match items with
  | [] => Some []
  | JString s :: rest => option_map (cons s) (strings_of rest)
  | _ :: _ => None
  end.

(** [CachedModels.model_validate(data)] on what [json.loads] returned:
    an object with the strings [date] and [provider] and the list of
    strings [models]; other keys are ignored. [None] stands for the
    validation error. *)
Definition model_validate (data : json) : option CachedModels :=
  match data with
  | JObject members =>
      match dict_get members "date", dict_get members "provider",
            dict_get members "models" with
      | Some (JString d), Some (JString p), Some (JArray items) =>
          option_map (fun ms => {| cm_date := d; cm_provider := p; cm_models := ms |})
            (strings_of items)
      | _, _, _ => None
      end
  | _ => None
  end.

(** The document that [cached.model_dump_json(indent=2)] writes, as
    [json.loads] reads it. *)
Definition model_dump_json (cached : CachedModels) : json :=
  JObject [("date", JString (cm_date cached));
           ("provider", JString (cm_provider cached));
           ("models", JArray (map JString (cm_models cached)))].

(** A cache file: absent, present with a text that [read_text] and
    [json.loads] do not get through, or present with a JSON document. *)
Inductive cache_file : Type :=
| Absent
| Unreadable
| Holds (data : json).

Definition store : Type := path -> cache_file.

Definition path_eq_dec : forall p q : path, {p = q} + {p <> q} :=
  list_eq_dec string_dec.

(** The store in which [file] has become [content]. *)
Definition put (s : store) (file : path) (content : cache_file) : store :=
  fun p => if path_eq_dec p file then content else s p.

(** [cache_file.write_text(text)], when it succeeds. *)
Definition write (s : store) (file : path) (data : json) : store :=
  put s file (Holds data).

(** What the functions read from their surroundings: the home
    directory, [date.today().isoformat()], whether the [mkdir] of the
    cache directory succeeds, and for the files whose [write_text]
    raises, what the failed write leaves in the file's place. *)
Record environment : Type := {
  home : path;
  today : string;
  mkdir_succeeds : bool;
  failed_write : path -> option cache_file
}.

Definition _get_cache_dir (env : environment) : result path :=
  if mkdir_succeeds env then Ok (home env ++ [".cache"; "opensymbolicai-cli"])
  else Raise OSError.

Definition _get_cache_file (env : environment) (provider : string) : result path :=
  cache_dir <- _get_cache_dir env ;;
  Ok (path_join cache_dir ("models_" ++ provider ++ ".json")%string).

Definition _is_cache_valid (env : environment) (s : store) (file : path) : bool :=
  match s file with
  | Absent => false
  | Unreadable => false
  | Holds data =>
      match model_validate data with
      | Some cached => cm_date cached =? today env
      | None => false
      end
  end.

Definition get_cached_models (env : environment) (s : store) (provider : string)
    : result (option (list string)) :=
  file <- _get_cache_file env provider ;;
  if negb (_is_cache_valid env s file) then Ok None
  else
    match s file with
    | Holds data =>
        match model_validate data with
        | Some cached => Ok (Some (cm_models cached))
        | None => Ok None
        end
    | _ => Ok None
    end.

(** The store after the call, and what the call returns or raises. *)
Definition save_cached_models (env : environment) (s : store) (provider : string)
    (models : list string) : store * result unit :=
  match _get_cache_file env provider with
  | Raise e => (s, Raise e)
  | Ok file =>
      let cached := {| cm_date := today env; cm_provider := provider;
                       cm_models := models |} in
      match failed_write env file with
      | Some remains => (put s file remains, Raise OSError)
      | None => (write s file (model_dump_json cached), Ok tt)
      end
  end.

(** The keys of [fetchers]. *)
Definition known_provider (provider : string) : bool :=
  existsb (String.eqb provider) ["ollama"; "openai"; "anthropic"; "fireworks"; "groq"].

(** [fetch_models_for_provider]; [fetch provider] is what awaiting the
    provider's fetcher gives, a list of models or an error. *)
Definition fetch_models_for_provider (env : environment)
    (fetch : string -> result (list string)) (s : store) (provider : string)
    : store * result (list string) :=
  match get_cached_models env s provider with
  | Raise e => (s, Raise e)
  | Ok (Some cached) => (s, Ok cached)
  | Ok None =>
      if negb (known_provider provider) then (s, Raise ValueError)
      else
        match fetch provider with
        | Raise e => (s, Raise e)
        | Ok models =>
            match save_cached_models env s provider models with
            | (s', Raise e) => (s', Raise e)
            | (s', Ok _) => (s', Ok models)
            end
        end
  end.

End ModelCache.

(** ** Further sample files *)
Module MoreSamples.
Import Samples.

(** agents/util.py: a class that is no agent.

    class Helper(Base, metaclass=Meta):
        @primitive
        def run(self):
            pass *)
Definition util_py : path := ["agents"; "util.py"].

Definition util_lines : list string :=
  [ "class Helper(Base, metaclass=Meta):";
    "    @primitive";
    "    def run(self):";
    "        pass" ].

Definition util_tree : node :=
  Module
    [ ClassDef "Helper" [Name "Base"] [keyword (Some "metaclass") (Name "Meta")]
        [ FunctionDef "run" (arguments ["self"]) [pass] [Name "primitive"] None [] 3 (Some 4) ]
        [] [] ].

(** agents/latin1.py: a source file whose bytes are not UTF-8. *)
Definition latin1_py : path := ["agents"; "latin1.py"].

(** The sample directory with these two files beside the others. *)
Definition more_files : list path := [calc_py; util_py; latin1_py; nested_py].

Definition fs_more : FileSystem :=
  {| path_exists p := existsb (path_eqb p) [util_py; latin1_py] || path_exists fs p;
     path_is_file p := existsb (path_eqb p) [util_py; latin1_py] || path_is_file fs p;
     path_is_dir := path_is_dir fs;
     rglob_py p := if path_eqb p agents_dir then more_files else [];
     read_and_parse p :=
       if path_eqb p util_py then SourceParsed util_lines util_tree
       else if path_eqb p latin1_py then SourceRaises UnicodeDecodeError
       else read_and_parse fs p;
     open_and_load_json := open_and_load_json fs |}.

(** The sample directory when [pair.manifest.json] holds a JSON array. *)
Definition fs_array_manifest : FileSystem :=
  {| path_exists := path_exists fs;
     path_is_file := path_is_file fs;
     path_is_dir := path_is_dir fs;
     rglob_py := rglob_py fs;
     read_and_parse := read_and_parse fs;
     open_and_load_json p :=
       if path_eqb p pair_manifest then JsonLoaded (JArray [JString "Alpha"])
       else open_and_load_json fs p |}.

(** The sample directory when the copy of calc.py below [__pycache__]
    cannot be decoded. *)
Definition fs_stale_cache : FileSystem :=
  {| path_exists := path_exists fs;
     path_is_file := path_is_file fs;
     path_is_dir := path_is_dir fs;
     rglob_py := rglob_py fs;
     read_and_parse p :=
       if path_eqb p cached_py then SourceRaises UnicodeDecodeError
       else read_and_parse fs p;
     open_and_load_json := open_and_load_json fs |}.

(** A class whose [load_manifest] call names the manifest twice, and
    whose nested class has an [__init__] call of its own.

    class Named(PlanExecute):
        def __init__(self):
            super().__init__(name='Outer name')
            load_manifest(__file__, 'first.json', manifest_name='second.json')

        class Part(Planner):
            def __init__(self):
                super().__init__(name='Inner name') *)
Definition super_init (keywords : list node) : node :=
  Expr (Call (Attribute (Call (Name "super") [] []) "__init__") [] keywords).

Definition named_class : node :=
  ClassDef "Named" [Name "PlanExecute"] []
    [ FunctionDef "__init__" (arguments ["self"])
        [ super_init [keyword (Some "name") (Constant (CStr "Outer name"))];
          Expr (Call (Name "load_manifest")
                  [Name "__file__"; Constant (CStr "first.json")]
                  [keyword (Some "manifest_name") (Constant (CStr "second.json"))]) ]
        [] None [] 2 (Some 4);
      ClassDef "Part" [Name "Planner"] []
        [ FunctionDef "__init__" (arguments ["self"])
            [ super_init [keyword (Some "name") (Constant (CStr "Inner name"))] ]
            [] None [] 7 (Some 8) ]
        [] [] ]
    [] [].

(** The sample directory when [calc.manifest.json] holds bytes that are
    not UTF-8: [json.load] raises the decoding error of the read. *)
Definition fs_undecodable_manifest : FileSystem :=
  {| path_exists := path_exists fs;
     path_is_file := path_is_file fs;
     path_is_dir := path_is_dir fs;
     rglob_py := rglob_py fs;
     read_and_parse := read_and_parse fs;
     open_and_load_json p :=
       if path_eqb p calc_manifest then JsonRaises UnicodeDecodeError
       else open_and_load_json fs p |}.

(** A primitive whose [read_only] argument is a literal that is not a
    boolean.

    class Door(PlanExecute):
        @primitive(read_only='no')
        def open(self):
            pass *)
Definition door_lines : list string :=
  [ "class Door(PlanExecute):";
    "    @primitive(read_only='no')";
    "    def open(self):";
    "        pass" ].

Definition door_class : node :=
  ClassDef "Door" [Name "PlanExecute"] []
    [ FunctionDef "open" (arguments ["self"]) [pass]
        [ Call (Name "primitive") [] [keyword (Some "read_only") (Constant (CStr "no"))] ]
        None [] 3 (Some 4) ]
    [] [].

(** A method with two [decomposition] tags, each with an intent.

    class Twice(PlanExecute):
        @decomposition('first', expanded_intent='kept')
        @decomposition('second')
        def run(self):
            pass *)
Definition twice_lines : list string :=
  [ "class Twice(PlanExecute):";
    "    @decomposition('first', expanded_intent='kept')";
    "    @decomposition('second')";
    "    def run(self):";
    "        pass" ].

Definition twice_first : node :=
  Call (Name "decomposition") [Constant (CStr "first")]
    [keyword (Some "expanded_intent") (Constant (CStr "kept"))].

Definition twice_second : node :=
  Call (Name "decomposition") [Constant (CStr "second")] [].

Definition twice_class : node :=
  ClassDef "Twice" [Name "PlanExecute"] []
    [ FunctionDef "run" (arguments ["self"]) [pass] [twice_first; twice_second]
        None [] 4 (Some 5) ]
    [] [].

(** A cache of model lists: nothing cached, and every write succeeds. *)
Definition cache_env : ModelCache.environment :=
  {| ModelCache.home := ["home"; "user"];
     ModelCache.today := "2026-01-15";
     ModelCache.mkdir_succeeds := true;
     ModelCache.failed_write := fun _ => None |}.

Definition empty_store : ModelCache.store := fun _ => ModelCache.Absent.

Definition service (provider : string) : result (list string) :=
  if provider =? "openai" then Ok ["gpt-4o"; "gpt-4"] else Raise OSError.

Definition service_down (provider : string) : result (list string) := Raise OSError.

(** A store in which a list of models was cached today under a name that
    is not one of the known providers. *)
Definition store_with_mistral : ModelCache.store :=
  ModelCache.write empty_store
    ["home"; "user"; ".cache"; "opensymbolicai-cli"; "models_mistral.json"]
    (ModelCache.model_dump_json
       {| ModelCache.cm_date := "2026-01-15"; ModelCache.cm_provider := "mistral";
          ModelCache.cm_models := ["mistral-large"] |}).

End MoreSamples.

(** * Properties *)

Example walk_is_breadth_first :
  walk (Module [Other [Name "a"; Name "b"]; Name "c"]) =
  [Module [Other [Name "a"; Name "b"]; Name "c"]; Other [Name "a"; Name "b"];
   Name "c"; Name "a"; Name "b"].
Proof. reflexivity. Qed.

(** ** Folds that keep the last assignment *)

Lemma fold_left_last_some {S A B : Type} (step : S -> A -> S) (g : S -> B)
    (sets : A -> option B) :
  (forall st x, g (step st x) = match sets x with Some b => b | None => g st end) ->
  forall l st,
    g (fold_left step l st) = match last_some sets l with Some b => b | None => g st end.
Proof.
  intros Hstep l.
  induction l as [|x l IH]; intros st; simpl; [reflexivity|].
  rewrite IH, Hstep.
  destruct (last_some sets l); reflexivity.
Qed.

Lemma fold_left_preserved {S A B : Type} (step : S -> A -> S) (g : S -> B) :
  (forall st x, g (step st x) = g st) ->
  forall l st, g (fold_left step l st) = g st.
Proof.
  intros Hstep l.
  induction l as [|x l IH]; intros st; simpl; [reflexivity|].
  rewrite IH. apply Hstep.
Qed.

Lemma last_some_option_map {A B C : Type} (f : A -> option B) (h : B -> C) (l : list A) :
  last_some (fun x => option_map h (f x)) l = option_map h (last_some f l).
Proof.
  induction l as [|x l IH]; simpl; [reflexivity|].
  rewrite IH. destruct (last_some f l); reflexivity.
Qed.

Lemma last_some_app {A B : Type} (f : A -> option B) (l1 l2 : list A) :
  last_some f (l1 ++ l2) =
  match last_some f l2 with Some b => Some b | None => last_some f l1 end.
Proof.
  induction l1 as [|x l1 IH]; simpl.
  - destruct (last_some f l2); reflexivity.
  - rewrite IH. destruct (last_some f l2); reflexivity.
Qed.

Lemma last_some_none {A B : Type} (f : A -> option B) (l : list A) :
  Forall (fun x => f x = None) l -> last_some f l = None.
Proof.
  induction 1 as [|x l Hx _ IH]; simpl; [reflexivity|].
  rewrite IH. exact Hx.
Qed.

(** The value that the last of [l] to be defined takes, when the
    elements after it are undefined. *)
Lemma last_some_split {A B : Type} (f : A -> option B) (l1 l2 : list A) (x : A) (b : B) :
  f x = Some b -> Forall (fun y => f y = None) l2 ->
  last_some f (l1 ++ x :: l2) = Some b.
Proof.
  intros Hx Hl2. rewrite last_some_app. simpl.
  rewrite (last_some_none _ _ Hl2). rewrite Hx. reflexivity.
Qed.

(** ** The decorator loop, field by field *)

Lemma primitive_keywords_read_only (kws : list node) (ro : bool) :
  fold_left primitive_keyword_step kws ro =
  match last_some (literal_keyword "read_only") kws with
  | Some v => py_bool v
  | None => ro
  end.
Proof.
  rewrite (fold_left_last_some primitive_keyword_step (fun b => b)
             (fun kw => option_map py_bool (literal_keyword "read_only" kw))).
  - rewrite last_some_option_map.
    destruct (last_some (literal_keyword "read_only") kws); reflexivity.
  - intros st kw. destruct kw as [| | | | | | | |arg value|]; try reflexivity.
    destruct arg as [arg|]; [|reflexivity].
    destruct value; try reflexivity.
    simpl. destruct (arg =? "read_only"); reflexivity.
Qed.

Ltac keyword_cases kw :=
  let arg := fresh "arg" in
  let value := fresh "value" in
  destruct kw as [| | | | | | | |arg value|]; try reflexivity;
  destruct arg as [arg|]; [|reflexivity];
  destruct value; try reflexivity; simpl.

Lemma decomposition_keywords_method_type (kws : list node) (st : tag_state) :
  method_type (fold_left decomposition_keyword_step kws st) = method_type st.
Proof.
  apply fold_left_preserved. intros s kw. keyword_cases kw.
  destruct (arg =? "intent"); [reflexivity|].
  destruct (arg =? "expanded_intent"); reflexivity.
Qed.

Lemma decomposition_keywords_read_only (kws : list node) (st : tag_state) :
  read_only (fold_left decomposition_keyword_step kws st) = read_only st.
Proof.
  apply fold_left_preserved. intros s kw. keyword_cases kw.
  destruct (arg =? "intent"); [reflexivity|].
  destruct (arg =? "expanded_intent"); reflexivity.
Qed.

Lemma decomposition_keywords_intent (kws : list node) (st : tag_state) :
  intent (fold_left decomposition_keyword_step kws st) =
  match last_some (literal_keyword "intent") kws with
  | Some v => py_str v
  | None => intent st
  end.
Proof.
  rewrite (fold_left_last_some decomposition_keyword_step intent
             (fun kw => option_map py_str (literal_keyword "intent" kw))).
  - rewrite last_some_option_map.
    destruct (last_some (literal_keyword "intent") kws); reflexivity.
  - intros s kw. keyword_cases kw.
    destruct (arg =? "intent"); [reflexivity|].
    destruct (arg =? "expanded_intent"); reflexivity.
Qed.

Lemma decomposition_keywords_expanded_intent (kws : list node) (st : tag_state) :
  expanded_intent (fold_left decomposition_keyword_step kws st) =
  match last_some (literal_keyword "expanded_intent") kws with
  | Some v => py_str v
  | None => expanded_intent st
  end.
Proof.
  rewrite (fold_left_last_some decomposition_keyword_step expanded_intent
             (fun kw => option_map py_str (literal_keyword "expanded_intent" kw))).
  - rewrite last_some_option_map.
    destruct (last_some (literal_keyword "expanded_intent") kws); reflexivity.
  - intros s kw. keyword_cases kw.
    destruct (arg =? "intent") eqn:Ei.
    + apply String.eqb_eq in Ei. subst arg. reflexivity.
    + destruct (arg =? "expanded_intent"); reflexivity.
Qed.

Ltac decorator_cases d :=
  let f := fresh "func" in
  let id := fresh "id" in
  destruct d as [| | | |f ? ?|id| | | |]; try reflexivity;
  [destruct f as [| | | | |id| | | |]; try reflexivity; simpl;
   destruct (id =? "primitive"); [|destruct (id =? "decomposition")]
  |simpl; destruct (id =? "primitive")].

Lemma decorator_step_method_type (st : tag_state) (d : node) :
  method_type (decorator_step st d) =
  match recognized_tag d with Some t => Some t | None => method_type st end.
Proof.
  decorator_cases d; try reflexivity.
  rewrite decomposition_keywords_method_type. reflexivity.
Qed.

Lemma decorator_step_read_only (st : tag_state) (d : node) :
  read_only (decorator_step st d) =
  match sets_read_only d with Some b => b | None => read_only st end.
Proof.
  decorator_cases d; try reflexivity.
  - simpl. rewrite primitive_keywords_read_only.
    destruct (last_some (literal_keyword "read_only") _); reflexivity.
  - rewrite decomposition_keywords_read_only. reflexivity.
Qed.

Lemma decorator_step_intent (st : tag_state) (d : node) :
  intent (decorator_step st d) =
  match sets_intent d with Some s => s | None => intent st end.
Proof.
  decorator_cases d; try reflexivity.
  rewrite decomposition_keywords_intent. simpl.
  destruct (last_some (literal_keyword "intent") _); [reflexivity|].
  destruct args as [|a ?]; [reflexivity|]. destruct a; reflexivity.
Qed.

Lemma decorator_step_expanded_intent (st : tag_state) (d : node) :
  expanded_intent (decorator_step st d) =
  match sets_expanded_intent d with Some s => s | None => expanded_intent st end.
Proof.
  decorator_cases d; try reflexivity.
  rewrite decomposition_keywords_expanded_intent. simpl.
  destruct (last_some (literal_keyword "expanded_intent") _); reflexivity.
Qed.

Lemma decorators_method_type (decs : list node) :
  method_type (fold_left decorator_step decs initial_tag_state) =
  last_some recognized_tag decs.
Proof.
  rewrite (fold_left_last_some decorator_step method_type
             (fun d => option_map Some (recognized_tag d))).
  - rewrite last_some_option_map. destruct (last_some recognized_tag decs); reflexivity.
  - intros st d. rewrite decorator_step_method_type.
    destruct (recognized_tag d); reflexivity.
Qed.

Lemma decorators_read_only (decs : list node) :
  read_only (fold_left decorator_step decs initial_tag_state) =
  match last_some sets_read_only decs with Some b => b | None => false end.
Proof. apply (fold_left_last_some decorator_step read_only), decorator_step_read_only. Qed.

Lemma decorators_intent (decs : list node) :
  intent (fold_left decorator_step decs initial_tag_state) =
  match last_some sets_intent decs with Some s => s | None => "" end.
Proof. apply (fold_left_last_some decorator_step intent), decorator_step_intent. Qed.

Lemma decorators_expanded_intent (decs : list node) :
  expanded_intent (fold_left decorator_step decs initial_tag_state) =
  match last_some sets_expanded_intent decs with Some s => s | None => "" end.
Proof.
  apply (fold_left_last_some decorator_step expanded_intent), decorator_step_expanded_intent.
Qed.

(** ** The method classifier *)

Lemma recognized_tag_values (d : node) (t : string) :
  recognized_tag d = Some t -> t = "primitive" \/ t = "decomposition".
Proof.
  destruct d as [| | | |f ? ?|id| | | |]; try discriminate.
  - destruct f as [| | | | |id| | | |]; try discriminate. simpl.
    destruct (id =? "primitive"); [intros [= <-]; now left|].
    destruct (id =? "decomposition"); [intros [= <-]; now right|discriminate].
  - simpl. destruct (id =? "primitive"); [intros [= <-]; now left|discriminate].
Qed.

Lemma last_some_in {A B : Type} (f : A -> option B) (l : list A) (b : B) :
  last_some f l = Some b -> exists x, In x l /\ f x = Some b.
Proof.
  induction l as [|x l IH]; simpl; [discriminate|].
  destruct (last_some f l) as [b'|].
  - intros [= <-]. destruct (IH eq_refl) as (y & Hy & Hfy). eauto.
  - intros Hx. eauto.
Qed.

Lemma last_tag_truthy (decs : list node) (t : string) :
  last_some recognized_tag decs = Some t -> truthy t = true.
Proof.
  intros H. apply last_some_in in H as (d & _ & Hd).
  destruct (recognized_tag_values _ _ Hd); subst t; reflexivity.
Qed.

Lemma unrecognized_sets_nothing (d : node) :
  unrecognized d ->
  sets_read_only d = None /\ sets_intent d = None /\ sets_expanded_intent d = None.
Proof.
  unfold unrecognized.
  destruct d as [| | | |f ? ?|id| | | |]; try (intros _; repeat split; reflexivity).
  destruct f as [| | | | |id| | | |]; try (intros _; repeat split; reflexivity).
  simpl. destruct (id =? "primitive"); [discriminate|].
  destruct (id =? "decomposition"); [discriminate|].
  intros _; repeat split; reflexivity.
Qed.

Section MethodClassifier.

Variable cleandoc : string -> string.
Variable source_lines : list string.

(** The method that the scanner builds for a tagged function definition. *)
Lemma discover_method_tagged name args body decs returns tps lineno end_lineno t :
  last_some recognized_tag decs = Some t ->
  discover_method cleandoc
    (FunctionDef name args body decs returns tps lineno end_lineno) source_lines =
  Some {| dm_name := name;
          dm_method_type := t;
          dm_docstring := match get_docstring cleandoc body with
                          | Some d => if truthy d then d else ""
                          | None => ""
                          end;
          dm_signature := _get_method_signature lineno source_lines;
          dm_source := _get_method_source lineno end_lineno source_lines;
          dm_line_number := lineno;
          dm_read_only := match last_some sets_read_only decs with
                          | Some b => b | None => false end;
          dm_intent := match last_some sets_intent decs with
                       | Some s => s | None => "" end;
          dm_expanded_intent := match last_some sets_expanded_intent decs with
                                | Some s => s | None => "" end |}.
Proof.
  intros Ht. unfold discover_method.
  rewrite decorators_method_type, Ht, (last_tag_truthy _ _ Ht).
  rewrite decorators_read_only, decorators_intent, decorators_expanded_intent.
  reflexivity.
Qed.

Lemma discover_method_untagged (item : node) :
  tagged item = false -> discover_method cleandoc item source_lines = None.
Proof.
  destruct item; try reflexivity. simpl.
  rewrite decorators_method_type.
  destruct (last_some recognized_tag decorator_list); [discriminate|reflexivity].
Qed.

Lemma discover_method_some (item : node) (m : DiscoveredMethod) :
  discover_method cleandoc item source_lines = Some m ->
  tagged item = true /\ dm_name m = function_name item /\
  dm_method_type m = function_tag item /\ dm_line_number m = function_lineno item.
Proof.
  destruct (tagged item) eqn:Ht.
  - destruct item; try discriminate. simpl in Ht.
    destruct (last_some recognized_tag decorator_list) as [t|] eqn:Hl; [|discriminate].
    rewrite (discover_method_tagged _ _ _ _ _ _ _ _ _ Hl).
    intros [= <-]. simpl. rewrite Hl. repeat split.
  - rewrite (discover_method_untagged _ Ht). discriminate.
Qed.

Lemma methods_loop_app (b1 b2 : list node) :
  methods_loop cleandoc (b1 ++ b2) source_lines =
  methods_loop cleandoc b1 source_lines ++ methods_loop cleandoc b2 source_lines.
Proof.
  induction b1 as [|item b1 IH]; simpl; [reflexivity|].
  destruct (discover_method cleandoc item source_lines); rewrite IH; reflexivity.
Qed.

(** The methods of a class whose body has [item] between [pre] and [post]. *)
Lemma extract_methods_at (class_node item : node) (pre post : list node) :
  class_body class_node = pre ++ item :: post ->
  _extract_decorated_methods cleandoc class_node source_lines =
  methods_loop cleandoc pre source_lines
    ++ match discover_method cleandoc item source_lines with
       | Some m => [m]
       | None => []
       end
    ++ methods_loop cleandoc post source_lines.
Proof.
  intros Hbody. unfold _extract_decorated_methods. rewrite Hbody, methods_loop_app.
  simpl. destruct (discover_method cleandoc item source_lines); reflexivity.
Qed.


End MethodClassifier.

Section CapabilityTags.

Variable cleandoc : string -> string.
Variable source_lines : list string.

(** The function definition under study, and its place in the class body. *)
Variables (name : string) (args : node) (body : list node) (returns : option node)
  (type_params : list node) (lineno : nat) (end_lineno : option nat).
Variables (class_node : node) (pre post : list node).

(** C10. A method with several recognized capability decorators yields
    exactly one method record, between those of the items before and
    after it; its type is the tag of the last recognized decorator, and
    each of read_only, intent and expanded_intent keeps the value given
    by the last decorator that assigns it, whichever tag that decorator
    carries and whatever comes after it. *)
Theorem several_tags_last_one_classifies (before after : list node) (d : node) (t : string) :
  class_body class_node =
    pre ++ FunctionDef name args body (before ++ d :: after) returns type_params
             lineno end_lineno :: post ->
  recognized_tag d = Some t ->
  Forall unrecognized after ->
  exists m,
    _extract_decorated_methods cleandoc class_node source_lines =
      methods_loop cleandoc pre source_lines ++ m :: methods_loop cleandoc post source_lines /\
    dm_name m = name /\
    dm_method_type m = t /\
    (forall l1 x l2 b,
        before ++ d :: after = l1 ++ x :: l2 -> sets_read_only x = Some b ->
        Forall (fun y => sets_read_only y = None) l2 -> dm_read_only m = b) /\
    (forall l1 x l2 s,
        before ++ d :: after = l1 ++ x :: l2 -> sets_intent x = Some s ->
        Forall (fun y => sets_intent y = None) l2 -> dm_intent m = s) /\
    (forall l1 x l2 s,
        before ++ d :: after = l1 ++ x :: l2 -> sets_expanded_intent x = Some s ->
        Forall (fun y => sets_expanded_intent y = None) l2 -> dm_expanded_intent m = s).
Proof.
  intros Hbody Hd Hafter.
  assert (Hlast : last_some recognized_tag (before ++ d :: after) = Some t)
    by (apply last_some_split; assumption).
  rewrite (extract_methods_at _ _ _ _ _ _ Hbody).
  rewrite (discover_method_tagged _ _ _ _ _ _ _ _ _ _ _ Hlast).
  eexists. split; [reflexivity|]. simpl.
  repeat split.
  - intros l1 x l2 b -> Hx Hl2. now rewrite (last_some_split _ _ _ _ _ Hx Hl2).
  - intros l1 x l2 s -> Hx Hl2. now rewrite (last_some_split _ _ _ _ _ Hx Hl2).
  - intros l1 x l2 s -> Hx Hl2. now rewrite (last_some_split _ _ _ _ _ Hx Hl2).
Qed.

Lemma unrecognized_read_only (l : list node) :
  Forall unrecognized l -> Forall (fun y => sets_read_only y = None) l.
Proof. apply Forall_impl. intros d Hd. apply (unrecognized_sets_nothing _ Hd). Qed.

Lemma unrecognized_intent (l : list node) :
  Forall unrecognized l -> Forall (fun y => sets_intent y = None) l.
Proof. apply Forall_impl. intros d Hd. apply (unrecognized_sets_nothing _ Hd). Qed.

Lemma unrecognized_expanded_intent (l : list node) :
  Forall unrecognized l -> Forall (fun y => sets_expanded_intent y = None) l.
Proof. apply Forall_impl. intros d Hd. apply (unrecognized_sets_nothing _ Hd). Qed.

(** The record of a method whose only recognized decorator is [d]. *)
Lemma single_tag_method (before after : list node) (d : node) (t : string) :
  class_body class_node =
    pre ++ FunctionDef name args body (before ++ d :: after) returns type_params
             lineno end_lineno :: post ->
  Forall unrecognized before -> Forall unrecognized after ->
  recognized_tag d = Some t ->
  exists m,
    _extract_decorated_methods cleandoc class_node source_lines =
      methods_loop cleandoc pre source_lines ++ m :: methods_loop cleandoc post source_lines /\
    dm_name m = name /\ dm_line_number m = lineno /\ dm_method_type m = t /\
    dm_read_only m = match sets_read_only d with Some b => b | None => false end /\
    dm_intent m = match sets_intent d with Some s => s | None => "" end /\
    dm_expanded_intent m = match sets_expanded_intent d with Some s => s | None => "" end.
Proof.
  intros Hbody Hbefore Hafter Hd.
  assert (Hlast : last_some recognized_tag (before ++ d :: after) = Some t)
    by (apply last_some_split; assumption).
  rewrite (extract_methods_at _ _ _ _ _ _ Hbody).
  rewrite (discover_method_tagged _ _ _ _ _ _ _ _ _ _ _ Hlast).
  eexists. split; [reflexivity|]. simpl.
  rewrite !last_some_app. simpl.
  rewrite (last_some_none _ _ (unrecognized_read_only _ Hafter)),
    (last_some_none _ _ (unrecognized_intent _ Hafter)),
    (last_some_none _ _ (unrecognized_expanded_intent _ Hafter)),
    (last_some_none _ _ (unrecognized_read_only _ Hbefore)),
    (last_some_none _ _ (unrecognized_intent _ Hbefore)),
    (last_some_none _ _ (unrecognized_expanded_intent _ Hbefore)).
  repeat split;
    [destruct (sets_read_only d)|destruct (sets_intent d)|destruct (sets_expanded_intent d)];
    reflexivity.
Qed.

Lemma no_read_only_keyword (kws : list node) :
  Forall (fun kw => keyword_arg kw <> Some "read_only") kws ->
  Forall (fun kw => literal_keyword "read_only" kw = None) kws.
Proof.
  apply Forall_impl. intros kw Hkw.
  destruct kw as [| | | | | | | |arg value|]; try reflexivity.
  destruct arg as [arg|]; [|reflexivity]. destruct value; try reflexivity.
  simpl in *. destruct (arg =? "read_only") eqn:E; [|reflexivity].
  apply String.eqb_eq in E. congruence.
Qed.

(** C5, as the code has it. For a method whose one recognized tag is
    [primitive]: when the tag is a call with a keyword argument
    read_only=<literal> (the last such argument, should it be repeated),
    the method record has read_only = bool(<literal>), which is b for a
    literal boolean b and the truth value of any other literal; when the
    tag is bare, or a call in which no argument is read_only=<literal>
    (none is named read_only, or its value is not a literal), the record
    has read_only = false.  In both cases the method is recorded once, as
    a primitive. *)
Theorem primitive_read_only_flag (before after : list node) (d : node) :
  class_body class_node =
    pre ++ FunctionDef name args body (before ++ d :: after) returns type_params
             lineno end_lineno :: post ->
  Forall unrecognized before -> Forall unrecognized after ->
  (forall call_args k1 k2 v,
      d = Call (Name "primitive") call_args
            (k1 ++ keyword (Some "read_only") (Constant v) :: k2) ->
      Forall (fun kw => literal_keyword "read_only" kw = None) k2 ->
      exists m,
        _extract_decorated_methods cleandoc class_node source_lines =
          methods_loop cleandoc pre source_lines ++ m :: methods_loop cleandoc post source_lines /\
        dm_name m = name /\ dm_method_type m = "primitive" /\
        dm_read_only m = py_bool v /\
        (forall b, v = CBool b -> dm_read_only m = b)) /\
  (d = Name "primitive" \/
   (exists call_args kws,
       d = Call (Name "primitive") call_args kws /\
       Forall (fun kw => literal_keyword "read_only" kw = None) kws) ->
   exists m,
     _extract_decorated_methods cleandoc class_node source_lines =
       methods_loop cleandoc pre source_lines ++ m :: methods_loop cleandoc post source_lines /\
     dm_name m = name /\ dm_method_type m = "primitive" /\ dm_read_only m = false).
Proof.
  intros Hbody Hbefore Hafter. split.
  - intros call_args k1 k2 v -> Hk2.
    destruct (single_tag_method _ _ _ "primitive" Hbody Hbefore Hafter eq_refl)
      as (m & Hm & Hn & _ & Ht & Hro & _).
    assert (Hv : dm_read_only m = py_bool v).
    { rewrite Hro. simpl.
      rewrite (last_some_split _ k1 k2 (keyword (Some "read_only") (Constant v))
                 v eq_refl Hk2).
      reflexivity. }
    exists m. split; [exact Hm|]. split; [exact Hn|]. split; [exact Ht|].
    split; [exact Hv|]. intros b ->. exact Hv.
  - intros [-> | (call_args & kws & -> & Hkws)].
    + destruct (single_tag_method _ _ _ "primitive" Hbody Hbefore Hafter eq_refl)
        as (m & Hm & Hn & _ & Ht & Hro & _).
      exists m. repeat split; assumption.
    + destruct (single_tag_method _ _ _ "primitive" Hbody Hbefore Hafter eq_refl)
        as (m & Hm & Hn & _ & Ht & Hro & _).
      exists m. repeat split; try assumption.
      rewrite Hro. simpl. rewrite (last_some_none _ _ Hkws). reflexivity.
Qed.

(** The [decomposition] tag is recognized in call form only.  A method
    whose other decorators are unrecognized is recorded as a
    decomposition, with empty intent and expanded_intent, when it carries
    the call [decomposition()]; it is recorded as a primitive when it
    carries the bare name [primitive]; and it is left out of the methods
    when it carries the bare name [decomposition]. *)
Theorem decomposition_recognized_in_call_form (before after : list node) (d : node) :
  class_body class_node =
    pre ++ FunctionDef name args body (before ++ d :: after) returns type_params
             lineno end_lineno :: post ->
  Forall unrecognized before -> Forall unrecognized after ->
  (d = Call (Name "decomposition") [] [] ->
   exists m,
     _extract_decorated_methods cleandoc class_node source_lines =
       methods_loop cleandoc pre source_lines ++ m :: methods_loop cleandoc post source_lines /\
     dm_name m = name /\ dm_method_type m = "decomposition" /\
     dm_intent m = "" /\ dm_expanded_intent m = "") /\
  (d = Name "primitive" ->
   exists m,
     _extract_decorated_methods cleandoc class_node source_lines =
       methods_loop cleandoc pre source_lines ++ m :: methods_loop cleandoc post source_lines /\
     dm_name m = name /\ dm_method_type m = "primitive") /\
  (d = Name "decomposition" ->
   _extract_decorated_methods cleandoc class_node source_lines =
     methods_loop cleandoc pre source_lines ++ methods_loop cleandoc post source_lines).
Proof.
  intros Hbody Hbefore Hafter. repeat split.
  - intros ->.
    destruct (single_tag_method _ _ _ "decomposition" Hbody Hbefore Hafter eq_refl) as (m & Hm & Hn & _ & Ht & _ & Hi & He).
    exists m. repeat split; assumption.
  - intros ->.
    destruct (single_tag_method _ _ _ "primitive" Hbody Hbefore Hafter eq_refl) as (m & Hm & Hn & _ & Ht & _).
    exists m. repeat split; assumption.
  - intros ->. rewrite (extract_methods_at _ _ _ _ _ _ Hbody).
    rewrite discover_method_untagged; [reflexivity|].
    simpl. rewrite last_some_app. simpl.
    rewrite (last_some_none _ _ Hafter), (last_some_none _ _ Hbefore). reflexivity.
Qed.

End CapabilityTags.

(** ** The signature extractor *)

Lemma skipn_nth_error {A : Type} (l : list A) (i : nat) :
  skipn i l = match nth_error l i with
              | Some x => x :: skipn (S i) l
              | None => []
              end.
Proof.
  revert i. induction l as [|y l IH]; intros [|i]; try reflexivity.
  simpl. rewrite IH. destruct (nth_error l i); reflexivity.
Qed.

Lemma signature_loop_take_through (source_lines : list string) (i count : nat) :
  signature_loop source_lines i count =
  map rstrip (take_through closes_signature (firstn count (skipn i source_lines))).
Proof.
  revert i. induction count as [|count IH]; intros i; [reflexivity|].
  simpl signature_loop. rewrite (skipn_nth_error source_lines i).
  destruct (nth_error source_lines i) as [line|]; [|reflexivity].
  simpl. destruct (closes_signature line); [reflexivity|].
  rewrite IH. reflexivity.
Qed.

Lemma signature_range (source_lines : list string) (start_line : nat) :
  firstn (Nat.min (start_line + 10) (List.length source_lines) - start_line)
    (skipn start_line source_lines) =
  firstn 10 (skipn start_line source_lines).
Proof.
  destruct (le_lt_dec (start_line + 10) (List.length source_lines)) as [Hle|Hlt].
  - rewrite Nat.min_l by exact Hle. f_equal. lia.
  - rewrite Nat.min_r by lia.
    rewrite <- (length_skipn start_line source_lines), firstn_all.
    symmetry. apply firstn_all2. rewrite length_skipn. lia.
Qed.

Lemma take_through_shape {A : Type} (p : A -> bool) (l : list A) :
  (exists rest, l = take_through p l ++ rest) /\
  ((Forall (fun x => p x = false) l /\ take_through p l = l) \/
   (exists before x,
       take_through p l = before ++ [x] /\
       Forall (fun y => p y = false) before /\ p x = true)).
Proof.
  induction l as [|x l [[rest Hrest] IH]]; simpl.
  - split; [exists []; reflexivity|left; split; [constructor|reflexivity]].
  - destruct (p x) eqn:Hx.
    + split; [exists l; reflexivity|].
      right. exists [], x. repeat split; [constructor|exact Hx].
    + split; [exists rest; simpl; f_equal; exact Hrest|].
      destruct IH as [[Hall Heq]|(before & y & Heq & Hbefore & Hy)].
      * left. split; [constructor; assumption|f_equal; exact Heq].
      * right. exists (x :: before), y. rewrite Heq.
        repeat split; [constructor; assumption|exact Hy].
Qed.

(** C9, as the code has it. The signature is built from the at most ten
    raw lines that start at the def line: the lines up to and including
    the first one that contains the closing parenthesis followed by the
    colon or by the return arrow (all of them when there is none); each
    is trimmed of trailing whitespace, they are joined with line breaks,
    and the joined text is stripped of leading and trailing whitespace,
    which removes the indentation of the def line. *)
Theorem signature_lines_then_strip (lineno : nat) (source_lines : list string) :
  exists taken rest,
    signature_window lineno source_lines = taken ++ rest /\
    List.length taken <= 10 /\
    ((Forall (fun line => closes_signature line = false)
        (signature_window lineno source_lines) /\ rest = []) \/
     (exists before line,
         taken = before ++ [line] /\
         Forall (fun l => closes_signature l = false) before /\
         closes_signature line = true)) /\
    _get_method_signature lineno source_lines = strip (join nl (map rstrip taken)).
Proof.
  unfold _get_method_signature. rewrite signature_loop_take_through, signature_range.
  fold (signature_window lineno source_lines).
  destruct (take_through_shape closes_signature (signature_window lineno source_lines))
    as [[rest Hrest] Hshape].
  exists (take_through closes_signature (signature_window lineno source_lines)), rest.
  split; [exact Hrest|]. split.
  - assert (Hlen : List.length (signature_window lineno source_lines) <= 10)
      by (unfold signature_window; apply firstn_le_length).
    rewrite Hrest, length_app in Hlen. lia.
  - split; [|reflexivity].
    destruct Hshape as [[Hall Heq]|Hstop]; [left|right; exact Hstop].
    split; [exact Hall|].
    rewrite Heq in Hrest. rewrite <- (app_nil_r (signature_window _ _)) in Hrest at 1.
    apply app_inv_head in Hrest. symmetry. exact Hrest.
Qed.

(** C9, as the specification words it, fails on the def line of
    [Calculator.add]: the scanner returns the line without its
    indentation. *)
Lemma signature_loses_indentation :
  _get_method_signature 8 Samples.calc_lines = "def add(self, a, b):" /\
  spec_signature 8 Samples.calc_lines = "    def add(self, a, b):".
Proof. split; reflexivity. Qed.

(** ** The traversal order of [ast.walk] *)

Lemma walk_loop_level (ts us : list node) :
  walk_loop (ts ++ us) = ts ++ walk_loop (us ++ flat_map iter_child_nodes ts).
Proof.
  revert us. induction ts as [|t ts IH]; intros us; simpl.
  - rewrite app_nil_r. reflexivity.
  - simp walk_loop. rewrite <- app_assoc, IH, <- app_assoc. reflexivity.
Qed.

Lemma forest_size_children (ts : list node) :
  forest_size ts = List.length ts + forest_size (flat_map iter_child_nodes ts).
Proof.
  induction ts as [|t ts IH]; [reflexivity|].
  simpl flat_map. rewrite forest_size_cons, forest_size_app, node_size_unfold, IH.
  simpl. lia.
Qed.

Lemma forest_size_zero (ts : list node) : forest_size ts = 0 -> ts = [].
Proof.
  destruct ts as [|t ts]; [reflexivity|].
  rewrite forest_size_cons, node_size_unfold. discriminate.
Qed.

Lemma flat_map_nil_forest {A : Type} (l : list A) (d0 : A -> nat) :
  flat_map (fun x => flat_map (nodes_at_depth (d0 x)) []) l = [].
Proof. induction l; simpl; auto. Qed.

Lemma forest_at_succ (d : nat) (ts : list node) :
  flat_map (nodes_at_depth (S d)) ts =
  flat_map (nodes_at_depth d) (flat_map iter_child_nodes ts).
Proof.
  induction ts as [|t ts IH]; [reflexivity|].
  cbn [flat_map]. rewrite flat_map_app, IH. reflexivity.
Qed.

Lemma flat_map_singleton {A : Type} (l : list A) : flat_map (fun x => [x]) l = l.
Proof. induction l as [|x l IH]; simpl; [|rewrite IH]; reflexivity. Qed.

(** The queue discipline lists a forest level by level. *)
Lemma walk_loop_levels (k : nat) :
  forall ts, forest_size ts <= k ->
  walk_loop ts = flat_map (fun d => flat_map (nodes_at_depth d) ts) (seq 0 k).
Proof.
  induction k as [|k IH]; intros ts Hk.
  - rewrite (forest_size_zero ts) by lia. reflexivity.
  - destruct ts as [|t ts'] eqn:Hts.
    + simp walk_loop. symmetry. apply (flat_map_nil_forest (seq 0 (S k)) (fun d => d)).
    + rewrite <- Hts in *.
      rewrite <- (app_nil_r ts) at 1. rewrite walk_loop_level. simpl app.
      rewrite IH.
      * transitivity (flat_map (nodes_at_depth 0) ts
                        ++ flat_map (fun d => flat_map (nodes_at_depth d) ts) (seq 1 k));
          [|reflexivity].
        f_equal; [exact (eq_sym (flat_map_singleton ts))|].
        rewrite <- seq_shift, (flat_map_concat_map _ (map S _)), map_map,
          <- flat_map_concat_map.
        apply flat_map_ext. intros d. symmetry. apply forest_at_succ.
      * pose proof (forest_size_children ts) as Hsz.
        assert (List.length ts >= 1) by (rewrite Hts; simpl; lia). lia.
Qed.

Lemma walk_levels (tree : node) :
  walk tree = flat_map (fun d => nodes_at_depth d tree) (seq 0 (node_size tree)).
Proof.
  unfold walk. rewrite (walk_loop_levels (node_size tree)).
  - apply flat_map_ext. intros d. simpl. apply app_nil_r.
  - rewrite forest_size_cons. unfold forest_size. simpl. lia.
Qed.

Lemma preorder_unfold (n : node) :
  preorder n = n :: flat_map preorder (iter_child_nodes n).
Proof.
  unfold preorder at 1. rewrite tree_fold_unfold, flat_map_concat_map. reflexivity.
Qed.

Lemma Subseq_nil_l {A : Type} (l : list A) : Subseq [] l.
Proof. induction l; constructor; assumption. Qed.

Lemma Subseq_app {A : Type} (l1 l1' l2 l2' : list A) :
  Subseq l1 l1' -> Subseq l2 l2' -> Subseq (l1 ++ l2) (l1' ++ l2').
Proof.
  induction 1 as [|l1 l1' x _ IH|l1 l1' x _ IH]; intros H2; simpl.
  - exact H2.
  - apply Subseq_skip, IH, H2.
  - apply Subseq_keep, IH, H2.
Qed.

Lemma Subseq_flat_map {A B : Type} (f g : A -> list B) (l : list A) :
  (forall x, Subseq (f x) (g x)) -> Subseq (flat_map f l) (flat_map g l).
Proof.
  intros Hfg. induction l as [|x l IH]; simpl; [constructor|].
  apply Subseq_app; auto.
Qed.

(** The nodes of one depth are met in document order. *)
Lemma level_in_document_order (d : nat) :
  forall n, Subseq (nodes_at_depth d n) (preorder n).
Proof.
  induction d as [|d IH]; intros n; rewrite preorder_unfold; simpl.
  - apply Subseq_keep, Subseq_nil_l.
  - apply Subseq_skip, Subseq_flat_map, IH.
Qed.

Lemma walk_loop_permutation (k : nat) :
  forall ts, forest_size ts <= k -> Permutation (walk_loop ts) (flat_map preorder ts).
Proof.
  induction k as [|k IH]; intros ts Hk.
  - rewrite (forest_size_zero ts) by lia. simp walk_loop. constructor.
  - destruct ts as [|t ts]; [simp walk_loop; constructor|].
    simp walk_loop. simpl flat_map. rewrite preorder_unfold. simpl.
    apply perm_skip.
    rewrite forest_size_cons, node_size_unfold in Hk.
    rewrite (IH (ts ++ iter_child_nodes t)), flat_map_app.
    + apply Permutation_app_comm.
    + rewrite forest_size_app. lia.
Qed.

Lemma walk_permutation (tree : node) : Permutation (walk tree) (preorder tree).
Proof.
  unfold walk. rewrite (walk_loop_permutation (node_size tree)).
  - simpl. rewrite app_nil_r. reflexivity.
  - rewrite forest_size_cons. unfold forest_size. simpl. lia.
Qed.

(** ** Classes, manifests and files *)

Lemma truthy_false (s : string) : truthy s = false <-> s = "".
Proof. destruct s; simpl; split; congruence. Qed.

Lemma merge_manifest_fields (af : agent_fields) (meta : ManifestMetadata) :
  merged_field (mm_name meta) (af_name af) (af_name (merge_manifest af meta)) /\
  merged_field (mm_description meta) (af_description af)
    (af_description (merge_manifest af meta)) /\
  merged_field (mm_version meta) (af_version af) (af_version (merge_manifest af meta)).
Proof.
  unfold merged_field, merge_manifest; simpl.
  destruct (mm_name meta), (mm_description meta), (mm_version meta); simpl;
    repeat split; congruence.
Qed.

Lemma manifest_filename_first_call (nodes : list node) :
  manifest_filename_loop nodes =
  match filter is_load_manifest_call nodes with
  | [] => Some ""
  | call :: _ => filename_of_call call
  end.
Proof.
  induction nodes as [|n nodes IH]; [reflexivity|].
  destruct n as [| | | |f args kws| | | | |]; try exact IH.
  destruct f as [| | | | |id| | | |]; try exact IH.
  simpl. destruct (id =? "load_manifest"); [|exact IH].
  destruct args as [|a [|b args]]; reflexivity.
Qed.

Lemma no_manifest_name_keyword (kws : list node) :
  Forall (fun kw => keyword_arg kw <> Some "manifest_name") kws ->
  manifest_keyword_loop kws = None.
Proof.
  induction 1 as [|kw kws Hkw _ IH]; [reflexivity|].
  destruct kw as [| | | | | | | |arg value|]; try exact IH.
  destruct arg as [arg|]; [|destruct value; exact IH].
  destruct value; try exact IH.
  simpl in *. destruct (arg =? "manifest_name") eqn:E; [|exact IH].
  apply String.eqb_eq in E. congruence.
Qed.

Lemma no_call_no_manifest (class_node : node) :
  load_manifest_calls class_node = [] ->
  load_manifest_found (_extract_manifest_filename class_node) = false.
Proof.
  intros Hnil. unfold _extract_manifest_filename.
  rewrite manifest_filename_first_call. unfold load_manifest_calls in Hnil.
  rewrite Hnil. reflexivity.
Qed.

Section Files.

Variable cleandoc : string -> string.
Variable fs : FileSystem.

Lemma docstring_fallback_keeps (class_node : node) (description : string) :
  description <> "" -> docstring_fallback cleandoc class_node description = description.
Proof. destruct description; [congruence|reflexivity]. Qed.

(** What the loop body builds for one candidate class. *)
Lemma discover_agent_ok (file_path : path) (source_lines : list string)
    (class_node : node) (base : string) (agent : DiscoveredAgent) :
  discover_agent cleandoc fs file_path source_lines class_node base = Ok agent ->
  da_class_name agent = class_name_of class_node /\
  da_base_class agent = base /\
  da_methods agent = _extract_decorated_methods cleandoc class_node source_lines /\
  (load_manifest_found (_extract_manifest_filename class_node) = false ->
   da_name agent = af_name (inline_fields class_node) /\
   da_description agent = inline_description cleandoc class_node /\
   da_version agent = af_version (inline_fields class_node)) /\
  (load_manifest_found (_extract_manifest_filename class_node) = true ->
   exists manifest_meta,
     _load_manifest_metadata fs file_path (_extract_manifest_filename class_node)
       = Ok manifest_meta /\
     merged_field (mm_name manifest_meta) (af_name (inline_fields class_node))
       (da_name agent) /\
     merged_field (mm_description manifest_meta) (inline_description cleandoc class_node)
       (da_description agent) /\
     merged_field (mm_version manifest_meta) (af_version (inline_fields class_node))
       (da_version agent)).
Proof.
  unfold discover_agent.
  destruct (load_manifest_found (_extract_manifest_filename class_node)) eqn:Hfound.
  - destruct (_load_manifest_metadata fs file_path (_extract_manifest_filename class_node))
      as [meta|e]; [|discriminate].
    simpl. intros [= <-]. simpl.
    split; [reflexivity|]. split; [reflexivity|]. split; [reflexivity|].
    split; [discriminate|].
    intros _. exists meta. split; [reflexivity|]. unfold merged_field, inline_description.
    destruct (mm_name meta), (mm_description meta), (mm_version meta); simpl;
      repeat split; intros; solve [reflexivity | congruence].
  - simpl. intros [= <-]. simpl.
    split; [reflexivity|]. split; [reflexivity|]. split; [reflexivity|].
    split; [|discriminate].
    intros _. repeat split.
Qed.

Lemma agents_loop_classes (file_path : path) (source_lines : list string) :
  forall nodes agents,
    agents_loop cleandoc fs file_path source_lines nodes = Ok agents ->
    Forall2 (fun class_node agent =>
               exists base,
                 candidate_base class_node = Some base /\
                 discover_agent cleandoc fs file_path source_lines class_node base = Ok agent)
      (candidate_classes nodes) agents.
Proof.
  induction nodes as [|n nodes IH]; intros agents; simpl.
  - intros [= <-]. constructor.
  - unfold is_candidate. destruct (candidate_base n) as [base|] eqn:Hbase; [|apply IH].
    destruct (discover_agent cleandoc fs file_path source_lines n base) as [agent|e] eqn:Ha;
      [|discriminate].
    simpl. destruct (agents_loop cleandoc fs file_path source_lines nodes) as [rest|e];
      [|discriminate].
    simpl. intros [= <-]. constructor; [|apply IH; reflexivity].
    exists base. split; [exact Hbase|exact Ha].
Qed.

Lemma Forall2_in_r {A B : Type} (R : A -> B -> Prop) (l1 : list A) (l2 : list B) (b : B) :
  Forall2 R l1 l2 -> In b l2 -> exists a, In a l1 /\ R a b.
Proof.
  induction 1 as [|x y l1 l2 Hxy _ IH]; simpl; [contradiction|].
  intros [<-|Hin]; [eauto|]. destruct (IH Hin) as (a & Ha & HR). eauto.
Qed.

Lemma agents_loop_class_names (file_path : path) (source_lines : list string)
    (nodes : list node) (agents : list DiscoveredAgent) :
  agents_loop cleandoc fs file_path source_lines nodes = Ok agents ->
  map da_class_name agents = map class_name_of (candidate_classes nodes).
Proof.
  intros H. apply agents_loop_classes in H.
  induction H as [|n agent ns agents (base & _ & Hagent) _ IH]; [reflexivity|].
  simpl. rewrite IH. f_equal. apply (discover_agent_ok _ _ _ _ _ Hagent).
Qed.

(** C1. Every agent of a scanned file comes from a candidate class of
    the tree.  When the class has a load_manifest call that the scanner
    honours, the manifest is loaded and, for each of name, description
    and version, a non-empty manifest value is the agent's value, while
    an empty or missing one leaves the value that the class has without
    a manifest; when no manifest is consulted the agent has those inline
    or default values. *)
Theorem manifest_values_take_precedence (file_path : path) (source_lines : list string)
    (tree : node) (agents : list DiscoveredAgent) (agent : DiscoveredAgent) :
  read_and_parse fs file_path = SourceParsed source_lines tree ->
  _extract_agent_info_from_ast cleandoc fs file_path = Ok agents ->
  In agent agents ->
  exists class_node,
    In class_node (walk tree) /\ is_candidate class_node = true /\
    da_class_name agent = class_name_of class_node /\
    (load_manifest_found (_extract_manifest_filename class_node) = true ->
     load_manifest_calls class_node <> [] /\
     exists manifest_meta,
       _load_manifest_metadata fs file_path (_extract_manifest_filename class_node)
         = Ok manifest_meta /\
       merged_field (mm_name manifest_meta) (af_name (inline_fields class_node))
         (da_name agent) /\
       merged_field (mm_description manifest_meta) (inline_description cleandoc class_node)
         (da_description agent) /\
       merged_field (mm_version manifest_meta) (af_version (inline_fields class_node))
         (da_version agent)) /\
    (load_manifest_found (_extract_manifest_filename class_node) = false ->
     da_name agent = af_name (inline_fields class_node) /\
     da_description agent = inline_description cleandoc class_node /\
     da_version agent = af_version (inline_fields class_node)).
Proof.
  intros Hparse Hscan Hin. unfold _extract_agent_info_from_ast in Hscan.
  rewrite Hparse in Hscan. apply agents_loop_classes in Hscan.
  destruct (Forall2_in_r _ _ _ _ Hscan Hin) as (class_node & Hcls & base & Hbase & Hagent).
  apply filter_In in Hcls as [Hwalk Hcand].
  apply discover_agent_ok in Hagent as (Hname & _ & _ & Hinline & Hmanifest).
  exists class_node.
  split; [exact Hwalk|]. split; [exact Hcand|]. split; [exact Hname|].
  split; [|exact Hinline].
  intros Hfound. split; [|exact (Hmanifest Hfound)].
  intros Hnil. apply no_call_no_manifest in Hnil. congruence.
Qed.

(** A scan raises only if the construction of some agent does. *)
Lemma agents_loop_total (file_path : path) (source_lines : list string) (nodes : list node) :
  (forall class_node base,
      In class_node nodes -> candidate_base class_node = Some base ->
      exists agent,
        discover_agent cleandoc fs file_path source_lines class_node base = Ok agent) ->
  exists agents, agents_loop cleandoc fs file_path source_lines nodes = Ok agents.
Proof.
  induction nodes as [|n nodes IH]; intros Hall; simpl; [eauto|].
  destruct IH as [rest Hrest]; [intros c b Hc; apply Hall; right; exact Hc|].
  destruct (candidate_base n) as [base|] eqn:Hbase; [|eauto].
  destruct (Hall n base (or_introl eq_refl) Hbase) as [agent Hagent].
  rewrite Hagent, Hrest. simpl. eauto.
Qed.

(** A manifest that is well-formed JSON but not an object, or whose
    field is not a string, is not absorbed: the error reaches the
    caller. *)
Lemma manifest_not_an_object_raises (file_path : path) (manifest_name : option string)
    (data : json) :
  path_exists fs (manifest_path file_path manifest_name) = true ->
  open_and_load_json fs (manifest_path file_path manifest_name) = JsonLoaded data ->
  (forall members, data <> JObject members) ->
  _load_manifest_metadata fs file_path manifest_name = Raise AttributeError.
Proof.
  intros Hex Hload Hdata. unfold _load_manifest_metadata. rewrite Hex, Hload. simpl.
  destruct data; try reflexivity. destruct (Hdata members eq_refl).
Qed.

End Files.

Section Scans.

Variable cleandoc : string -> string.
Variable fs : FileSystem.

Lemma directory_loop_app (before after : list path) :
  directory_loop cleandoc fs (before ++ after) =
  (agents1 <- directory_loop cleandoc fs before ;;
   agents2 <- directory_loop cleandoc fs after ;;
   Ok (agents1 ++ agents2)).
Proof.
  induction before as [|f before IH]; cbn [directory_loop app bind].
  - destruct (directory_loop cleandoc fs after); reflexivity.
  - destruct (in_pycache f); [exact IH|].
    destruct (_extract_agent_info_from_ast cleandoc fs f) as [d|e]; [|reflexivity].
    cbn [bind]. rewrite IH.
    destruct (directory_loop cleandoc fs before) as [a1|e]; [|reflexivity].
    cbn [bind]. destruct (directory_loop cleandoc fs after) as [a2|e]; [|reflexivity].
    cbn [bind]. rewrite app_assoc. reflexivity.
Qed.

Lemma directory_loop_skips (file : path) (before after : list path) :
  _extract_agent_info_from_ast cleandoc fs file = Ok [] ->
  directory_loop cleandoc fs (before ++ file :: after) =
  directory_loop cleandoc fs (before ++ after).
Proof.
  intros Hfile. rewrite !directory_loop_app. cbn [directory_loop]. rewrite Hfile.
  cbn [bind app].
  destruct (in_pycache file);
    destruct (directory_loop cleandoc fs before) as [a1|e]; try reflexivity;
    cbn [bind]; destruct (directory_loop cleandoc fs after); reflexivity.
Qed.

(** The two classes of errors that the scan of a file absorbs.  A file
    whose reading raises an OSError, or whose parsing raises a
    SyntaxError, yields the empty list of agents from the single-file
    scan, with nothing raised.  In a directory scan such a file counts
    for nothing: the scan is that of the other files, and when the files
    before it and after it yield agents, the scan returns exactly
    those. *)
Theorem unreadable_or_invalid_file_yields_no_agents (file_path : path) :
  read_and_parse fs file_path = SourceRaises SyntaxError \/
  read_and_parse fs file_path = SourceRaises OSError ->
  _extract_agent_info_from_ast cleandoc fs file_path = Ok [] /\
  scan_file_for_agents cleandoc fs file_path = Ok [] /\
  (forall before after,
      directory_loop cleandoc fs (before ++ file_path :: after) =
      directory_loop cleandoc fs (before ++ after)) /\
  (forall directory before after agents1 agents2,
      path_exists fs directory = true -> path_is_dir fs directory = true ->
      rglob_py fs directory = before ++ file_path :: after ->
      directory_loop cleandoc fs before = Ok agents1 ->
      directory_loop cleandoc fs after = Ok agents2 ->
      scan_directory_for_agents cleandoc fs directory = Ok (agents1 ++ agents2)).
Proof.
  intros Hread.
  assert (Hfile : _extract_agent_info_from_ast cleandoc fs file_path = Ok []).
  { unfold _extract_agent_info_from_ast. destruct Hread as [-> | ->]; reflexivity. }
  split; [exact Hfile|]. split; [|split].
  - unfold scan_file_for_agents.
    destruct (negb (path_exists fs file_path) || negb (path_is_file fs file_path));
      [reflexivity|exact Hfile].
  - intros before after. apply directory_loop_skips, Hfile.
  - intros directory before after agents1 agents2 Hex Hdir Hglob H1 H2.
    unfold scan_directory_for_agents. rewrite Hex, Hdir, Hglob. simpl.
    rewrite (directory_loop_skips _ _ _ Hfile), directory_loop_app, H1, H2.
    reflexivity.
Qed.

(** A decoding error of the source file is not among the caught classes:
    it reaches the caller. *)
Lemma undecodable_file_raises (file_path : path) :
  read_and_parse fs file_path = SourceRaises UnicodeDecodeError ->
  _extract_agent_info_from_ast cleandoc fs file_path = Raise UnicodeDecodeError.
Proof. unfold _extract_agent_info_from_ast. intros ->. reflexivity. Qed.

(** The default manifest and the errors that its load absorbs.  When the
    first load_manifest call that the traversal of a class meets has a
    single argument and no manifest_name keyword, the default name is
    used: the manifest is the file <stem>.manifest.json in the directory
    of the source file, and the loaded metadata depends on that file
    alone.  If the file does not exist, or its text is not well-formed
    JSON, the metadata is empty, nothing is raised, and the agent keeps
    its inline or default values. *)
Theorem default_manifest_name_and_lenient_load (file_path : path)
    (source_lines : list string) (class_node : node) (base : string)
    (first_arg : node) (keywords others : list node) :
  load_manifest_calls class_node =
    Call (Name "load_manifest") [first_arg] keywords :: others ->
  Forall (fun kw => keyword_arg kw <> Some "manifest_name") keywords ->
  let manifest_file :=
    path_join (path_parent file_path) (path_stem file_path ++ ".manifest.json")%string in
  let manifest_filename := _extract_manifest_filename class_node in
  manifest_filename = None /\
  manifest_path file_path manifest_filename = manifest_file /\
  (forall fs',
      path_exists fs' manifest_file = path_exists fs manifest_file ->
      open_and_load_json fs' manifest_file = open_and_load_json fs manifest_file ->
      _load_manifest_metadata fs' file_path manifest_filename =
      _load_manifest_metadata fs file_path manifest_filename) /\
  (path_exists fs manifest_file = false \/
   open_and_load_json fs manifest_file = JsonRaises JSONDecodeError ->
   _load_manifest_metadata fs file_path manifest_filename = Ok ManifestMetadata_default /\
   exists agent,
     discover_agent cleandoc fs file_path source_lines class_node base = Ok agent /\
     da_name agent = af_name (inline_fields class_node) /\
     da_description agent = inline_description cleandoc class_node /\
     da_version agent = af_version (inline_fields class_node)).
Proof.
  intros Hcalls Hkws. cbv zeta.
  assert (Hname : _extract_manifest_filename class_node = None).
  { unfold _extract_manifest_filename. rewrite manifest_filename_first_call.
    unfold load_manifest_calls in Hcalls. rewrite Hcalls. simpl.
    apply no_manifest_name_keyword, Hkws. }
  rewrite Hname. split; [reflexivity|]. split; [reflexivity|]. split.
  - intros fs' Hex Hload. unfold _load_manifest_metadata, manifest_path.
    rewrite Hex, Hload. reflexivity.
  - intros Hbad.
    assert (Hmeta : _load_manifest_metadata fs file_path None = Ok ManifestMetadata_default).
    { unfold _load_manifest_metadata, manifest_path.
      destruct Hbad as [-> | Hjson]; [reflexivity|].
      rewrite Hjson. destruct (path_exists fs _); reflexivity. }
    split; [exact Hmeta|].
    unfold discover_agent. rewrite Hname, Hmeta. simpl.
    eexists. split; [reflexivity|]. simpl. repeat split.
Qed.

Lemma methods_loop_in (source_lines : list string) (body : list node) (m : DiscoveredMethod) :
  In m (methods_loop cleandoc body source_lines) ->
  exists item, In item body /\ discover_method cleandoc item source_lines = Some m.
Proof.
  induction body as [|item body IH]; simpl; [contradiction|].
  destruct (discover_method cleandoc item source_lines) as [m'|] eqn:Hm.
  - intros [<-|Hin]; [eauto|]. destruct (IH Hin) as (it & Hit & Hd). eauto.
  - intros Hin. destruct (IH Hin) as (it & Hit & Hd). eauto.
Qed.

(** C7, as the code has it. The source field of a method is the text of
    the buffer lines from the def line through the last line of the
    method (one line when no end line is reported), joined with line
    breaks; name and line number are those of the function definition.
    The excerpt starts at the def line and holds nothing of the lines
    above it, where the decorators stand: whatever the decorators of a
    function definition and whatever the lines before its def line, the
    source field is the same. *)
Theorem method_source_spans_def_to_end (class_node : node) (source_lines : list string)
    (m : DiscoveredMethod) :
  In m (_extract_decorated_methods cleandoc class_node source_lines) ->
  exists name args body decorator_list returns type_params lineno end_lineno,
    In (FunctionDef name args body decorator_list returns type_params lineno end_lineno)
       (class_body class_node) /\
    dm_name m = name /\ dm_line_number m = lineno /\
    dm_source m =
      join nl (firstn (match end_lineno with
                       | Some (S e) => S e - (lineno - 1)
                       | _ => 1
                       end) (skipn (lineno - 1) source_lines)) /\
    (forall decorator_list' source_lines' m',
        skipn (lineno - 1) source_lines' = skipn (lineno - 1) source_lines ->
        discover_method cleandoc
          (FunctionDef name args body decorator_list' returns type_params lineno end_lineno)
          source_lines' = Some m' ->
        dm_source m' = dm_source m).
Proof.
  intros Hin. apply methods_loop_in in Hin as (item & Hitem & Hm).
  destruct item; try discriminate.
  exists name, item, body, decorator_list, returns, type_params, lineno, end_lineno.
  split; [exact Hitem|].
  assert (Hsrc : forall decs lines m0,
             discover_method cleandoc
               (FunctionDef name item body decs returns type_params lineno end_lineno)
               lines = Some m0 ->
             dm_name m0 = name /\ dm_line_number m0 = lineno /\
             dm_source m0 = _get_method_source lineno end_lineno lines).
  { intros decs lines m0. simpl.
    destruct (method_type (fold_left decorator_step decs initial_tag_state)) as [mt|];
      [|discriminate].
    destruct (truthy mt); [|discriminate]. intros [= <-]. repeat split. }
  destruct (Hsrc _ _ _ Hm) as (Hn & Hl & Hs).
  split; [exact Hn|]. split; [exact Hl|]. split.
  - rewrite Hs. unfold _get_method_source, slice.
    destruct end_lineno as [[|e]|]; try reflexivity; f_equal; f_equal; lia.
  - intros decs' lines' m' Hlines Hm'.
    destruct (Hsrc _ _ _ Hm') as (_ & _ & Hs'). rewrite Hs, Hs'.
    unfold _get_method_source, slice. rewrite Hlines. reflexivity.
Qed.

End Scans.

Section TraversalOrder.

Variable cleandoc : string -> string.
Variable fs : FileSystem.

(** C8, as the code has it. The agents of a scanned file are its
    candidate classes in the order of [ast.walk], which is breadth-first:
    the nodes of depth 0, then those of depth 1, and so on, so that a
    class declaration comes before every declaration that lies deeper in
    the tree; the nodes of one depth are in document order; and every
    node of the tree, nested class declarations included, is met exactly
    once. *)
Theorem agents_in_breadth_first_order (file_path : path) (source_lines : list string)
    (tree : node) (agents : list DiscoveredAgent) :
  read_and_parse fs file_path = SourceParsed source_lines tree ->
  _extract_agent_info_from_ast cleandoc fs file_path = Ok agents ->
  map da_class_name agents = map class_name_of (candidate_classes (walk tree)) /\
  walk tree = flat_map (fun d => nodes_at_depth d tree) (seq 0 (node_size tree)) /\
  (forall d, Subseq (nodes_at_depth d tree) (preorder tree)) /\
  Permutation (walk tree) (preorder tree).
Proof.
  intros Hparse Hscan. unfold _extract_agent_info_from_ast in Hscan.
  rewrite Hparse in Hscan.
  split; [exact (agents_loop_class_names _ _ _ _ _ _ Hscan)|].
  split; [apply walk_levels|].
  split; [intros d; apply level_in_document_order|apply walk_permutation].
Qed.

End TraversalOrder.

(** C8, as the specification words it, fails on agents/nested.py: the
    class [Inner], declared inside [Outer] and before [Last], is listed
    after [Last]. *)
Lemma nested_class_listed_last :
  exists agents,
    _extract_agent_info_from_ast Samples.cleandoc Samples.fs Samples.nested_py = Ok agents /\
    map da_class_name agents = ["Outer"; "Last"; "Inner"] /\
    map class_name_of (candidate_classes (preorder Samples.nested_tree)) =
      ["Outer"; "Inner"; "Last"].
Proof. eexists. repeat split. Qed.

(** C2. The scanner at [Calculator.plan], whose decorator is the bare
    name [decomposition]: the class declares four decorated methods and
    the scanner lists three of them, [reset] with its bare [primitive]
    among them, and not [plan]; a class whose only method is [plan] has
    no methods at all. *)
Lemma bare_decomposition_not_listed :
  In Samples.calc_plan (class_body Samples.calc_class) /\
  map dm_name (_extract_decorated_methods Samples.cleandoc Samples.calc_class Samples.calc_lines)
    = ["add"; "total"; "reset"] /\
  _extract_decorated_methods Samples.cleandoc
    (ClassDef "Solo" [Name "PlanExecute"] [] [Samples.calc_plan] [] []) Samples.calc_lines
    = [].
Proof. repeat split. simpl. tauto. Qed.

(** C7, as the specification words it, fails on agents/pair.py: the
    methods [A.run] and [B.run] have the same source field and the same
    name, one is a primitive and the other a decomposition, so that no
    reading of the source field gives the tag of both. *)
Lemma source_field_does_not_determine_tag :
  exists a b ma mb,
    _extract_agent_info_from_ast Samples.cleandoc Samples.fs Samples.pair_py = Ok [a; b] /\
    da_methods a = [ma] /\ da_methods b = [mb] /\
    dm_source ma = dm_source mb /\ dm_name ma = dm_name mb /\
    dm_method_type ma = "primitive" /\ dm_method_type mb = "decomposition".
Proof. do 4 eexists. repeat split. Qed.

(** C3. The scanner at agents/latin1.py, a source file whose bytes are
    not UTF-8 and which therefore cannot be read: the single-file scan
    raises the decoding error instead of returning the empty list, and
    the scan of the directory that holds the file raises as well, so
    that the agents of the other files are lost.  A file that does not
    parse, next to it, is skipped as intended. *)
Lemma undecodable_source_aborts_the_scan :
  path_is_file MoreSamples.fs_more MoreSamples.latin1_py = true /\
  read_and_parse MoreSamples.fs_more MoreSamples.latin1_py =
    SourceRaises UnicodeDecodeError /\
  scan_file_for_agents Samples.cleandoc MoreSamples.fs_more MoreSamples.latin1_py =
    Raise UnicodeDecodeError /\
  In MoreSamples.latin1_py (rglob_py MoreSamples.fs_more Samples.agents_dir) /\
  scan_directory_for_agents Samples.cleandoc MoreSamples.fs_more Samples.agents_dir =
    Raise UnicodeDecodeError /\
  read_and_parse Samples.fs Samples.broken_py = SourceRaises SyntaxError /\
  scan_file_for_agents Samples.cleandoc Samples.fs Samples.broken_py = Ok [].
Proof.
  split; [reflexivity|]. split; [reflexivity|]. split; [reflexivity|].
  split; [simpl; tauto|]. split; [vm_compute; reflexivity|].
  split; reflexivity.
Qed.

(** C4. The scanner at agents/calc.py, whose class calls
    [load_manifest(__file__)], when agents/calc.manifest.json holds bytes
    that are not UTF-8 and so is not parsable as JSON: the load of the
    manifest raises the decoding error instead of giving empty fields,
    and the error reaches the caller of the file scan and of the
    directory scan.  A manifest whose text is not well-formed JSON, as
    that of agents/pair.py, gives empty fields as intended. *)
Lemma undecodable_manifest_aborts_the_scan :
  load_manifest_calls Samples.calc_class =
    [Call (Name "load_manifest") [Name "__file__"] []] /\
  manifest_path Samples.calc_py (_extract_manifest_filename Samples.calc_class) =
    Samples.calc_manifest /\
  open_and_load_json MoreSamples.fs_undecodable_manifest Samples.calc_manifest =
    JsonRaises UnicodeDecodeError /\
  _load_manifest_metadata MoreSamples.fs_undecodable_manifest Samples.calc_py
    (_extract_manifest_filename Samples.calc_class) = Raise UnicodeDecodeError /\
  scan_file_for_agents Samples.cleandoc MoreSamples.fs_undecodable_manifest
    Samples.calc_py = Raise UnicodeDecodeError /\
  scan_directory_for_agents Samples.cleandoc MoreSamples.fs_undecodable_manifest
    Samples.agents_dir = Raise UnicodeDecodeError /\
  open_and_load_json Samples.fs Samples.pair_manifest = JsonRaises JSONDecodeError /\
  _load_manifest_metadata Samples.fs Samples.pair_py None = Ok ManifestMetadata_default.
Proof.
  split; [reflexivity|]. split; [reflexivity|]. split; [reflexivity|].
  split; [reflexivity|]. split; [vm_compute; reflexivity|].
  split; [vm_compute; reflexivity|]. split; reflexivity.
Qed.

(** C5, as the specification words it, fails on [Door.open], whose tag
    is [primitive(read_only='no')]: the argument named read_only has no
    literal boolean value, and the method is listed with read_only =
    true, the truth value of the non-empty string. *)
Lemma read_only_string_counts_as_true :
  exists m,
    _extract_decorated_methods Samples.cleandoc MoreSamples.door_class
      MoreSamples.door_lines = [m] /\
    dm_name m = "open" /\ dm_method_type m = "primitive" /\ dm_read_only m = true.
Proof. eexists. repeat split. Qed.

(** C10, as the specification words it, fails on [Twice.run], which
    carries [decomposition('first', expanded_intent='kept')] and then
    [decomposition('second')]: each tag by itself gives an intent, and
    the one method record has the intent of the second; the intent of
    the first is not retained, while its expanded intent, which the
    second does not assign, is. *)
Lemma earlier_intent_is_overwritten :
  sets_intent MoreSamples.twice_first = Some "first" /\
  sets_intent MoreSamples.twice_second = Some "second" /\
  exists m,
    _extract_decorated_methods Samples.cleandoc MoreSamples.twice_class
      MoreSamples.twice_lines = [m] /\
    dm_name m = "run" /\ dm_method_type m = "decomposition" /\
    dm_intent m = "second" /\ dm_expanded_intent m = "kept".
Proof. split; [reflexivity|]. split; [reflexivity|]. eexists. repeat split. Qed.

(** ** The statements at the sample files *)

Module Witnesses.
Import Samples.

(** The directory scan skips [__pycache__], gets nothing from the two
    files that cannot be scanned, and lists the classes file by file. *)
Example agents_of_the_sample_directory :
  exists agents,
    scan_directory_for_agents cleandoc fs agents_dir = Ok agents /\
    map da_class_name agents = ["Calculator"; "Outer"; "Last"; "Inner"; "A"; "B"].
Proof. eexists. split; [vm_compute; reflexivity|reflexivity]. Qed.

(** A primitive, a decomposition and a primitive, declared in this
    order, are listed in this order. *)
Example three_methods_keep_their_order :
  map (fun m => (dm_name m, dm_method_type m))
    (_extract_decorated_methods cleandoc calc_class calc_lines) =
  [("add", "primitive"); ("total", "decomposition"); ("reset", "primitive")].
Proof. reflexivity. Qed.

(** The signature of a definition that spans several lines stops at the
    line of the return arrow. *)
Example signature_of_total :
  _get_method_signature 12 calc_lines =
  join nl ["def total("; "        self,"; "        xs,"; "    ) -> int:"].
Proof. reflexivity. Qed.

(** C1 at agents/calc.py: the manifest overrides description and version
    and leaves the inline name. *)
Lemma manifest_values_take_precedence_witness :
  exists agents agent,
    read_and_parse fs calc_py = SourceParsed calc_lines calc_tree /\
    _extract_agent_info_from_ast cleandoc fs calc_py = Ok agents /\
    In agent agents /\
    da_name agent = "Calc" /\ da_description agent = "B" /\ da_version agent = "2.0" /\
    exists class_node,
      In class_node (walk calc_tree) /\ is_candidate class_node = true /\
      da_class_name agent = class_name_of class_node /\
      (load_manifest_found (_extract_manifest_filename class_node) = true ->
       load_manifest_calls class_node <> [] /\
       exists manifest_meta,
         _load_manifest_metadata fs calc_py (_extract_manifest_filename class_node)
           = Ok manifest_meta /\
         merged_field (mm_name manifest_meta) (af_name (inline_fields class_node))
           (da_name agent) /\
         merged_field (mm_description manifest_meta) (inline_description cleandoc class_node)
           (da_description agent) /\
         merged_field (mm_version manifest_meta) (af_version (inline_fields class_node))
           (da_version agent)) /\
      (load_manifest_found (_extract_manifest_filename class_node) = false ->
       da_name agent = af_name (inline_fields class_node) /\
       da_description agent = inline_description cleandoc class_node /\
       da_version agent = af_version (inline_fields class_node)).
Proof.
  do 2 eexists.
  split; [reflexivity|]. split; [vm_compute; reflexivity|].
  split; [left; reflexivity|]. do 3 (split; [reflexivity|]).
  apply (manifest_values_take_precedence cleandoc fs calc_py calc_lines calc_tree _ _
           eq_refl eq_refl (or_introl eq_refl)).
Defined.

(** The bare name at [Calculator.plan]. *)
Lemma decomposition_recognized_in_call_form_witness :
  class_body calc_class =
    [calc_docstring; calc_init; calc_add; calc_total; calc_reset] ++ calc_plan :: [] /\
  Forall unrecognized [] /\
  _extract_decorated_methods cleandoc calc_class calc_lines =
    methods_loop cleandoc [calc_docstring; calc_init; calc_add; calc_total; calc_reset]
      calc_lines ++ methods_loop cleandoc [] calc_lines.
Proof.
  split; [reflexivity|]. split; [constructor|].
  apply (decomposition_recognized_in_call_form cleandoc calc_lines
           "plan" (arguments ["self"]) [pass] None [] 23 (Some 24) calc_class
           [calc_docstring; calc_init; calc_add; calc_total; calc_reset] []
           [] [] (Name "decomposition") eq_refl (Forall_nil _) (Forall_nil _)).
  reflexivity.
Defined.

(** The absorbed syntax error at agents/broken.py. *)
Lemma unreadable_or_invalid_file_yields_no_agents_witness :
  read_and_parse fs broken_py = SourceRaises SyntaxError /\
  _extract_agent_info_from_ast cleandoc fs broken_py = Ok [] /\
  scan_file_for_agents cleandoc fs broken_py = Ok [] /\
  (forall before after,
      directory_loop cleandoc fs (before ++ broken_py :: after) =
      directory_loop cleandoc fs (before ++ after)) /\
  (forall directory before after agents1 agents2,
      path_exists fs directory = true -> path_is_dir fs directory = true ->
      rglob_py fs directory = before ++ broken_py :: after ->
      directory_loop cleandoc fs before = Ok agents1 ->
      directory_loop cleandoc fs after = Ok agents2 ->
      scan_directory_for_agents cleandoc fs directory = Ok (agents1 ++ agents2)).
Proof.
  split; [reflexivity|].
  apply (unreadable_or_invalid_file_yields_no_agents cleandoc fs broken_py
           (or_introl eq_refl)).
Defined.

(** The default manifest name at the class [Outer] of agents/nested.py,
    which has no manifest. *)
Lemma default_manifest_name_and_lenient_load_witness :
  load_manifest_calls outer_class = [Call (Name "load_manifest") [Name "__file__"] []] /\
  path_exists fs ["agents"; "nested.manifest.json"] = false /\
  _extract_manifest_filename outer_class = None /\
  manifest_path nested_py (_extract_manifest_filename outer_class) =
    ["agents"; "nested.manifest.json"] /\
  _load_manifest_metadata fs nested_py (_extract_manifest_filename outer_class) =
    Ok ManifestMetadata_default /\
  exists agent,
    discover_agent cleandoc fs nested_py nested_lines outer_class "PlanExecute" = Ok agent /\
    da_name agent = af_name (inline_fields outer_class) /\
    da_description agent = inline_description cleandoc outer_class /\
    da_version agent = af_version (inline_fields outer_class).
Proof.
  split; [reflexivity|]. split; [reflexivity|].
  destruct (default_manifest_name_and_lenient_load cleandoc fs nested_py nested_lines
              outer_class "PlanExecute" (Name "__file__") [] [] eq_refl (Forall_nil _))
    as (Hname & Hpath & _ & Hlenient).
  split; [exact Hname|]. split; [exact Hpath|].
  exact (Hlenient (or_introl eq_refl)).
Defined.

(** C5 at [Calculator.add], tagged [primitive(read_only=True)], and at
    [Calculator.reset], tagged with the bare name. *)
Lemma primitive_read_only_flag_witness :
  class_body calc_class =
    [calc_docstring; calc_init] ++ calc_add :: [calc_total; calc_reset; calc_plan] /\
  class_body calc_class =
    [calc_docstring; calc_init; calc_add; calc_total] ++ calc_reset :: [calc_plan] /\
  Forall unrecognized [] /\
  (exists m,
     _extract_decorated_methods cleandoc calc_class calc_lines =
       methods_loop cleandoc [calc_docstring; calc_init] calc_lines
         ++ m :: methods_loop cleandoc [calc_total; calc_reset; calc_plan] calc_lines /\
     dm_name m = "add" /\ dm_method_type m = "primitive" /\ dm_read_only m = true) /\
  (exists m,
     _extract_decorated_methods cleandoc calc_class calc_lines =
       methods_loop cleandoc [calc_docstring; calc_init; calc_add; calc_total] calc_lines
         ++ m :: methods_loop cleandoc [calc_plan] calc_lines /\
     dm_name m = "reset" /\ dm_method_type m = "primitive" /\ dm_read_only m = false).
Proof.
  split; [reflexivity|]. split; [reflexivity|]. split; [constructor|]. split.
  - destruct (proj1 (primitive_read_only_flag cleandoc calc_lines
                  "add" (arguments ["self"; "a"; "b"]) [Other [Other [Name "a"; Name "b"]]]
                  None [] 8 (Some 9) calc_class
                  [calc_docstring; calc_init] [calc_total; calc_reset; calc_plan]
                  [] []
                  (Call (Name "primitive") []
                     [keyword (Some "read_only") (Constant (CBool true))])
                  eq_refl (Forall_nil _) (Forall_nil _))
                [] [] [] (CBool true) eq_refl (Forall_nil _))
      as (m & Hm & Hname & Htype & _ & Hbool).
    exists m. split; [exact Hm|]. split; [exact Hname|]. split; [exact Htype|].
    exact (Hbool true eq_refl).
  - exact (proj2 (primitive_read_only_flag cleandoc calc_lines
                    "reset" (arguments ["self"]) [Other [Attribute (Name "self") "v"; Constant (CInt 0)]]
                    None [] 19 (Some 20) calc_class
                    [calc_docstring; calc_init; calc_add; calc_total] [calc_plan]
                    [] [] (Name "primitive")
                    eq_refl (Forall_nil _) (Forall_nil _))
             (or_introl eq_refl)).
Defined.

(** C7 at [A.run] of agents/pair.py. *)
Lemma method_source_spans_def_to_end_witness :
  exists m,
    _extract_decorated_methods cleandoc pair_a pair_lines = [m] /\
    exists name args body decorator_list returns type_params lineno end_lineno,
      In (FunctionDef name args body decorator_list returns type_params lineno end_lineno)
         (class_body pair_a) /\
      dm_name m = name /\ dm_line_number m = lineno /\
      dm_source m =
        join nl (firstn (match end_lineno with
                         | Some (S e) => S e - (lineno - 1)
                         | _ => 1
                         end) (skipn (lineno - 1) pair_lines)) /\
      (forall decorator_list' source_lines' m',
          skipn (lineno - 1) source_lines' = skipn (lineno - 1) pair_lines ->
          discover_method cleandoc
            (FunctionDef name args body decorator_list' returns type_params lineno end_lineno)
            source_lines' = Some m' ->
          dm_source m' = dm_source m).
Proof.
  eexists. split; [reflexivity|].
  apply (method_source_spans_def_to_end cleandoc pair_a pair_lines _ (or_introl eq_refl)).
Defined.

(** C8 at agents/nested.py. *)
Lemma agents_in_breadth_first_order_witness :
  exists agents,
    read_and_parse fs nested_py = SourceParsed nested_lines nested_tree /\
    _extract_agent_info_from_ast cleandoc fs nested_py = Ok agents /\
    map da_class_name agents = map class_name_of (candidate_classes (walk nested_tree)) /\
    walk nested_tree =
      flat_map (fun d => nodes_at_depth d nested_tree) (seq 0 (node_size nested_tree)) /\
    (forall d, Subseq (nodes_at_depth d nested_tree) (preorder nested_tree)) /\
    Permutation (walk nested_tree) (preorder nested_tree).
Proof.
  eexists. split; [reflexivity|]. split; [vm_compute; reflexivity|].
  apply (agents_in_breadth_first_order cleandoc fs nested_py nested_lines nested_tree _
           eq_refl eq_refl).
Defined.

(** C10 at [Mixed.both]. *)
Lemma several_tags_last_one_classifies_witness :
  class_body mixed_class =
    [] ++ FunctionDef "both" (arguments ["self"]) [pass]
            ([mixed_read_only] ++ mixed_decomposition :: []) None [] 4 (Some 5) :: [] /\
  recognized_tag mixed_decomposition = Some "decomposition" /\
  Forall unrecognized [] /\
  exists m,
    _extract_decorated_methods cleandoc mixed_class mixed_lines = [m] /\
    dm_name m = "both" /\ dm_method_type m = "decomposition" /\
    dm_read_only m = true /\ dm_intent m = "split the work".
Proof.
  split; [reflexivity|]. split; [reflexivity|]. split; [constructor|].
  destruct (several_tags_last_one_classifies cleandoc mixed_lines
              "both" (arguments ["self"]) [pass] None [] 4 (Some 5) mixed_class [] []
              [mixed_read_only] [] mixed_decomposition "decomposition"
              eq_refl eq_refl (Forall_nil _))
    as (m & Hm & Hname & Htype & Hro & Hintent & _).
  exists m. split; [exact Hm|]. split; [exact Hname|]. split; [exact Htype|]. split.
  - apply (Hro [] mixed_read_only [mixed_decomposition] true eq_refl eq_refl).
    constructor; [reflexivity|constructor].
  - apply (Hintent [mixed_read_only] mixed_decomposition [] "split the work" eq_refl eq_refl).
    constructor.
Defined.

End Witnesses.

(** * Further properties of the scanner *)

Lemma valid_base_name_values (s : string) :
  valid_base_name s = true -> s = "PlanExecute" \/ s = "Planner".
Proof.
  unfold valid_base_name. intros H. apply orb_true_iff in H as [H|H];
    apply String.eqb_eq in H; auto.
Qed.

Lemma base_class_loop_first (bases : list node) (base : string) :
  base_class_loop bases = Some base <->
  exists before b after,
    bases = before ++ b :: after /\
    Forall (fun x => recognized_base x = None) before /\
    recognized_base b = Some base.
Proof.
  split.
  - induction bases as [|x bases IH]; [discriminate|].
    intros H.
    destruct (recognized_base x) as [id|] eqn:Hx.
    + exists [], x, bases. split; [reflexivity|]. split; [constructor|].
      destruct x; try discriminate; simpl in *.
      * destruct (valid_base_name id0); congruence.
      * destruct (valid_base_name attr); congruence.
    + assert (Hrest : base_class_loop bases = Some base).
      { destruct x; try exact H; simpl in *.
        - destruct (valid_base_name id); [discriminate|exact H].
        - destruct (valid_base_name attr); [discriminate|exact H]. }
      destruct (IH Hrest) as (before & b & after & -> & Hbefore & Hb).
      exists (x :: before), b, after. split; [reflexivity|].
      split; [constructor; assumption|exact Hb].
  - intros (before & b & after & -> & Hbefore & Hb).
    induction Hbefore as [|x before Hx _ IH]; simpl.
    + destruct b; try discriminate; simpl in *.
      * destruct (valid_base_name id); congruence.
      * destruct (valid_base_name attr); congruence.
    + destruct x; try exact IH; simpl in *.
      * destruct (valid_base_name id); [discriminate|exact IH].
      * destruct (valid_base_name attr); [discriminate|exact IH].
Qed.

Lemma recognized_base_values (b : node) (base : string) :
  recognized_base b = Some base -> base = "PlanExecute" \/ base = "Planner".
Proof.
  destruct b; try discriminate; simpl.
  - destruct (valid_base_name id) eqn:H; [|discriminate].
    intros [= <-]. apply valid_base_name_values, H.
  - destruct (valid_base_name attr) eqn:H; [|discriminate].
    intros [= <-]. apply valid_base_name_values, H.
Qed.

Lemma candidate_base_first (class_node : node) (base : string) :
  candidate_base class_node = Some base <->
  exists before b after,
    (exists name keywords body decorator_list type_params,
        class_node = ClassDef name (before ++ b :: after) keywords body
                       decorator_list type_params) /\
    Forall (fun x => recognized_base x = None) before /\
    recognized_base b = Some base.
Proof.
  split.
  - destruct class_node; try discriminate. simpl.
    destruct (base_class_loop bases) as [b0|] eqn:Hloop; [|discriminate].
    destruct (truthy b0); [|discriminate]. intros [= <-].
    apply base_class_loop_first in Hloop as (before & b & after & -> & Hbefore & Hb).
    exists before, b, after. split; [eauto 8|]. split; assumption.
  - intros (before & b & after & (name & kws & body & decs & tps & ->) & Hbefore & Hb).
    simpl.
    assert (Hloop : base_class_loop (before ++ b :: after) = Some base)
      by (apply base_class_loop_first; eauto 8).
    rewrite Hloop.
    destruct (recognized_base_values _ _ Hb); subst base; reflexivity.
Qed.

Lemma Forall2_in_l {A B : Type} (R : A -> B -> Prop) (l1 : list A) (l2 : list B) (a : A) :
  Forall2 R l1 l2 -> In a l1 -> exists b, In b l2 /\ R a b.
Proof.
  induction 1 as [|x y l1 l2 Hxy _ IH]; simpl; [contradiction|].
  intros [<-|Hin]; [eauto|]. destruct (IH Hin) as (b & Hb & HR). eauto.
Qed.

Section Candidates.

Variable cleandoc : string -> string.
Variable fs : FileSystem.

(** X1. Every agent of a scan comes from a class declaration of the
    tree whose first recognized base, in the order of its bases, is the
    agent's base class; the base class is PlanExecute or Planner and
    nothing else. *)
Theorem agents_come_from_recognized_bases (file_path : path)
    (agents : list DiscoveredAgent) (agent : DiscoveredAgent) :
  _extract_agent_info_from_ast cleandoc fs file_path = Ok agents ->
  In agent agents ->
  (da_base_class agent = "PlanExecute" \/ da_base_class agent = "Planner") /\
  da_file_path agent = file_path /\
  exists source_lines tree before b after keywords body decorator_list type_params,
    read_and_parse fs file_path = SourceParsed source_lines tree /\
    In (ClassDef (da_class_name agent) (before ++ b :: after) keywords body
          decorator_list type_params) (walk tree) /\
    Forall (fun x => recognized_base x = None) before /\
    recognized_base b = Some (da_base_class agent).
Proof.
  unfold _extract_agent_info_from_ast. intros Hscan Hin.
  destruct (read_and_parse fs file_path) as [e|source_lines tree] eqn:Hread.
  - destruct (caught [SyntaxError; OSError] e); [|discriminate].
    injection Hscan as <-. destruct Hin.
  - apply agents_loop_classes in Hscan.
    destruct (Forall2_in_r _ _ _ _ Hscan Hin) as (cls & Hcls & base & Hbase & Hagent).
    apply filter_In in Hcls as [Hwalk _].
    assert (Hpath : da_file_path agent = file_path).
    { unfold discover_agent in Hagent.
      destruct (load_manifest_found _); simpl in Hagent;
        [destruct (_load_manifest_metadata _ _ _); [|discriminate]|];
        simpl in Hagent; injection Hagent as <-; reflexivity. }
    apply discover_agent_ok in Hagent as (Hname & Hb & _).
    pose proof Hbase as Hshape.
    apply candidate_base_first in Hshape
      as (before & b & after & (name & kws & body & decs & tps & ->) & Hbefore & Hrec).
    rewrite Hb. split; [exact (recognized_base_values _ _ Hrec)|].
    split; [exact Hpath|].
    exists source_lines, tree, before, b, after, kws, body, decs, tps.
    rewrite Hname. simpl. repeat split; assumption.
Qed.

(** X2. No candidate class is lost: when the scan of a file returns,
    every class declaration of the tree that has a recognized base,
    nested or not, has an agent with its class name, and the agent's
    base class is the first recognized base of the class. *)
Theorem every_candidate_class_yields_an_agent (file_path : path)
    (source_lines : list string) (tree : node) (agents : list DiscoveredAgent)
    (name : string) (before after keywords body decorator_list type_params : list node)
    (b : node) (base : string) :
  read_and_parse fs file_path = SourceParsed source_lines tree ->
  _extract_agent_info_from_ast cleandoc fs file_path = Ok agents ->
  In (ClassDef name (before ++ b :: after) keywords body decorator_list type_params)
     (preorder tree) ->
  Forall (fun x => recognized_base x = None) before ->
  recognized_base b = Some base ->
  exists agent,
    In agent agents /\ da_class_name agent = name /\ da_base_class agent = base /\
    da_methods agent =
      _extract_decorated_methods cleandoc
        (ClassDef name (before ++ b :: after) keywords body decorator_list type_params)
        source_lines.
Proof.
  intros Hread Hscan Hin Hbefore Hb.
  unfold _extract_agent_info_from_ast in Hscan. rewrite Hread in Hscan.
  apply agents_loop_classes in Hscan.
  set (cls := ClassDef name (before ++ b :: after) keywords body decorator_list
                type_params) in *.
  assert (Hbase : candidate_base cls = Some base)
    by (apply candidate_base_first; exists before, b, after;
        split; [do 5 eexists; reflexivity|split; assumption]).
  assert (Hcand : In cls (candidate_classes (walk tree))).
  { apply filter_In. split.
    - apply (Permutation_in _ (Permutation_sym (walk_permutation tree))), Hin.
    - unfold is_candidate. rewrite Hbase. reflexivity. }
  destruct (Forall2_in_l _ _ _ _ Hscan Hcand) as (agent & Hagent & base' & Hbase' & Hd).
  assert (base' = base) by congruence. subst base'.
  apply discover_agent_ok in Hd as (Hn & Hbc & Hm & _).
  exists agent. repeat split; assumption.
Qed.

(** X3. A file in which no class declaration has a recognized base
    yields the empty list, and nothing is raised, whatever manifests lie
    beside it. *)
Theorem no_recognized_base_no_agents (file_path : path) (source_lines : list string)
    (tree : node) :
  read_and_parse fs file_path = SourceParsed source_lines tree ->
  (forall class_node base,
      In class_node (preorder tree) -> In base (class_bases class_node) ->
      recognized_base base = None) ->
  _extract_agent_info_from_ast cleandoc fs file_path = Ok [] /\
  scan_file_for_agents cleandoc fs file_path = Ok [].
Proof.
  intros Hread Hnone.
  assert (Hscan : _extract_agent_info_from_ast cleandoc fs file_path = Ok []).
  { unfold _extract_agent_info_from_ast. rewrite Hread.
    assert (Hwalk : forall n, In n (walk tree) -> candidate_base n = None).
    { intros n Hn. destruct (candidate_base n) as [base|] eqn:Hbase; [|reflexivity].
      apply candidate_base_first in Hbase
        as (before & b & after & (nm & kws & body & decs & tps & ->) & _ & Hb).
      rewrite (Hnone _ b (Permutation_in _ (walk_permutation tree) Hn)) in Hb;
        [discriminate|].
      simpl. apply in_or_app. right. left. reflexivity. }
    induction (walk tree) as [|n nodes IH]; [reflexivity|].
    simpl. rewrite (Hwalk n (or_introl eq_refl)).
    apply IH. intros m Hm. apply Hwalk. right. exact Hm. }
  split; [exact Hscan|].
  unfold scan_file_for_agents.
  destruct (negb (path_exists fs file_path) || negb (path_is_file fs file_path));
    [reflexivity|exact Hscan].
Qed.

End Candidates.

(** ** Whitespace *)

Lemma lstrip_head (s : string) : head_is_space (lstrip s) = false.
Proof.
  induction s as [|c s IH]; [reflexivity|].
  simpl. destruct (is_space c) eqn:Hc; [exact IH|]. simpl. exact Hc.
Qed.

Lemma rstrip_last (s : string) : last_is_space (rstrip s) = false.
Proof.
  induction s as [|c s IH]; [reflexivity|].
  simpl. destruct (rstrip s) as [|c' r] eqn:Hr.
  - destruct (is_space c) eqn:Hc; [reflexivity|]. simpl. exact Hc.
  - exact IH.
Qed.

Lemma lstrip_keeps_last (s : string) :
  last_is_space s = false -> last_is_space (lstrip s) = false.
Proof.
  induction s as [|c s IH]; [reflexivity|].
  intros H. simpl. destruct (is_space c) eqn:Hc; [|exact H].
  apply IH. destruct s; [reflexivity|exact H].
Qed.

Lemma strip_trimmed (s : string) :
  head_is_space (strip s) = false /\ last_is_space (strip s) = false.
Proof.
  unfold strip. split; [apply lstrip_head|apply lstrip_keeps_last, rstrip_last].
Qed.

Lemma first_line_one_line (s : string) : one_line (first_line s) = true.
Proof.
  induction s as [|c s IH]; [reflexivity|].
  simpl. destruct (Ascii.eqb c (ascii_of_nat 10)) eqn:Hc; [reflexivity|].
  simpl. rewrite Hc. exact IH.
Qed.

Lemma rstrip_one_line (s : string) : one_line s = true -> one_line (rstrip s) = true.
Proof.
  induction s as [|c s IH]; [reflexivity|].
  simpl. intros H. apply andb_true_iff in H as [Hc Hs].
  destruct (rstrip s) as [|c' r] eqn:Hr.
  - destruct (is_space c); [reflexivity|]. simpl. rewrite Hc. reflexivity.
  - simpl. rewrite Hc. simpl. exact (IH Hs).
Qed.

Lemma lstrip_one_line (s : string) : one_line s = true -> one_line (lstrip s) = true.
Proof.
  induction s as [|c s IH]; [reflexivity|].
  simpl. intros H. destruct (is_space c); [|exact H].
  apply andb_true_iff in H as [_ Hs]. exact (IH Hs).
Qed.

Section MethodsAndText.

Variable cleandoc : string -> string.
Variable fs : FileSystem.

Lemma tagged_function_tag (item : node) :
  tagged item = true ->
  function_tag item = "primitive" \/ function_tag item = "decomposition".
Proof.
  destruct item; try discriminate. simpl.
  destruct (last_some recognized_tag decorator_list) as [t|] eqn:Hl; [|discriminate].
  intros _. apply last_some_in in Hl as (d & _ & Hd).
  exact (recognized_tag_values _ _ Hd).
Qed.

Lemma agent_of_scan (file_path : path) (agents : list DiscoveredAgent)
    (agent : DiscoveredAgent) :
  _extract_agent_info_from_ast cleandoc fs file_path = Ok agents ->
  In agent agents ->
  exists source_lines tree class_node base,
    read_and_parse fs file_path = SourceParsed source_lines tree /\
    In class_node (walk tree) /\
    discover_agent cleandoc fs file_path source_lines class_node base = Ok agent.
Proof.
  unfold _extract_agent_info_from_ast. intros Hscan Hin.
  destruct (read_and_parse fs file_path) as [e|source_lines tree] eqn:Hread.
  - destruct (caught [SyntaxError; OSError] e); [|discriminate].
    injection Hscan as <-. destruct Hin.
  - apply agents_loop_classes in Hscan.
    destruct (Forall2_in_r _ _ _ _ Hscan Hin) as (cls & Hcls & base & _ & Hagent).
    apply filter_In in Hcls as [Hwalk _].
    exists source_lines, tree, cls, base. repeat split; assumption.
Qed.

(** X4. Every method of every agent of a scan is a primitive or a
    decomposition, stands for a function definition written directly in
    the body of the agent's class, at the line of its [def], and has a
    signature without whitespace at either end. *)
Theorem scanned_methods_are_tagged_definitions (file_path : path)
    (agents : list DiscoveredAgent) (agent : DiscoveredAgent) (m : DiscoveredMethod) :
  _extract_agent_info_from_ast cleandoc fs file_path = Ok agents ->
  In agent agents -> In m (da_methods agent) ->
  (dm_method_type m = "primitive" \/ dm_method_type m = "decomposition") /\
  head_is_space (dm_signature m) = false /\
  last_is_space (dm_signature m) = false /\
  exists source_lines tree class_node args body decorator_list returns type_params
         end_lineno,
    read_and_parse fs file_path = SourceParsed source_lines tree /\
    In class_node (walk tree) /\
    class_name_of class_node = da_class_name agent /\
    In (FunctionDef (dm_name m) args body decorator_list returns type_params
          (dm_line_number m) end_lineno) (class_body class_node).
Proof.
  intros Hscan Hagent Hm.
  destruct (agent_of_scan _ _ _ Hscan Hagent)
    as (source_lines & tree & cls & base & Hread & Hwalk & Hd).
  apply discover_agent_ok in Hd as (Hname & _ & Hmethods & _).
  rewrite Hmethods in Hm. apply methods_loop_in in Hm as (item & Hitem & Hdm).
  pose proof (discover_method_some _ _ _ _ Hdm) as (Htag & Hn & Hty & Hl).
  assert (Hsig : dm_signature m = _get_method_signature (function_lineno item) source_lines).
  { destruct item; try discriminate. simpl in Hdm.
    destruct (method_type _) as [mt|]; [|discriminate].
    destruct (truthy mt); [|discriminate]. injection Hdm as <-. reflexivity. }
  split; [rewrite Hty; apply tagged_function_tag, Htag|].
  rewrite Hsig. unfold _get_method_signature.
  split; [apply strip_trimmed|]. split; [apply strip_trimmed|].
  destruct item; try discriminate. simpl in Hn, Hl.
  exists source_lines, tree, cls, item, body, decorator_list, returns, type_params,
    end_lineno.
  rewrite Hn, Hl, Hname. repeat split; assumption.
Qed.

(** X5. A def line beyond the end of the line buffer gives an empty
    signature and an empty source excerpt; no index is out of range. *)
Theorem line_beyond_buffer_gives_empty_text (lineno : nat) (end_lineno : option nat)
    (source_lines : list string) :
  List.length source_lines < lineno ->
  _get_method_signature lineno source_lines = "" /\
  _get_method_source lineno end_lineno source_lines = "".
Proof.
  intros Hlen. split.
  - unfold _get_method_signature.
    replace (Nat.min (lineno - 1 + 10) (List.length source_lines) - (lineno - 1)) with 0
      by lia.
    reflexivity.
  - unfold _get_method_source, slice. rewrite skipn_all2 by lia.
    rewrite firstn_nil. reflexivity.
Qed.

End MethodsAndText.

(** ** Manifests *)

Lemma manifest_keyword_first (k1 k2 : list node) (v : constant) :
  Forall (fun kw => literal_keyword "manifest_name" kw = None) k1 ->
  manifest_keyword_loop (k1 ++ keyword (Some "manifest_name") (Constant v) :: k2) =
  Some (py_str v).
Proof.
  induction 1 as [|kw k1 Hkw _ IH]; [reflexivity|].
  destruct kw as [| | | | | | | |arg value|]; try exact IH.
  destruct arg as [arg|]; [|destruct value; exact IH].
  destruct value; try exact IH.
  simpl in *. destruct (arg =? "manifest_name"); [discriminate|exact IH].
Qed.

(** X6. The manifest file name comes from the first load_manifest call
    that the traversal of the class meets.  A literal second positional
    argument is the name, whatever the keyword arguments say; without
    one, the first literal manifest_name keyword argument is the name;
    and a class without any such call has no manifest. *)
Theorem manifest_name_precedence (class_node : node) :
  (forall first second_value more keywords others,
      load_manifest_calls class_node =
        Call (Name "load_manifest") (first :: Constant second_value :: more) keywords
          :: others ->
      _extract_manifest_filename class_node = Some (py_str second_value)) /\
  (forall args k1 k2 v others,
      load_manifest_calls class_node =
        Call (Name "load_manifest") args
          (k1 ++ keyword (Some "manifest_name") (Constant v) :: k2) :: others ->
      (forall first second_value more, args <> first :: Constant second_value :: more) ->
      Forall (fun kw => literal_keyword "manifest_name" kw = None) k1 ->
      _extract_manifest_filename class_node = Some (py_str v)) /\
  (load_manifest_calls class_node = [] ->
   _extract_manifest_filename class_node = Some "" /\
   load_manifest_found (_extract_manifest_filename class_node) = false).
Proof.
  unfold _extract_manifest_filename, load_manifest_calls.
  rewrite manifest_filename_first_call. split; [|split].
  - intros first second_value more keywords others ->. reflexivity.
  - intros args k1 k2 v others -> Hargs Hk1. simpl.
    destruct args as [|a [|b more]]; try (apply manifest_keyword_first, Hk1).
    destruct b; try (apply manifest_keyword_first, Hk1).
    destruct (Hargs a value more eq_refl).
  - intros ->. split; reflexivity.
Qed.

Section ManifestFiles.

Variable cleandoc : string -> string.
Variable fs : FileSystem.

(** X7. A manifest that exists and holds a JSON object gives the
    strings under its keys name, description and version, with the empty
    string for a key that is absent and whatever other keys it has; if
    the value of one of the three keys is not a string, the load raises
    a validation error, which the loader does not absorb. *)
Theorem manifest_object_fields (file_path : path) (manifest_name : option string)
    (members : list (string * json)) :
  path_exists fs (manifest_path file_path manifest_name) = true ->
  open_and_load_json fs (manifest_path file_path manifest_name) =
    JsonLoaded (JObject members) ->
  (forall name description version,
      string_or_absent (dict_get members "name") = Some name ->
      string_or_absent (dict_get members "description") = Some description ->
      string_or_absent (dict_get members "version") = Some version ->
      _load_manifest_metadata fs file_path manifest_name =
        Ok {| mm_name := name; mm_description := description; mm_version := version |}) /\
  (string_or_absent (dict_get members "name") = None \/
   string_or_absent (dict_get members "description") = None \/
   string_or_absent (dict_get members "version") = None ->
   _load_manifest_metadata fs file_path manifest_name = Raise ValidationError).
Proof.
  intros Hex Hload. unfold _load_manifest_metadata. rewrite Hex, Hload.
  cbn [negb]. cbv iota.
  assert (Hfield : forall key,
             manifest_field (JObject members) key =
             match string_or_absent (dict_get members key) with
             | Some s => Ok s
             | None => Raise ValidationError
             end).
  { intros key. simpl. destruct (dict_get members key) as [[]|]; reflexivity. }
  rewrite !Hfield. split.
  - intros name description version -> -> ->. reflexivity.
  - intros [H|[H|H]]; rewrite H;
      repeat match goal with
             | |- context [string_or_absent ?x] => destruct (string_or_absent x)
             end; reflexivity.
Qed.

Lemma agents_loop_raises (file_path : path) (source_lines : list string)
    (nodes : list node) (class_node : node) (base : string) (e : exn) :
  In class_node nodes -> candidate_base class_node = Some base ->
  discover_agent cleandoc fs file_path source_lines class_node base = Raise e ->
  exists e', agents_loop cleandoc fs file_path source_lines nodes = Raise e'.
Proof.
  induction nodes as [|n nodes IH]; [contradiction|].
  intros [->|Hin] Hbase Hraise; simpl.
  - rewrite Hbase, Hraise. simpl. eauto.
  - destruct (IH Hin Hbase Hraise) as [e' He'].
    destruct (candidate_base n) as [b|]; [|eauto].
    destruct (discover_agent cleandoc fs file_path source_lines n b); simpl; [|eauto].
    rewrite He'. simpl. eauto.
Qed.

Lemma directory_loop_raises (files : list path) (file : path) (e : exn) :
  In file files -> in_pycache file = false ->
  _extract_agent_info_from_ast cleandoc fs file = Raise e ->
  exists e', directory_loop cleandoc fs files = Raise e'.
Proof.
  induction files as [|f files IH]; [contradiction|].
  intros [->|Hin] Hpy Hraise; simpl.
  - rewrite Hpy, Hraise. simpl. eauto.
  - destruct (IH Hin Hpy Hraise) as [e' He'].
    destruct (in_pycache f); [eauto|].
    destruct (_extract_agent_info_from_ast cleandoc fs f); simpl; [|eauto].
    rewrite He'. simpl. eauto.
Qed.

(** X8. Errors of a manifest that the loader does not absorb abort the
    scan.  When a candidate class of a file has a load_manifest call and
    its manifest exists but holds JSON that is not an object, the scan
    of the file raises, and so does the scan of any directory that lists
    the file outside [__pycache__]: no agent of any file is returned. *)
Theorem manifest_that_is_not_an_object_aborts_the_scan (directory file_path : path)
    (source_lines : list string) (tree class_node : node) (base : string) (data : json) :
  read_and_parse fs file_path = SourceParsed source_lines tree ->
  In class_node (walk tree) -> candidate_base class_node = Some base ->
  load_manifest_found (_extract_manifest_filename class_node) = true ->
  path_exists fs (manifest_path file_path (_extract_manifest_filename class_node)) = true ->
  open_and_load_json fs (manifest_path file_path (_extract_manifest_filename class_node)) =
    JsonLoaded data ->
  (forall members, data <> JObject members) ->
  (exists e, _extract_agent_info_from_ast cleandoc fs file_path = Raise e) /\
  (path_exists fs directory = true -> path_is_dir fs directory = true ->
   In file_path (rglob_py fs directory) -> in_pycache file_path = false ->
   exists e, scan_directory_for_agents cleandoc fs directory = Raise e).
Proof.
  intros Hread Hwalk Hbase Hfound Hex Hload Hdata.
  assert (Hfile : exists e, _extract_agent_info_from_ast cleandoc fs file_path = Raise e).
  { unfold _extract_agent_info_from_ast. rewrite Hread.
    apply (agents_loop_raises _ _ _ class_node base AttributeError Hwalk Hbase).
    unfold discover_agent. rewrite Hfound.
    rewrite (manifest_not_an_object_raises fs _ _ data Hex Hload Hdata). reflexivity. }
  split; [exact Hfile|].
  intros Hdir_ex Hdir Hin Hpy. destruct Hfile as [e He].
  unfold scan_directory_for_agents. rewrite Hdir_ex, Hdir. simpl.
  exact (directory_loop_raises _ _ e Hin Hpy He).
Qed.

(** X9. A source file whose scan raises, such as one whose bytes are not
    UTF-8, aborts the scan of every directory that lists it outside
    [__pycache__]: the directory scan raises and returns no agent of any
    other file.  The error raised is that of the first such file when
    the files before it are scanned without error. *)
Theorem raising_file_aborts_directory_scan (directory file_path : path) (e : exn)
    (before after : list path) :
  path_exists fs directory = true -> path_is_dir fs directory = true ->
  rglob_py fs directory = before ++ file_path :: after ->
  in_pycache file_path = false ->
  read_and_parse fs file_path = SourceRaises e ->
  caught [SyntaxError; OSError] e = false ->
  (exists e', scan_directory_for_agents cleandoc fs directory = Raise e') /\
  ((exists agents, directory_loop cleandoc fs before = Ok agents) ->
   scan_directory_for_agents cleandoc fs directory = Raise e).
Proof.
  intros Hex Hdir Hglob Hpy Hread Hcaught.
  assert (Hfile : _extract_agent_info_from_ast cleandoc fs file_path = Raise e).
  { unfold _extract_agent_info_from_ast. rewrite Hread, Hcaught. reflexivity. }
  unfold scan_directory_for_agents. rewrite Hex, Hdir, Hglob. simpl. split.
  - apply (directory_loop_raises _ file_path e); [|exact Hpy|exact Hfile].
    apply in_or_app. right. left. reflexivity.
  - intros [agents Hbefore]. rewrite directory_loop_app, Hbefore.
    cbn [directory_loop bind]. rewrite Hpy, Hfile. reflexivity.
Qed.

End ManifestFiles.

(** ** Directories *)

Section Directories.

Variable cleandoc : string -> string.

Lemma load_manifest_same (fs fs' : FileSystem) (file_path : path)
    (manifest_name : option string) :
  (forall p, path_exists fs' p = path_exists fs p) ->
  (forall p, open_and_load_json fs' p = open_and_load_json fs p) ->
  _load_manifest_metadata fs' file_path manifest_name =
  _load_manifest_metadata fs file_path manifest_name.
Proof.
  intros Hex Hload. unfold _load_manifest_metadata. rewrite Hex, Hload. reflexivity.
Qed.

Lemma agents_loop_same (fs fs' : FileSystem) (file_path : path)
    (source_lines : list string) (nodes : list node) :
  (forall p, path_exists fs' p = path_exists fs p) ->
  (forall p, open_and_load_json fs' p = open_and_load_json fs p) ->
  agents_loop cleandoc fs' file_path source_lines nodes =
  agents_loop cleandoc fs file_path source_lines nodes.
Proof.
  intros Hex Hload. induction nodes as [|n nodes IH]; [reflexivity|].
  simpl. rewrite IH. destruct (candidate_base n); [|reflexivity].
  unfold discover_agent. rewrite (load_manifest_same fs fs' _ _ Hex Hload). reflexivity.
Qed.

(** X10. What lies below a [__pycache__] directory never reaches a
    directory scan: two file systems that differ only in what reading
    the source files below [__pycache__] gives, be it a well-formed
    agent or an error, have the same scan result for every directory. *)
Theorem pycache_never_scanned (fs fs' : FileSystem) (directory : path) :
  same_outside_pycache fs fs' ->
  scan_directory_for_agents cleandoc fs' directory =
  scan_directory_for_agents cleandoc fs directory.
Proof.
  intros (Hex & Hdir & Hglob & Hload & Hread).
  unfold scan_directory_for_agents. rewrite Hex, Hdir, Hglob.
  destruct (negb (path_exists fs directory) || negb (path_is_dir fs directory));
    [reflexivity|].
  induction (rglob_py fs directory) as [|f files IH]; [reflexivity|].
  simpl. rewrite IH. destruct (in_pycache f) eqn:Hpy; [reflexivity|].
  unfold _extract_agent_info_from_ast. rewrite (Hread f Hpy).
  destruct (read_and_parse fs f); [reflexivity|].
  rewrite (agents_loop_same fs fs' _ _ _ Hex Hload). reflexivity.
Qed.

(** X11. When every file that the traversal of an existing directory
    yields outside [__pycache__] is scanned without error, the directory
    scan returns the agents of these files, file after file in the order
    of the traversal, each file's agents in the order of its own scan. *)
Theorem directory_scan_concatenates (fs : FileSystem) (directory : path) :
  path_exists fs directory = true -> path_is_dir fs directory = true ->
  (forall file,
      In file (rglob_py fs directory) -> in_pycache file = false ->
      exists agents, _extract_agent_info_from_ast cleandoc fs file = Ok agents) ->
  scan_directory_for_agents cleandoc fs directory =
  Ok (flat_map (fun file => agents_or_none (_extract_agent_info_from_ast cleandoc fs file))
        (filter (fun file => negb (in_pycache file)) (rglob_py fs directory))).
Proof.
  intros Hex Hdir Hall. unfold scan_directory_for_agents. rewrite Hex, Hdir. simpl.
  induction (rglob_py fs directory) as [|f files IH]; [reflexivity|].
  simpl. destruct (in_pycache f) eqn:Hpy; simpl.
  - apply IH. intros file Hin. apply Hall. right. exact Hin.
  - destruct (Hall f (or_introl eq_refl) Hpy) as [agents Hagents].
    rewrite Hagents, IH; [reflexivity|].
    intros file Hin. apply Hall. right. exact Hin.
Qed.

End Directories.

(** ** Inline values *)

Lemma fold_left_flat_map {S A B : Type} (step : S -> B -> S) (g : A -> list B)
    (l : list A) (st : S) :
  fold_left step (flat_map g l) st =
  fold_left (fun st x => fold_left step (g x) st) l st.
Proof.
  revert st. induction l as [|x l IH]; intros st; [reflexivity|].
  simpl. rewrite fold_left_app. apply IH.
Qed.

Lemma init_calls_as_keywords (nodes : list node) (af : agent_fields) :
  fold_left init_call_step nodes af =
  fold_left init_keyword_step
    (flat_map (fun item =>
                 match item with
                 | Call (Attribute _ attr) _ keywords =>
                     if attr =? "__init__" then keywords else []
                 | _ => []
                 end) nodes) af.
Proof.
  rewrite fold_left_flat_map. revert af.
  induction nodes as [|n nodes IH]; intros af; [reflexivity|].
  simpl. rewrite <- IH. f_equal.
  destruct n as [| | | |f ? ?| | | | |]; try reflexivity.
  destruct f; try reflexivity. simpl. destruct (attr =? "__init__"); reflexivity.
Qed.

(** X12. The inline name, description and version of a class are each
    the literal of the last keyword argument of that name among the
    [__init__] calls below the class, taken in the order of the
    breadth-first traversal and whoever the receiver of the call is, so
    that a call in a nested class counts as well; a field without such an
    argument keeps its default, the class name for the name and the empty
    string for the others. *)
Theorem inline_fields_last_literal_wins (class_node : node) :
  af_name (inline_fields class_node) =
    match last_some (literal_keyword "name") (init_keywords class_node) with
    | Some v => py_str v
    | None => class_name_of class_node
    end /\
  af_description (inline_fields class_node) =
    match last_some (literal_keyword "description") (init_keywords class_node) with
    | Some v => py_str v
    | None => ""
    end /\
  af_version (inline_fields class_node) =
    match last_some (literal_keyword "version") (init_keywords class_node) with
    | Some v => py_str v
    | None => ""
    end.
Proof.
  unfold inline_fields, init_keywords. rewrite init_calls_as_keywords.
  set (kws := flat_map _ (walk class_node)).
  split; [|split].
  - rewrite (fold_left_last_some init_keyword_step af_name
               (fun kw => option_map py_str (literal_keyword "name" kw))).
    + rewrite last_some_option_map. destruct (last_some _ kws); reflexivity.
    + intros st kw. keyword_cases kw.
      destruct (arg =? "name"); [reflexivity|].
      destruct (arg =? "description"); [reflexivity|].
      destruct (arg =? "version"); reflexivity.
  - rewrite (fold_left_last_some init_keyword_step af_description
               (fun kw => option_map py_str (literal_keyword "description" kw))).
    + rewrite last_some_option_map. destruct (last_some _ kws); reflexivity.
    + intros st kw. keyword_cases kw.
      destruct (arg =? "name") eqn:En.
      * apply String.eqb_eq in En. subst arg. reflexivity.
      * destruct (arg =? "description"); [reflexivity|].
        destruct (arg =? "version"); reflexivity.
  - rewrite (fold_left_last_some init_keyword_step af_version
               (fun kw => option_map py_str (literal_keyword "version" kw))).
    + rewrite last_some_option_map. destruct (last_some _ kws); reflexivity.
    + intros st kw. keyword_cases kw.
      destruct (arg =? "name") eqn:En.
      * apply String.eqb_eq in En. subst arg. reflexivity.
      * destruct (arg =? "description") eqn:Ed.
        -- apply String.eqb_eq in Ed. subst arg. reflexivity.
        -- destruct (arg =? "version"); reflexivity.
Qed.

(** X13. When a class has no inline description, the description it
    gets without a manifest is the first line of its docstring with the
    whitespace at both ends removed, and the empty string when the class
    has no docstring or the cleaned docstring is empty: in each case it
    holds no line break and no whitespace at either end.  An inline
    description, if not empty, is kept as it is. *)
Theorem docstring_description_is_one_trimmed_line (cleandoc : string -> string)
    (class_node : node) :
  (af_description (inline_fields class_node) = "" ->
   one_line (inline_description cleandoc class_node) = true /\
   head_is_space (inline_description cleandoc class_node) = false /\
   last_is_space (inline_description cleandoc class_node) = false /\
   (forall text rest,
       class_body class_node = Expr (Constant (CStr text)) :: rest ->
       cleandoc text <> "" ->
       inline_description cleandoc class_node = strip (first_line (cleandoc text))) /\
   (forall text rest,
       class_body class_node = Expr (Constant (CStr text)) :: rest ->
       cleandoc text = "" ->
       inline_description cleandoc class_node = "") /\
   (get_docstring cleandoc (class_body class_node) = None ->
    inline_description cleandoc class_node = "")) /\
  (af_description (inline_fields class_node) <> "" ->
   inline_description cleandoc class_node = af_description (inline_fields class_node)).
Proof.
  unfold inline_description. split.
  - intros ->. unfold docstring_fallback. simpl.
    split; [|split; [|split; [|split; [|split]]]].
    + destruct (get_docstring cleandoc (class_body class_node)) as [d|]; [|reflexivity].
      destruct (truthy d); [|reflexivity].
      apply lstrip_one_line, rstrip_one_line, first_line_one_line.
    + destruct (get_docstring cleandoc (class_body class_node)) as [d|]; [|reflexivity].
      destruct (truthy d); [|reflexivity]. apply strip_trimmed.
    + destruct (get_docstring cleandoc (class_body class_node)) as [d|]; [|reflexivity].
      destruct (truthy d); [|reflexivity]. apply strip_trimmed.
    + intros text rest -> Hne. simpl.
      destruct (cleandoc text); [congruence|reflexivity].
    + intros text rest -> Hempty. simpl. rewrite Hempty. reflexivity.
    + intros ->. reflexivity.
  - intros Hne. apply docstring_fallback_keeps, Hne.
Qed.

(** ** Decomposition arguments *)

(** X14. For a method whose one recognized tag is a call of
    [decomposition]: the intent is the literal of the last keyword
    argument named intent or, without one, the literal first positional
    argument, or else empty; the expanded intent is the literal of the
    last keyword argument of that name, or else empty, and no positional
    argument supplies it; read_only is false. *)
Theorem decomposition_intent_sources (cleandoc : string -> string)
    (source_lines : list string) (name : string) (args : node) (body : list node)
    (returns : option node) (type_params : list node) (lineno : nat)
    (end_lineno : option nat) (class_node : node) (pre post before after : list node)
    (call_args keywords : list node) :
  class_body class_node =
    pre ++ FunctionDef name args body
             (before ++ Call (Name "decomposition") call_args keywords :: after)
             returns type_params lineno end_lineno :: post ->
  Forall unrecognized before -> Forall unrecognized after ->
  exists m,
    _extract_decorated_methods cleandoc class_node source_lines =
      methods_loop cleandoc pre source_lines ++ m :: methods_loop cleandoc post source_lines /\
    dm_name m = name /\ dm_method_type m = "decomposition" /\ dm_read_only m = false /\
    dm_intent m =
      match last_some (literal_keyword "intent") keywords with
      | Some v => py_str v
      | None => match call_args with
                | Constant v :: _ => py_str v
                | _ => ""
                end
      end /\
    dm_expanded_intent m =
      match last_some (literal_keyword "expanded_intent") keywords with
      | Some v => py_str v
      | None => ""
      end.
Proof.
  intros Hbody Hbefore Hafter.
  destruct (single_tag_method cleandoc source_lines name args body returns type_params
              lineno end_lineno class_node pre post before after
              (Call (Name "decomposition") call_args keywords) "decomposition"
              Hbody Hbefore Hafter eq_refl)
    as (m & Hm & Hn & _ & Ht & Hro & Hi & He).
  exists m. split; [exact Hm|]. split; [exact Hn|]. split; [exact Ht|].
  split; [exact Hro|]. split.
  - rewrite Hi. simpl.
    destruct (last_some (literal_keyword "intent") keywords); [reflexivity|].
    destruct call_args as [|a ?]; [reflexivity|]. destruct a; reflexivity.
  - rewrite He. simpl.
    destruct (last_some (literal_keyword "expanded_intent") keywords); reflexivity.
Qed.

(** * The signature parser of the details screen *)

Module SignatureParser.
Import AgentDetails SignatureText.
Local Open Scope string_scope.

Lemma inputs_loop_app (l1 l2 : list string) :
  inputs_loop (l1 ++ l2) = (inputs_loop l1 ++ inputs_loop l2)%list.
Proof.
  induction l1 as [|p l1 IH]; [reflexivity|].
  simpl. destruct (keep_param p); rewrite IH; reflexivity.
Qed.

Lemma inputs_loop_in (l : list string) (x : string) :
  In x (inputs_loop l) -> exists p, In p l /\ keep_param p = Some x.
Proof.
  induction l as [|p l IH]; simpl; [contradiction|].
  destruct (keep_param p) as [y|] eqn:Hp.
  - intros [<-|Hin]; [eauto|]. destruct (IH Hin) as (q & Hq & Hk). eauto.
  - intros Hin. destruct (IH Hin) as (q & Hq & Hk). eauto.
Qed.

(** X15. No input of a parsed signature is empty, is the parameter
    [self], or begins with [self,]; every input is free of whitespace at
    both ends. *)
Theorem parsed_inputs_are_clean (signature x : string) :
  In x (fst (_parse_signature_parts signature)) ->
  x <> "" /\ x <> "self" /\ prefix "self," x = false /\
  head_is_space x = false /\ last_is_space x = false.
Proof.
  unfold _parse_signature_parts. simpl.
  destruct (paren_match signature) as [params_str|]; [|contradiction].
  intros Hin. apply inputs_loop_in in Hin as (p & _ & Hk).
  unfold keep_param in Hk.
  destruct (strip p =? "self") eqn:Hself; [discriminate|].
  destruct (prefix "self," (strip p)) eqn:Hpre; [discriminate|].
  simpl in Hk. destruct (truthy (strip p)) eqn:Ht; [|discriminate].
  injection Hk as <-.
  split; [intros He; rewrite He in Ht; discriminate|].
  split; [intros He; rewrite He in Hself; discriminate|].
  split; [exact Hpre|]. apply strip_trimmed.
Qed.

Lemma after_char_app (c : ascii) (pre rest : string) :
  occurs c pre = false -> after_char c (pre ++ String c rest) = Some rest.
Proof.
  induction pre as [|x pre IH]; simpl.
  - rewrite Ascii.eqb_refl. reflexivity.
  - intros H. apply orb_false_iff in H as [Hx Hpre]. rewrite Hx. exact (IH Hpre).
Qed.

Lemma before_char_app (c : ascii) (pre rest : string) :
  occurs c pre = false -> before_char c (pre ++ String c rest) = Some pre.
Proof.
  induction pre as [|x pre IH]; simpl.
  - rewrite Ascii.eqb_refl. reflexivity.
  - intros H. apply orb_false_iff in H as [Hx Hpre]. rewrite Hx, (IH Hpre). reflexivity.
Qed.

Lemma after_char_none (c : ascii) (s : string) :
  occurs c s = false -> after_char c s = None.
Proof.
  induction s as [|x s IH]; [reflexivity|]. simpl.
  intros H. apply orb_false_iff in H as [Hx Hs]. rewrite Hx. exact (IH Hs).
Qed.

Lemma before_char_none (c : ascii) (s : string) :
  occurs c s = false -> before_char c s = None.
Proof.
  induction s as [|x s IH]; [reflexivity|]. simpl.
  intros H. apply orb_false_iff in H as [Hx Hs]. rewrite Hx, (IH Hs). reflexivity.
Qed.

Lemma paren_match_between (pre params_str post : string) :
  occurs "("%char pre = false -> occurs ")"%char params_str = false ->
  paren_match (pre ++ "(" ++ params_str ++ ")" ++ post) = Some params_str.
Proof.
  intros Hpre Hparams. unfold paren_match.
  change ("(" ++ params_str ++ ")" ++ post) with (String "(" (params_str ++ String ")" post)).
  rewrite (after_char_app _ _ _ Hpre). apply before_char_app, Hparams.
Qed.

(** X16. The inputs of a signature are read from the text between its
    first opening parenthesis and the first closing parenthesis after
    it, and from nothing else: what follows that closing parenthesis,
    further parameters included, has no part in them.  A signature
    without an opening parenthesis, or without a closing one after it,
    has no inputs. *)
Theorem inputs_come_from_first_parentheses (pre params_str post : string) :
  occurs "("%char pre = false -> occurs ")"%char params_str = false ->
  fst (_parse_signature_parts (pre ++ "(" ++ params_str ++ ")" ++ post)) =
    inputs_of_params params_str /\
  fst (_parse_signature_parts pre) = [] /\
  fst (_parse_signature_parts (pre ++ "(" ++ params_str)) = [].
Proof.
  intros Hpre Hparams. unfold _parse_signature_parts. cbn [fst].
  split; [|split].
  - rewrite (paren_match_between _ _ _ Hpre Hparams). reflexivity.
  - unfold paren_match. rewrite (after_char_none _ _ Hpre). reflexivity.
  - unfold paren_match. change ("(" ++ params_str) with (String "(" params_str).
    rewrite (after_char_app _ _ _ Hpre), (before_char_none _ _ Hparams). reflexivity.
Qed.

(** The splitting loop. *)

Lemma split_loop_app (a b : string) (st : split_state) :
  split_loop (a ++ b) st = split_loop b (split_loop a st).
Proof. revert st. induction a as [|c a IH]; intros st; [reflexivity|]. simpl. apply IH. Qed.

Lemma split_step_depth (st : split_state) (c : ascii) :
  depth (split_step st c) =
  (depth st + (if opens c then 1 else if closes c then -1 else 0))%Z.
Proof.
  unfold split_step.
  destruct (opens c), (closes c);
    match goal with |- context [if ?b then _ else _] => destruct b end; simpl; lia.
Qed.

Lemma split_loop_depth (s : string) (st : split_state) :
  depth (split_loop s st) = (depth st + net_depth s)%Z.
Proof.
  revert st. induction s as [|c s IH]; intros st; simpl; [lia|].
  rewrite IH, split_step_depth. lia.
Qed.

Lemma split_step_fields (st : split_state) (c : ascii) :
  let s0 := split_step {| params := []; depth := depth st; current := current st |} c in
  params (split_step st c) = (params st ++ params s0)%list /\
  depth (split_step st c) = depth s0 /\
  current (split_step st c) = current s0.
Proof.
  unfold split_step. cbn [params depth current].
  match goal with |- context [if ?b then _ else _] => destruct b end;
    cbn [params depth current]; rewrite ?app_nil_r; repeat split.
Qed.

(** The pieces already split off are kept in front. *)
Lemma split_loop_params (s : string) (st : split_state) :
  split_loop s st =
  let st' := split_loop s {| params := []; depth := depth st; current := current st |} in
  {| params := (params st ++ params st')%list; depth := depth st'; current := current st' |}.
Proof.
  revert st. induction s as [|c s IH]; intros st.
  - simpl. rewrite app_nil_r. destruct st; reflexivity.
  - cbn [split_loop]. cbv zeta.
    destruct (split_step_fields st c) as (Hp & Hd & Hc).
    rewrite (IH (split_step st c)).
    rewrite (IH (split_step {| params := []; depth := depth st; current := current st |} c)).
    cbv zeta. cbn [params depth current]. rewrite Hp, Hd, Hc, app_assoc. reflexivity.
Qed.

Lemma keep_param_empty : keep_param "" = None.
Proof. reflexivity. Qed.

Lemma inputs_of_split (st : split_state) :
  inputs_loop (if truthy (strip (current st))
               then (params st ++ [strip (current st)])%list else params st) =
  inputs_loop (params st ++ [strip (current st)])%list.
Proof.
  destruct (truthy (strip (current st))) eqn:Ht; [reflexivity|].
  apply truthy_false in Ht. rewrite Ht, inputs_loop_app. simpl.
  rewrite app_nil_r. reflexivity.
Qed.

(** X17. A comma at which the brackets before it are closed, as many
    closing as opening ones, divides the parameter text into two parts
    that are parsed apart: the inputs are those of the part before it
    followed by those of the part after it. *)
Theorem top_level_comma_separates_inputs (a b : string) :
  net_depth a = 0%Z ->
  inputs_of_params (a ++ "," ++ b) = (inputs_of_params a ++ inputs_of_params b)%list.
Proof.
  intros Hdepth. unfold inputs_of_params, split_params.
  set (init := {| params := []; depth := 0; current := "" |}).
  rewrite !inputs_of_split.
  change (a ++ "," ++ b) with (a ++ String "," b).
  rewrite split_loop_app. simpl split_loop.
  assert (Hd : depth (split_loop a init) = 0%Z)
    by (rewrite split_loop_depth; simpl; lia).
  set (A := split_loop a init) in *.
  assert (Hstep : split_step A ","%char =
                  {| params := (params A ++ [strip (current A)])%list;
                     depth := 0; current := "" |}).
  { unfold split_step. simpl. rewrite Hd. reflexivity. }
  rewrite Hstep, (split_loop_params b _). cbv zeta. cbn [params depth current].
  fold init. rewrite <- !app_assoc, !inputs_loop_app, <- !app_assoc. reflexivity.
Qed.

Lemma append_empty_r (s : string) : s ++ "" = s.
Proof. induction s as [|c s IH]; [reflexivity|]. simpl. rewrite IH. reflexivity. Qed.

Lemma append_char_assoc (x : string) (c : ascii) (s : string) :
  (x ++ String c "") ++ s = x ++ String c s.
Proof. induction x as [|y x IH]; [reflexivity|]. simpl. rewrite IH. reflexivity. Qed.

Lemma append_assoc (x y z : string) : (x ++ y) ++ z = x ++ (y ++ z).
Proof. induction x as [|c x IH]; [reflexivity|]. simpl. rewrite IH. reflexivity. Qed.

Lemma opens_not_comma (c : ascii) : opens c = true -> Ascii.eqb c ","%char = false.
Proof.
  intros H. destruct (Ascii.eqb_spec c ","%char) as [->|]; [discriminate|reflexivity].
Qed.

Lemma closes_not_comma (c : ascii) : closes c = true -> Ascii.eqb c ","%char = false.
Proof.
  intros H. destruct (Ascii.eqb_spec c ","%char) as [->|]; [discriminate|reflexivity].
Qed.

Lemma closes_not_opens (c : ascii) : closes c = true -> opens c = false.
Proof.
  unfold closes. intros H.
  apply orb_true_iff in H as [H|H]; [apply orb_true_iff in H as [H|H]|];
    apply Ascii.eqb_eq in H; subst c; reflexivity.
Qed.

(** A character that does not split is added to the current piece. *)
Lemma split_step_keeps (st : split_state) (c : ascii) (d : Z) :
  d = (if opens c then depth st + 1 else if closes c then depth st - 1 else depth st)%Z ->
  Ascii.eqb c ","%char && (d =? 0)%Z = false ->
  split_step st c =
  {| params := params st; depth := d; current := current st ++ String c "" |}.
Proof. intros -> H. unfold split_step. rewrite H. reflexivity. Qed.

Lemma enclosed_kept (inner : string) :
  enclosed inner ->
  forall st, (0 < depth st)%Z ->
  split_loop inner st =
  {| params := params st; depth := depth st; current := current st ++ inner |}.
Proof.
  induction 1 as [|c s Ho Hc _ IH|c1 inner c2 s Ho Hc _ IHinner _ IHs]; intros st Hpos.
  - simpl. rewrite append_empty_r. destruct st; reflexivity.
  - simpl. rewrite (split_step_keeps st c (depth st)).
    + rewrite IH by exact Hpos. simpl. rewrite append_char_assoc. reflexivity.
    + rewrite Ho, Hc. reflexivity.
    + replace (depth st =? 0)%Z with false by (symmetry; apply Z.eqb_neq; lia).
      apply andb_false_r.
  - simpl. rewrite (split_step_keeps st c1 (depth st + 1)).
    + rewrite split_loop_app, IHinner by (simpl; lia). simpl.
      rewrite (split_step_keeps _ c2 (depth st)).
      * rewrite IHs by exact Hpos. simpl.
        rewrite !append_char_assoc, append_assoc. reflexivity.
      * simpl. rewrite (closes_not_opens _ Hc), Hc. lia.
      * rewrite (closes_not_comma _ Hc). reflexivity.
    + rewrite Ho. reflexivity.
    + rewrite (opens_not_comma _ Ho). reflexivity.
Qed.

Lemma commas_enclosed_kept (x : string) :
  commas_enclosed x ->
  forall st, depth st = 0%Z ->
  split_loop x st =
  {| params := params st; depth := 0; current := current st ++ x |}.
Proof.
  induction 1 as [|c s Ho Hc Hcomma _ IH|c1 inner c2 s Ho Hc Hinner _ IHs]; intros st Hzero.
  - simpl. rewrite append_empty_r. destruct st; simpl in *; subst; reflexivity.
  - simpl. rewrite (split_step_keeps st c 0).
    + rewrite IH by reflexivity. simpl. rewrite append_char_assoc. reflexivity.
    + rewrite Ho, Hc. symmetry. exact Hzero.
    + rewrite Hcomma. reflexivity.
  - simpl. rewrite (split_step_keeps st c1 1).
    + rewrite split_loop_app, (enclosed_kept _ Hinner) by (simpl; lia). simpl.
      rewrite (split_step_keeps _ c2 0).
      * rewrite IHs by reflexivity. simpl.
        rewrite !append_char_assoc, append_assoc. reflexivity.
      * simpl. rewrite (closes_not_opens _ Hc), Hc. lia.
      * rewrite (closes_not_comma _ Hc). reflexivity.
    + rewrite Ho, Hzero. reflexivity.
    + rewrite (opens_not_comma _ Ho). reflexivity.
Qed.

Lemma lstrip_id (s : string) : head_is_space s = false -> lstrip s = s.
Proof. destruct s as [|c s]; [reflexivity|]. simpl. intros ->. reflexivity. Qed.

Lemma rstrip_id (s : string) : last_is_space s = false -> rstrip s = s.
Proof.
  induction s as [|c s IH]; [reflexivity|].
  destruct s as [|c' s'].
  - simpl. intros ->. reflexivity.
  - intros H. change (last_is_space (String c' s') = false) in H.
    change (rstrip (String c (String c' s')))
      with (match rstrip (String c' s') with
            | "" => if is_space c then "" else String c ""
            | r => String c r
            end).
    rewrite (IH H). reflexivity.
Qed.

Lemma strip_idempotent (s : string) : strip (strip s) = strip s.
Proof.
  destruct (strip_trimmed s) as [Hh Hl].
  unfold strip at 1. rewrite (rstrip_id _ Hl). apply lstrip_id, Hh.
Qed.

(** X18. A parameter text whose commas all stand between brackets is
    read as one piece: the signature has that text, trimmed, as its only
    input, and no input when the trimmed text is empty or is the
    parameter [self]. Commas in a type such as [dict[str, int]] do not
    split it. *)
Theorem enclosed_commas_do_not_split (pre params_str post : string) :
  occurs "("%char pre = false -> occurs ")"%char params_str = false ->
  commas_enclosed params_str ->
  fst (_parse_signature_parts (pre ++ "(" ++ params_str ++ ")" ++ post)) =
  if (strip params_str =? "self") || prefix "self," (strip params_str)
     || negb (truthy (strip params_str))
  then [] else [strip params_str].
Proof.
  intros Hpre Hparams Hcommas.
  unfold _parse_signature_parts. cbn [fst].
  rewrite (paren_match_between _ _ _ Hpre Hparams).
  unfold inputs_of_params, split_params.
  rewrite (commas_enclosed_kept _ Hcommas) by reflexivity. cbn [params current append].
  destruct (truthy (strip params_str)) eqn:Ht.
  - simpl. unfold keep_param. rewrite strip_idempotent, Ht.
    destruct ((strip params_str =? "self") || prefix "self," (strip params_str));
      reflexivity.
  - simpl. rewrite orb_true_r. reflexivity.
Qed.

(** The return type. *)

Lemma str_in_arrow (pre rest : string) : str_in "->" (pre ++ "->" ++ rest) = true.
Proof.
  induction pre as [|c pre IH]; [simpl; destruct rest; reflexivity|].
  change (str_in "->" (String c pre ++ "->" ++ rest))
    with (prefix "->" (String c (pre ++ "->" ++ rest)) || str_in "->" (pre ++ "->" ++ rest)).
  rewrite IH. apply orb_true_r.
Qed.

Lemma prefix_cons (a b : ascii) (s1 s2 : string) :
  prefix (String a s1) (String b s2) = Ascii.eqb a b && prefix s1 s2.
Proof.
  change (prefix (String a s1) (String b s2))
    with (match ascii_dec a b with left _ => prefix s1 s2 | right _ => false end).
  destruct (ascii_dec a b), (Ascii.eqb_spec a b); try congruence; reflexivity.
Qed.

Lemma prefix_arrow (c c2 : ascii) (r : string) :
  prefix "->" (String c (String c2 r)) = Ascii.eqb c "-"%char && Ascii.eqb c2 ">"%char.
Proof.
  rewrite !prefix_cons, (Ascii.eqb_sym "-"%char c), (Ascii.eqb_sym ">"%char c2).
  destruct r; simpl; rewrite andb_true_r; reflexivity.
Qed.

(** The search skips a text without an arrow. *)
Lemma return_match_after (pre rest g : string) :
  str_in "->" pre = false -> arrow_match rest = Some g ->
  return_match (pre ++ "->" ++ rest) = Some g.
Proof.
  intros Hpre Hrest. induction pre as [|c pre IH].
  - simpl. rewrite Hrest. reflexivity.
  - change (str_in "->" (String c pre))
      with (prefix "->" (String c pre) || str_in "->" pre) in Hpre.
    apply orb_false_iff in Hpre as [Hhere Hlater].
    change (return_match (String c pre ++ "->" ++ rest))
      with (match (if Ascii.eqb c "-"%char then
                     match pre ++ "->" ++ rest with
                     | String gt t => if Ascii.eqb gt ">"%char then arrow_match t else None
                     | EmptyString => None
                     end
                   else None) with
            | Some g => Some g
            | None => return_match (pre ++ "->" ++ rest)
            end).
    rewrite (IH Hlater).
    destruct (Ascii.eqb c "-"%char) eqn:Hc; [|reflexivity].
    destruct pre as [|c2 pre']; [reflexivity|].
    rewrite prefix_arrow, Hc in Hhere. simpl in Hhere. simpl. rewrite Hhere. reflexivity.
Qed.

Lemma lstrip_gap (gap rest : string) :
  all_space gap = true -> head_is_space rest = false -> lstrip (gap ++ rest) = rest.
Proof.
  intros Hgap Hrest. induction gap as [|c gap IH]; [apply lstrip_id, Hrest|].
  simpl in *. apply andb_true_iff in Hgap as [Hc Hgap]. rewrite Hc. exact (IH Hgap).
Qed.

Lemma lazy_group_annotation (annotation tail : string) :
  annotation <> "" -> occurs ":"%char annotation = false -> line_ends tail = true ->
  lazy_group (annotation ++ ":" ++ tail) = Some annotation.
Proof.
  intros Hne Hcolon Htail. induction annotation as [|c a IH]; [congruence|].
  simpl in Hcolon. apply orb_false_iff in Hcolon as [_ Ha].
  destruct a as [|c2 a'].
  - simpl. rewrite Htail. reflexivity.
  - change (lazy_group (String c (String c2 a') ++ ":" ++ tail))
      with (if Ascii.eqb c2 ":"%char && line_ends (a' ++ ":" ++ tail)
            then Some (String c "")
            else option_map (String c) (lazy_group (String c2 a' ++ ":" ++ tail))).
    assert (Hc2 : Ascii.eqb c2 ":"%char = false).
    { simpl in Ha. apply orb_false_iff in Ha as [H _]. exact H. }
    rewrite Hc2, IH by (congruence || exact Ha). reflexivity.
Qed.

(** X19. The return type of a signature is the annotation that stands
    between its first arrow and the colon that ends the line, without
    the whitespace around it, provided the annotation holds no colon of
    its own; a signature without an arrow has the return type None. *)
Theorem return_type_is_the_annotation (pre gap annotation tail : string) :
  str_in "->" pre = false -> all_space gap = true ->
  annotation <> "" -> head_is_space annotation = false ->
  occurs ":"%char annotation = false -> line_ends tail = true ->
  snd (_parse_signature_parts (pre ++ "->" ++ gap ++ annotation ++ ":" ++ tail)) =
    strip annotation /\
  snd (_parse_signature_parts pre) = "None".
Proof.
  intros Hpre Hgap Hne Hhead Hcolon Htail. unfold _parse_signature_parts. cbn [snd].
  rewrite Hpre, str_in_arrow. split; [|reflexivity].
  assert (Harrow : arrow_match (gap ++ annotation ++ ":" ++ tail) = Some annotation).
  { unfold arrow_match. rewrite lstrip_gap.
    - rewrite (lazy_group_annotation _ _ Hne Hcolon Htail). reflexivity.
    - exact Hgap.
    - destruct annotation; [congruence|exact Hhead]. }
  rewrite (return_match_after _ _ _ Hpre Harrow). reflexivity.
Qed.

End SignatureParser.

(** * The screens *)

Module ScreenProperties.
Import Screens.

Lemma scanned_method_type (cleandoc : string -> string) (fs : FileSystem)
    (file_path : path) (agents : list DiscoveredAgent) (agent : DiscoveredAgent) :
  _extract_agent_info_from_ast cleandoc fs file_path = Ok agents -> In agent agents ->
  Forall (fun m => dm_method_type m = "primitive" \/ dm_method_type m = "decomposition")
    (da_methods agent).
Proof.
  intros Hscan Hagent.
  destruct (agent_of_scan _ _ _ _ _ Hscan Hagent)
    as (source_lines & tree & cls & base & _ & _ & Hd).
  apply discover_agent_ok in Hd as (_ & _ & Hmethods & _).
  rewrite Hmethods. apply Forall_forall. intros m Hm.
  apply methods_loop_in in Hm as (item & _ & Hdm).
  apply discover_method_some in Hdm as (Htag & _ & Hty & _).
  rewrite Hty. apply tagged_function_tag, Htag.
Qed.

Lemma split_by_type_length (methods : list DiscoveredMethod) :
  Forall (fun m => dm_method_type m = "primitive" \/ dm_method_type m = "decomposition")
    methods ->
  List.length (methods_of_type "primitive" methods)
    + List.length (methods_of_type "decomposition" methods) = List.length methods.
Proof.
  induction 1 as [|m methods [Hm|Hm] _ IH]; [reflexivity| |];
    simpl; rewrite Hm; simpl; lia.
Qed.

Lemma split_by_type_permutation (methods : list DiscoveredMethod) :
  Forall (fun m => dm_method_type m = "primitive" \/ dm_method_type m = "decomposition")
    methods ->
  Permutation (methods_of_type "primitive" methods ++ methods_of_type "decomposition" methods)
    methods.
Proof.
  induction 1 as [|m methods [Hm|Hm] _ IH]; [constructor| |]; simpl; rewrite Hm; simpl.
  - apply perm_skip, IH.
  - apply Permutation_sym, Permutation_cons_app, Permutation_sym, IH.
Qed.

Lemma read_only_total (methods : list DiscoveredMethod) (total : Z) :
  fold_left (fun total m => if dm_read_only m then (total + 1)%Z else total) methods total =
  (total + Z.of_nat (List.length (filter dm_read_only methods)))%Z.
Proof.
  revert total. induction methods as [|m methods IH]; intros total; simpl; [lia|].
  rewrite IH. destruct (dm_read_only m); simpl List.length; lia.
Qed.

Lemma filter_split_length {A : Type} (p : A -> bool) (l : list A) :
  List.length (filter p l) + List.length (filter (fun x => negb (p x)) l) = List.length l.
Proof. induction l as [|x l IH]; [reflexivity|]. simpl. destruct (p x); simpl; lia. Qed.

(** X20. For every agent of a scan, the numbers of the summary that the
    main screen shows add up: every method is counted once, as a
    primitive or as a decomposition, and the primitives are the
    read-only ones plus the mutable ones, the mutable count being the
    number of primitives that are not read-only and never negative. *)
Theorem summary_counts_add_up (cleandoc : string -> string) (fs : FileSystem)
    (file_path : path) (agents : list DiscoveredAgent) (agent : DiscoveredAgent) :
  _extract_agent_info_from_ast cleandoc fs file_path = Ok agents -> In agent agents ->
  let s := summarize agent in
  List.length (primitives s) + List.length (decompositions s) =
    List.length (da_methods agent) /\
  read_only_count s = Z.of_nat (List.length (filter dm_read_only (primitives s))) /\
  mutable_count s =
    Z.of_nat (List.length (filter (fun m => negb (dm_read_only m)) (primitives s))) /\
  (read_only_count s + mutable_count s)%Z = Z.of_nat (List.length (primitives s)).
Proof.
  intros Hscan Hagent. cbv zeta. unfold summarize. cbn [primitives decompositions
    read_only_count mutable_count].
  split; [apply split_by_type_length, (scanned_method_type _ _ _ _ _ Hscan Hagent)|].
  rewrite read_only_total.
  pose proof (filter_split_length dm_read_only
                (methods_of_type "primitive" (da_methods agent))) as Hsplit.
  repeat split; lia.
Qed.

(** X21. For every agent of a scan, the details screen lists each
    method of the agent exactly once, the primitives first and the
    decompositions after them, each group in declaration order; when the
    agent has methods, the method shown at once is the first item of the
    list, and the lookup of that first method never fails. *)
Theorem details_screen_lists_every_method (cleandoc : string -> string)
    (fs : FileSystem) (file_path : path) (agents : list DiscoveredAgent)
    (agent : DiscoveredAgent) :
  _extract_agent_info_from_ast cleandoc fs file_path = Ok agents -> In agent agents ->
  exists m,
    on_mount agent = Some m /\
    method_list m =
      filter (fun x => dm_method_type x =? "primitive") (da_methods agent)
      ++ filter (fun x => dm_method_type x =? "decomposition") (da_methods agent) /\
    Permutation (method_list m) (da_methods agent) /\
    shown m = hd_error (method_list m).
Proof.
  intros Hscan Hagent.
  pose proof (scanned_method_type _ _ _ _ _ Hscan Hagent) as Htypes.
  pose proof (split_by_type_permutation _ Htypes) as Hperm.
  pose proof (split_by_type_length _ Htypes) as Hlen.
  unfold on_mount. unfold methods_of_type in *.
  destruct (da_methods agent) as [|m0 ms] eqn:Hmethods.
  - eexists. split; [reflexivity|]. repeat split. constructor.
  - set (ps := filter (fun m => dm_method_type m =? "primitive") (m0 :: ms)) in *.
    set (ds := filter (fun m => dm_method_type m =? "decomposition") (m0 :: ms)) in *.
    destruct ps as [|p ps'].
    + destruct ds as [|d ds']; [simpl in Hlen; discriminate|].
      eexists. split; [reflexivity|]. repeat split. exact Hperm.
    + eexists. split; [reflexivity|]. repeat split. exact Hperm.
Qed.

End ScreenProperties.

(** * The cache of model lists *)

Module CacheProperties.
Import ModelCache.
Local Open Scope string_scope.

Lemma strings_of_strings (models : list string) :
  strings_of (map JString models) = Some models.
Proof.
  induction models as [|m models IH]; [reflexivity|]. simpl. rewrite IH. reflexivity.
Qed.

(** What is written is read back as it was. *)
Lemma validate_dump (cached : CachedModels) :
  model_validate (model_dump_json cached) = Some cached.
Proof.
  unfold model_validate, model_dump_json. simpl.
  rewrite strings_of_strings. destruct cached; reflexivity.
Qed.

Lemma append_length (a b : string) :
  String.length (a ++ b) = String.length a + String.length b.
Proof. induction a as [|c a IH]; [reflexivity|]. simpl. rewrite IH. reflexivity. Qed.

Lemma append_cancel_r (a b suffix : string) : a ++ suffix = b ++ suffix -> a = b.
Proof.
  revert b. induction a as [|c a IH]; intros [|d b] H.
  - reflexivity.
  - apply (f_equal String.length) in H. simpl in H. rewrite append_length in H. lia.
  - apply (f_equal String.length) in H. simpl in H. rewrite append_length in H. lia.
  - simpl in H. injection H as -> H. f_equal. exact (IH _ H).
Qed.

(** Two providers have two cache files. *)
Lemma cache_file_injective (env : environment) (p q : string) (f : path) :
  _get_cache_file env p = Ok f -> _get_cache_file env q = Ok f -> p = q.
Proof.
  unfold _get_cache_file, _get_cache_dir, path_join.
  destruct (mkdir_succeeds env); [|discriminate]. simpl.
  intros [= <-] [= H]. apply app_inv_head in H. injection H as H.
  symmetry. exact (append_cancel_r _ _ _ H).
Qed.

Lemma cached_after_write (env : environment) (s : store) (provider : string)
    (file : path) (models : list string) :
  _get_cache_file env provider = Ok file ->
  get_cached_models env
    (write s file (model_dump_json {| cm_date := today env; cm_provider := provider;
                                      cm_models := models |})) provider =
  Ok (Some models).
Proof.
  intros Hfile. unfold get_cached_models, _is_cache_valid. rewrite Hfile.
  cbn [bind]. unfold write, put.
  destruct (path_eq_dec file file) as [_|Hne]; [|congruence].
  rewrite validate_dump. cbn [cm_date cm_models]. rewrite String.eqb_refl. reflexivity.
Qed.

(** X22. Models saved for a provider are returned by the cache on the
    same day, exactly as they were saved; on any other day the same
    cache file is not valid and nothing is returned; and saving for one
    of the five known providers leaves the cached models of every other
    known provider as they were. *)
Theorem saved_models_are_cached_for_the_day (env : environment) (s s' : store)
    (provider : string) (models : list string) :
  save_cached_models env s provider models = (s', Ok tt) ->
  get_cached_models env s' provider = Ok (Some models) /\
  (forall env',
      home env' = home env -> mkdir_succeeds env' = true -> today env' <> today env ->
      get_cached_models env' s' provider = Ok None) /\
  (forall other,
      known_provider provider = true -> known_provider other = true ->
      other <> provider ->
      get_cached_models env s' other = get_cached_models env s other).
Proof.
  unfold save_cached_models.
  destruct (_get_cache_file env provider) as [file|e] eqn:Hfile; [|discriminate].
  destruct (failed_write env file); [discriminate|]. intros [= <-].
  split; [exact (cached_after_write env s provider file models Hfile)|]. split.
  - intros env' Hhome Hmkdir Hday.
    assert (Hfile' : _get_cache_file env' provider = Ok file).
    { unfold _get_cache_file, _get_cache_dir in *. rewrite Hmkdir, Hhome.
      destruct (mkdir_succeeds env); [exact Hfile|discriminate]. }
    unfold get_cached_models, _is_cache_valid. rewrite Hfile'. cbn [bind].
    unfold write, put. destruct (path_eq_dec file file) as [_|Hne]; [|congruence].
    rewrite validate_dump. cbn [cm_date].
    destruct (String.eqb_spec (today env) (today env')); [congruence|reflexivity].
  - intros other _ _ Hother. unfold get_cached_models, _is_cache_valid.
    destruct (_get_cache_file env other) as [file'|e] eqn:Hfile'; [|reflexivity].
    cbn [bind]. unfold write, put.
    destruct (path_eq_dec file' file) as [->|Hne]; [|reflexivity].
    destruct (Hother (cache_file_injective env other provider file Hfile' Hfile)).
Qed.

(** X23. Once a call has returned the models of a provider, every
    further call on the same day returns the same models from the cache,
    whatever the provider's service would answer then, even an error,
    and leaves the store as it is. *)
Theorem returned_models_are_served_from_cache (env : environment)
    (fetch fetch' : string -> result (list string)) (s s' : store)
    (provider : string) (models : list string) :
  fetch_models_for_provider env fetch s provider = (s', Ok models) ->
  fetch_models_for_provider env fetch' s' provider = (s', Ok models).
Proof.
  unfold fetch_models_for_provider.
  destruct (get_cached_models env s provider) as [[cached|]|e] eqn:Hget.
  - intros [= <- <-]. rewrite Hget. reflexivity.
  - destruct (negb (known_provider provider)); [discriminate|].
    destruct (fetch provider) as [fetched|e]; [|discriminate].
    unfold save_cached_models.
    destruct (_get_cache_file env provider) as [file|e] eqn:Hfile; [|discriminate].
    destruct (failed_write env file); [discriminate|]. intros [= <- <-].
    rewrite (cached_after_write env s provider file fetched Hfile). reflexivity.
  - discriminate.
Qed.

(** X24. A call that finds no valid cache and whose fetcher raises
    passes the fetcher's error on and writes nothing; and a provider
    that is not one of the five known ones is never fetched: whatever
    the services would answer, its call leaves the store as it is,
    returns the models of a valid cache file of that name when there is
    one, and raises a value error when there is none. *)
Theorem failed_fetch_writes_nothing (env : environment)
    (fetch : string -> result (list string)) (s : store) (provider : string) :
  (forall e,
      get_cached_models env s provider = Ok None -> known_provider provider = true ->
      fetch provider = Raise e ->
      fetch_models_for_provider env fetch s provider = (s, Raise e)) /\
  (known_provider provider = false ->
   (forall fetch',
       fetch_models_for_provider env fetch' s provider =
       fetch_models_for_provider env fetch s provider) /\
   fst (fetch_models_for_provider env fetch s provider) = s /\
   (forall cached,
       get_cached_models env s provider = Ok (Some cached) ->
       fetch_models_for_provider env fetch s provider = (s, Ok cached)) /\
   (get_cached_models env s provider = Ok None ->
    fetch_models_for_provider env fetch s provider = (s, Raise ValueError))).
Proof.
  unfold fetch_models_for_provider. split.
  - intros e -> -> ->. reflexivity.
  - intros Hunknown. rewrite Hunknown. cbn [negb].
    split; [reflexivity|]. split; [|split].
    + destruct (get_cached_models env s provider) as [[cached|]|e0]; reflexivity.
    + intros cached ->. reflexivity.
    + intros ->. reflexivity.
Qed.

End CacheProperties.

(** * The further statements at the sample files *)

Module MoreWitnesses.
Import Samples MoreSamples.
Local Open Scope string_scope.

Lemma path_eqb_eq (p q : path) : path_eqb p q = true -> p = q.
Proof.
  revert q. induction p as [|a p IH]; intros [|b q]; try discriminate; [reflexivity|].
  simpl. intros H. apply andb_true_iff in H as [Hab Hpq].
  apply String.eqb_eq in Hab. subst b. f_equal. exact (IH _ Hpq).
Qed.

(** X1 at agents/calc.py. *)
Lemma agents_come_from_recognized_bases_witness :
  exists agents agent,
    _extract_agent_info_from_ast cleandoc fs calc_py = Ok agents /\
    In agent agents /\
    da_class_name agent = "Calculator" /\
    (da_base_class agent = "PlanExecute" \/ da_base_class agent = "Planner") /\
    da_file_path agent = calc_py.
Proof.
  do 2 eexists. split; [vm_compute; reflexivity|]. split; [left; reflexivity|].
  split; [reflexivity|].
  destruct (agents_come_from_recognized_bases cleandoc fs calc_py _ _
              eq_refl (or_introl eq_refl)) as (Hbase & Hpath & _).
  split; [exact Hbase|exact Hpath].
Defined.

(** X2 at the nested class [Inner] of agents/nested.py. *)
Lemma every_candidate_class_yields_an_agent_witness :
  exists agents,
    read_and_parse fs nested_py = SourceParsed nested_lines nested_tree /\
    _extract_agent_info_from_ast cleandoc fs nested_py = Ok agents /\
    In inner_class (preorder nested_tree) /\
    recognized_base (Attribute (Name "base") "Planner") = Some "Planner" /\
    exists agent,
      In agent agents /\ da_class_name agent = "Inner" /\ da_base_class agent = "Planner" /\
      da_methods agent = _extract_decorated_methods cleandoc inner_class nested_lines.
Proof.
  eexists. split; [reflexivity|]. split; [vm_compute; reflexivity|].
  assert (Hin : In inner_class (preorder nested_tree)) by (vm_compute; tauto).
  split; [exact Hin|]. split; [reflexivity|].
  exact (every_candidate_class_yields_an_agent cleandoc fs nested_py nested_lines
           nested_tree _ "Inner" [] [] [] [pass] [] [] (Attribute (Name "base") "Planner")
           "Planner" eq_refl eq_refl Hin (Forall_nil _) eq_refl).
Defined.

(** X3 at agents/util.py. *)
Lemma no_recognized_base_no_agents_witness :
  read_and_parse fs_more util_py = SourceParsed util_lines util_tree /\
  _extract_agent_info_from_ast cleandoc fs_more util_py = Ok [] /\
  scan_file_for_agents cleandoc fs_more util_py = Ok [].
Proof.
  split; [reflexivity|].
  apply (no_recognized_base_no_agents cleandoc fs_more util_py util_lines util_tree eq_refl).
  intros class_node base Hclass Hbase. vm_compute in Hclass.
  repeat (destruct Hclass as [<-|Hclass]; [vm_compute in Hbase; try tauto|]);
    try contradiction.
  destruct Hbase as [<-|[]]. reflexivity.
Defined.

(** X4 at [Calculator.total]. *)
Lemma scanned_methods_are_tagged_definitions_witness :
  exists agents agent m,
    _extract_agent_info_from_ast cleandoc fs calc_py = Ok agents /\
    In agent agents /\ In m (da_methods agent) /\
    dm_name m = "total" /\
    (dm_method_type m = "primitive" \/ dm_method_type m = "decomposition") /\
    head_is_space (dm_signature m) = false /\
    last_is_space (dm_signature m) = false.
Proof.
  do 3 eexists. split; [vm_compute; reflexivity|]. split; [left; reflexivity|].
  split; [right; left; reflexivity|]. split; [reflexivity|].
  destruct (scanned_methods_are_tagged_definitions cleandoc fs calc_py _ _ _
              eq_refl (or_introl eq_refl) (or_intror (or_introl eq_refl)))
    as (Htype & Hhead & Hlast & _).
  split; [exact Htype|]. split; [exact Hhead|exact Hlast].
Defined.

(** X5 at a line past the 24 lines of agents/calc.py. *)
Lemma line_beyond_buffer_gives_empty_text_witness :
  List.length calc_lines < 30 /\
  _get_method_signature 30 calc_lines = "" /\
  _get_method_source 30 (Some 31) calc_lines = "".
Proof.
  assert (H : List.length calc_lines < 30) by (vm_compute; lia).
  split; [exact H|].
  exact (line_beyond_buffer_gives_empty_text 30 (Some 31) calc_lines H).
Defined.

(** X7 at agents/calc.manifest.json, which has no name. *)
Lemma manifest_object_fields_witness :
  path_exists fs (manifest_path calc_py None) = true /\
  open_and_load_json fs (manifest_path calc_py None) =
    JsonLoaded (JObject [("description", JString "B"); ("version", JString "2.0")]) /\
  _load_manifest_metadata fs calc_py None =
    Ok {| mm_name := ""; mm_description := "B"; mm_version := "2.0" |}.
Proof.
  split; [reflexivity|]. split; [reflexivity|].
  exact (proj1 (manifest_object_fields fs calc_py None
                  [("description", JString "B"); ("version", JString "2.0")]
                  eq_refl eq_refl)
           "" "B" "2.0" eq_refl eq_refl eq_refl).
Defined.

(** X8 at agents/pair.py when its manifest holds an array. *)
Lemma manifest_that_is_not_an_object_aborts_the_scan_witness :
  read_and_parse fs_array_manifest pair_py = SourceParsed pair_lines pair_tree /\
  In pair_a (walk pair_tree) /\
  open_and_load_json fs_array_manifest
    (manifest_path pair_py (_extract_manifest_filename pair_a)) =
    JsonLoaded (JArray [JString "Alpha"]) /\
  (exists e, _extract_agent_info_from_ast cleandoc fs_array_manifest pair_py = Raise e) /\
  (exists e, scan_directory_for_agents cleandoc fs_array_manifest agents_dir = Raise e).
Proof.
  assert (Hin : In pair_a (walk pair_tree)) by (vm_compute; tauto).
  split; [reflexivity|]. split; [exact Hin|]. split; [reflexivity|].
  destruct (manifest_that_is_not_an_object_aborts_the_scan cleandoc fs_array_manifest
              agents_dir pair_py pair_lines pair_tree pair_a "PlanExecute"
              (JArray [JString "Alpha"]) eq_refl Hin eq_refl eq_refl eq_refl eq_refl)
    as [Hfile Hdir].
  - intros members. discriminate.
  - split; [exact Hfile|].
    apply Hdir; try reflexivity. vm_compute. tauto.
Defined.

(** X9 at agents/latin1.py, listed after agents/calc.py and
    agents/util.py. *)
Lemma raising_file_aborts_directory_scan_witness :
  rglob_py fs_more agents_dir = ([calc_py; util_py] ++ latin1_py :: [nested_py])%list /\
  read_and_parse fs_more latin1_py = SourceRaises UnicodeDecodeError /\
  scan_directory_for_agents cleandoc fs_more agents_dir = Raise UnicodeDecodeError.
Proof.
  split; [reflexivity|]. split; [reflexivity|].
  apply (proj2 (raising_file_aborts_directory_scan cleandoc fs_more agents_dir latin1_py
                  UnicodeDecodeError [calc_py; util_py] [nested_py]
                  eq_refl eq_refl eq_refl eq_refl eq_refl eq_refl)).
  eexists. vm_compute. reflexivity.
Defined.

(** X10 at the sample directory, with and without an undecodable file
    below [__pycache__]. *)
Lemma pycache_never_scanned_witness :
  same_outside_pycache fs fs_stale_cache /\
  read_and_parse fs_stale_cache cached_py = SourceRaises UnicodeDecodeError /\
  scan_directory_for_agents cleandoc fs_stale_cache agents_dir =
  scan_directory_for_agents cleandoc fs agents_dir.
Proof.
  assert (Hsame : same_outside_pycache fs fs_stale_cache).
  { repeat split. intros p Hp. simpl.
    destruct (path_eqb p cached_py) eqn:Heq; [|reflexivity].
    apply path_eqb_eq in Heq. subst p. discriminate. }
  split; [exact Hsame|]. split; [reflexivity|].
  exact (pycache_never_scanned cleandoc fs fs_stale_cache agents_dir Hsame).
Defined.

(** X11 at the sample directory. *)
Lemma directory_scan_concatenates_witness :
  path_exists fs agents_dir = true /\ path_is_dir fs agents_dir = true /\
  scan_directory_for_agents cleandoc fs agents_dir =
  Ok (flat_map (fun file => agents_or_none (_extract_agent_info_from_ast cleandoc fs file))
        (filter (fun file => negb (in_pycache file)) (rglob_py fs agents_dir))).
Proof.
  split; [reflexivity|]. split; [reflexivity|].
  apply (directory_scan_concatenates cleandoc fs agents_dir eq_refl eq_refl).
  intros file Hin _. vm_compute in Hin.
  repeat (destruct Hin as [<-|Hin]; [eexists; vm_compute; reflexivity|]).
  contradiction.
Defined.

(** X14 at [B.run] of agents/pair.py. *)
Lemma decomposition_intent_sources_witness :
  class_body pair_b =
    ([] ++ FunctionDef "run" (arguments ["self"]) [pass]
             ([] ++ Call (Name "decomposition") [Constant (CStr "go")] [] :: [])
             None [] 12 (Some 13) :: [])%list /\
  exists m,
    _extract_decorated_methods cleandoc pair_b pair_lines = [m] /\
    dm_name m = "run" /\ dm_method_type m = "decomposition" /\ dm_read_only m = false /\
    dm_intent m = "go" /\ dm_expanded_intent m = "".
Proof.
  split; [reflexivity|].
  exact (decomposition_intent_sources cleandoc pair_lines "run" (arguments ["self"]) [pass]
           None [] 12 (Some 13) pair_b [] [] [] [] [Constant (CStr "go")] []
           eq_refl (Forall_nil _) (Forall_nil _)).
Defined.

(** X15 at the signature of [Calculator.add]. *)
Lemma parsed_inputs_are_clean_witness :
  In "a" (fst (AgentDetails._parse_signature_parts "def add(self, a, b):")) /\
  "a" <> "" /\ "a" <> "self" /\ prefix "self," "a" = false /\
  head_is_space "a" = false /\ last_is_space "a" = false.
Proof.
  assert (H : In "a" (fst (AgentDetails._parse_signature_parts "def add(self, a, b):")))
    by (left; reflexivity).
  split; [exact H|].
  exact (SignatureParser.parsed_inputs_are_clean "def add(self, a, b):" "a" H).
Defined.

(** X16 at a signature with a tuple as a default value: the list of
    inputs ends in the middle of the tuple. *)
Lemma inputs_come_from_first_parentheses_witness :
  SignatureText.occurs "("%char "def f" = false /\
  SignatureText.occurs ")"%char "self, x=1, pair=[1, 2" = false /\
  fst (AgentDetails._parse_signature_parts
         ("def f" ++ "(" ++ "self, x=1, pair=[1, 2" ++ ")" ++ ", later=3):")) =
    AgentDetails.inputs_of_params "self, x=1, pair=[1, 2" /\
  fst (AgentDetails._parse_signature_parts "def f") = [] /\
  fst (AgentDetails._parse_signature_parts ("def f" ++ "(" ++ "self, x=1, pair=[1, 2")) = [].
Proof.
  split; [reflexivity|]. split; [reflexivity|].
  exact (SignatureParser.inputs_come_from_first_parentheses
           "def f" "self, x=1, pair=[1, 2" ", later=3):" eq_refl eq_refl).
Defined.

(** X17 at a parameter text with a comma after a closed bracket. *)
Lemma top_level_comma_separates_inputs_witness :
  SignatureText.net_depth "self, a: dict[str, int]" = 0%Z /\
  AgentDetails.inputs_of_params ("self, a: dict[str, int]" ++ "," ++ " b: int") =
    (AgentDetails.inputs_of_params "self, a: dict[str, int]"
       ++ AgentDetails.inputs_of_params " b: int")%list.
Proof.
  split; [reflexivity|].
  exact (SignatureParser.top_level_comma_separates_inputs
           "self, a: dict[str, int]" " b: int" eq_refl).
Defined.

(** X18 at a parameter of a dictionary type. *)
Lemma enclosed_commas_do_not_split_witness :
  SignatureText.commas_enclosed "a: dict[str, int]" /\
  fst (AgentDetails._parse_signature_parts
         ("def f" ++ "(" ++ "a: dict[str, int]" ++ ")" ++ ":")) = ["a: dict[str, int]"].
Proof.
  assert (H : SignatureText.commas_enclosed "a: dict[str, int]").
  { do 7 (apply SignatureText.commas_enclosed_char; [reflexivity..|]).
    apply (SignatureText.commas_enclosed_group "[" "str, int" "]" "");
      [reflexivity|reflexivity| |constructor].
    do 8 (apply SignatureText.enclosed_char; [reflexivity..|]). constructor. }
  split; [exact H|].
  exact (SignatureParser.enclosed_commas_do_not_split "def f" "a: dict[str, int]" ":"
           eq_refl eq_refl H).
Defined.

(** X19 at the last line of the signature of [Calculator.total]. *)
Lemma return_type_is_the_annotation_witness :
  str_in "->" "def total(self, xs) " = false /\
  snd (AgentDetails._parse_signature_parts
         ("def total(self, xs) " ++ "->" ++ " " ++ "int" ++ ":" ++ "")) = strip "int" /\
  snd (AgentDetails._parse_signature_parts "def total(self, xs) ") = "None".
Proof.
  split; [reflexivity|].
  apply (SignatureParser.return_type_is_the_annotation "def total(self, xs) " " " "int" "");
    try reflexivity.
  discriminate.
Defined.

(** X20 and X21 at the agent of agents/calc.py. *)
Lemma summary_counts_add_up_witness :
  exists agents agent,
    _extract_agent_info_from_ast cleandoc fs calc_py = Ok agents /\ In agent agents /\
    List.length (Screens.primitives (Screens.summarize agent))
      + List.length (Screens.decompositions (Screens.summarize agent)) =
      List.length (da_methods agent) /\
    (Screens.read_only_count (Screens.summarize agent)
       + Screens.mutable_count (Screens.summarize agent))%Z =
      Z.of_nat (List.length (Screens.primitives (Screens.summarize agent))).
Proof.
  do 2 eexists. split; [vm_compute; reflexivity|]. split; [left; reflexivity|].
  destruct (ScreenProperties.summary_counts_add_up cleandoc fs calc_py _ _
              eq_refl (or_introl eq_refl)) as (Hlen & _ & _ & Hsum).
  split; [exact Hlen|exact Hsum].
Defined.

Lemma details_screen_lists_every_method_witness :
  exists agents agent m,
    _extract_agent_info_from_ast cleandoc fs calc_py = Ok agents /\ In agent agents /\
    Screens.on_mount agent = Some m /\
    map dm_name (Screens.method_list m) = ["add"; "reset"; "total"] /\
    Permutation (Screens.method_list m) (da_methods agent) /\
    Screens.shown m = hd_error (Screens.method_list m).
Proof.
  do 3 eexists. split; [vm_compute; reflexivity|]. split; [left; reflexivity|].
  split; [vm_compute; reflexivity|]. split; [reflexivity|].
  destruct (ScreenProperties.details_screen_lists_every_method cleandoc fs calc_py _ _
              eq_refl (or_introl eq_refl)) as (m & Hm & _ & Hperm & Hshown).
  vm_compute in Hm. injection Hm as <-. split; [exact Hperm|exact Hshown].
Defined.

(** X22 and X23 at an empty cache. *)
Lemma saved_models_are_cached_for_the_day_witness :
  exists s',
    ModelCache.save_cached_models cache_env empty_store "openai" ["gpt-4o"] = (s', Ok tt) /\
    ModelCache.get_cached_models cache_env s' "openai" = Ok (Some ["gpt-4o"]) /\
    ModelCache.get_cached_models cache_env s' "groq" =
      ModelCache.get_cached_models cache_env empty_store "groq".
Proof.
  eexists. split; [reflexivity|].
  destruct (CacheProperties.saved_models_are_cached_for_the_day cache_env empty_store _
              "openai" ["gpt-4o"] eq_refl) as (Hsame & _ & Hother).
  split; [exact Hsame|]. apply Hother; [reflexivity|reflexivity|discriminate].
Defined.

Lemma returned_models_are_served_from_cache_witness :
  exists s',
    ModelCache.fetch_models_for_provider cache_env service empty_store "openai" =
      (s', Ok ["gpt-4o"; "gpt-4"]) /\
    ModelCache.fetch_models_for_provider cache_env service_down s' "openai" =
      (s', Ok ["gpt-4o"; "gpt-4"]).
Proof.
  eexists. split; [reflexivity|].
  exact (CacheProperties.returned_models_are_served_from_cache cache_env service
           service_down empty_store _ "openai" ["gpt-4o"; "gpt-4"] eq_refl).
Defined.

(** X24 at an empty cache when the service of a known provider is down,
    and at a cache file written today under the unknown name [mistral]. *)
Lemma failed_fetch_writes_nothing_witness :
  ModelCache.fetch_models_for_provider cache_env service_down empty_store "openai" =
    (empty_store, Raise OSError) /\
  ModelCache.known_provider "mistral" = false /\
  ModelCache.get_cached_models cache_env store_with_mistral "mistral" =
    Ok (Some ["mistral-large"]) /\
  ModelCache.fetch_models_for_provider cache_env service store_with_mistral "mistral" =
    (store_with_mistral, Ok ["mistral-large"]) /\
  ModelCache.fetch_models_for_provider cache_env service empty_store "mistral" =
    (empty_store, Raise ValueError).
Proof.
  split.
  - exact (proj1 (CacheProperties.failed_fetch_writes_nothing cache_env service_down
                    empty_store "openai") OSError eq_refl eq_refl eq_refl).
  - split; [reflexivity|]. split; [reflexivity|]. split.
    + destruct (proj2 (CacheProperties.failed_fetch_writes_nothing cache_env service
                         store_with_mistral "mistral") eq_refl) as (_ & _ & Hserved & _).
      exact (Hserved ["mistral-large"] eq_refl).
    + destruct (proj2 (CacheProperties.failed_fetch_writes_nothing cache_env service
                         empty_store "mistral") eq_refl) as (_ & _ & _ & Hnone).
      exact (Hnone eq_refl).
Defined.

(** X6, X12: the names of [Named]. The manifest name is the positional
    one, and the inline name is that of the nested class, whose call the
    traversal meets last. *)
Example names_of_the_named_class :
  _extract_manifest_filename named_class = Some "first.json" /\
  af_name (inline_fields named_class) = "Inner name".
Proof. split; reflexivity. Qed.

End MoreWitnesses.
